(** * Movie sentiment analyzer: text normaliser, prediction service, HTTP layer

    A shallow embedding of [backend/model.py] and [backend/app.py].

    - Python [str] values are lists of Unicode code points.
    - Library routines the repository calls but does not define ([html.unescape],
      [re.sub], [str.lower], [str.split], [str.join], [str.strip]) are modelled
      after their CPython behaviour; the Unicode tables involved (HTML5
      character references, case mappings of characters that are neither
      ASCII nor white space, the context test for a capital sigma) are fields
      of [PyLib].
    - The pickled vectorizer and classifier are fields of [SentimentAnalyzer];
      every call into them may raise.
    - Python dictionaries are [gmap]s keyed by [str]. *)

From Stdlib Require Import ZArith NArith QArith Qround String Ascii List Lia Bool.
From Stdlib Require Import DecimalString Lqa Sorted.
From stdpp Require Import base option list gmap countable fin_maps.
Import ListNotations.

Local Open Scope N_scope.

(** ** Strings *)

Abbreviation char := N (only parsing).
Abbreviation str := (list N) (only parsing).

(** A Python literal, written as a Rocq string of ASCII characters. *)
Definition py (s : string) : str := map N_of_ascii (list_ascii_of_string s).
Arguments py : simpl never.

Module Chr.
Definition newline : char := 10.
Definition space : char := 32.
Definition amp : char := 38.
Definition lt : char := 60.
Definition gt : char := 62.
(** U+03A3, and the two lower-case sigmas U+03C2 (final) and U+03C3. *)
Definition capital_sigma : char := 931.
Definition final_small_sigma : char := 962.
Definition small_sigma : char := 963.
End Chr.

(** [Py_UNICODE_ISSPACE]: the predicate behind [str.split()], [str.strip()],
    [str.isspace()] and the regular-expression classes [\s] / [\S]. *)
Definition isspace (c : char) : bool :=
  ((9 <=? c) && (c <=? 13)) || ((28 <=? c) && (c <=? 32))
  || (c =? 133) || (c =? 160) || (c =? 5760)
  || ((8192 <=? c) && (c <=? 8202))
  || (c =? 8232) || (c =? 8233) || (c =? 8239) || (c =? 8287) || (c =? 12288).

Definition is_ascii (c : char) : bool := c <? 128.

(** [Py_TOLOWER] on an ASCII code point. *)
Definition ascii_tolower (c : char) : char :=
  if (65 <=? c) && (c <=? 90) then c + 32 else c.

(** The Unicode tables CPython consults, which live outside the repository. *)
Class PyLib := {
  (** [_charref.sub(_replace_charref, s)] of [html/__init__.py], reached only
      when the text contains an ampersand. *)
  replace_charrefs : str -> str;
  (** [_PyUnicode_ToLowerFull] of [unicodectype.c] on a code point that is
      neither ASCII nor white space: the one to three code points it
      lower-cases to. *)
  tolower_full : char -> str;
  (** The test of [handle_capital_sigma] in [unicodeobject.c]: whether a
      capital sigma is final, given the characters before it (nearest first)
      and the characters after it. *)
  final_sigma : str -> str -> bool
}.

(** ** Library routines *)

Section Library.
Context {L : PyLib}.

(** [html.unescape]. *)
Definition unescape (s : str) : str :=
  if negb (existsb (N.eqb Chr.amp) s) then s else replace_charrefs s.

(** [lower_ucs4] of [unicodeobject.c]: what one character of a text that is
    not pure ASCII lower-cases to.  A capital sigma is decided by its context.
    Otherwise the case table is consulted; its entries for ASCII (the letters
    [A] to [Z] map to [a] to [z], nothing else changes) and for white space
    (no case mapping) are written out. *)
Definition lower_ucs4 (before : str) (c : char) (after : str) : str :=
  if c =? Chr.capital_sigma
  then [if final_sigma before after then Chr.final_small_sigma else Chr.small_sigma]
  else if is_ascii c then [ascii_tolower c]
  else if isspace c then [c]
  else tolower_full c.

(** [do_lower]: character by character, left to right.  [before] holds the
    characters already passed, most recent first. *)
Fixpoint do_lower (before : str) (s : str) : str :=
  match s with
  | [] => []
  | c :: rest => lower_ucs4 before c rest ++ do_lower (c :: before) rest
  end.

(** [case_operation(self, do_lower)], reached only when the text is not pure
    ASCII. *)
Definition unicode_lower (s : str) : str := do_lower [] s.

(** [str.lower]. *)
Definition lower (s : str) : str :=
  if forallb is_ascii s then map ascii_tolower s else unicode_lower s.
End Library.

(** [str.split()] with no separator: maximal runs of non-whitespace.
    [cur] is the token being read, most recent character first. *)
Fixpoint split_from (cur : str) (s : str) : list str :=
  match s with
  | [] => match cur with [] => [] | _ => [rev cur] end
  | c :: s' =>
      if isspace c
      then match cur with
           | [] => split_from [] s'
           | _ => rev cur :: split_from [] s'
           end
      else split_from (c :: cur) s'
  end.

Definition split (s : str) : list str := split_from [] s.

(** [sep.join(parts)]. *)
Fixpoint join (sep : str) (parts : list str) : str :=
  match parts with
  | [] => []
  | [p] => p
  | p :: rest => p ++ sep ++ join sep rest
  end.

(** [str.strip()] with no argument. *)
Fixpoint lstrip (s : str) : str :=
  match s with
  | c :: s' => if isspace c then lstrip s' else s
  | [] => []
  end.

Definition rstrip (s : str) : str := rev (lstrip (rev s)).
Definition strip (s : str) : str := rstrip (lstrip s).

(** ** Regular expressions

    A compiled pattern is represented by its matcher: given the text from the
    current position on, the length of the match that starts there, if any. *)
Definition pattern := str -> option nat.

(** [re.sub(p, '', text)] for a pattern that never matches the empty string:
    scan left to right; where a match starts, drop it and resume after its end;
    elsewhere copy the character.  [skip] counts the characters of the current
    match still to be dropped. *)
Fixpoint sub_from (p : pattern) (skip : nat) (s : str) : str :=
  match s with
  | [] => []
  | c :: s' =>
      match skip with
      | S k => sub_from p k s'
      | O =>
          match p s with
          | Some (S k) => sub_from p k s'
          | _ => c :: sub_from p 0 s'
          end
      end
  end.

Definition re_sub (p : pattern) (s : str) : str := sub_from p 0 s.

(** [.*?>] : lazily extend over characters other than line feed up to the
    first [>]. *)
Fixpoint lazy_any_then_gt (s : str) : option nat :=
  match s with
  | [] => None
  | c :: s' =>
      if c =? Chr.gt then Some 1%nat
      else if c =? Chr.newline then None
      else S <$> lazy_any_then_gt s'
  end.

(** [<.*?>] *)
Definition tag_pattern : pattern := fun s =>
  match s with
  | c :: s' => if c =? Chr.lt then S <$> lazy_any_then_gt s' else None
  | [] => None
  end.

(** [\S+] : greedy, at least one character. *)
Fixpoint nonspace_run (s : str) : nat :=
  match s with
  | c :: s' => if isspace c then 0%nat else S (nonspace_run s')
  | [] => 0%nat
  end.

(** A literal prefix followed by [\S+]. *)
Fixpoint literal_then_nonspace (lit : str) (s : str) : option nat :=
  match lit with
  | [] => match nonspace_run s with O => None | n => Some n end
  | l :: lit' =>
      match s with
      | c :: s' => if c =? l then S <$> literal_then_nonspace lit' s' else None
      | [] => None
      end
  end.

(** [http\S+|www\S+] : the alternatives are tried in order. *)
Definition url_pattern : pattern := fun s =>
  match literal_then_nonspace (py "http") s with
  | Some n => Some n
  | None => literal_then_nonspace (py "www") s
  end.

(** ** [SentimentAnalyzer.preprocess_text] *)

Section Normalizer.
Context {L : PyLib}.

Definition preprocess_text (text : str) : str :=
  let text := unescape text in
  let text := re_sub tag_pattern text in
  let text := re_sub url_pattern text in
  let text := lower text in
  let text := join (py " ") (split text) in
  text.
End Normalizer.

(** The tables restricted to what ASCII text needs: used to run the model on
    concrete ASCII inputs without ampersands, where no table is read. *)
Definition ascii_lib : PyLib :=
  {| replace_charrefs := fun s => s;
     tolower_full := fun c => [c];
     final_sigma := fun _ _ => false |}.

(** ** The normaliser, step by step, as a specification

    Each step below is written independently of the regular-expression
    engine: tag stripping as a one-pass filter with a hold-back buffer, URL
    removal token by token, whitespace collapsing as squeeze-then-trim. *)

(** On one pass: after a [<], characters are held back until either a [>]
    arrives (the held span is dropped) or the line or the text ends (the held
    characters are released unchanged).  [held] is the span held back so far,
    most recent character first. *)
Fixpoint strip_tags_from (held : option str) (s : str) : str :=
  match s with
  | [] => match held with Some h => rev h | None => [] end
  | c :: s' =>
      match held with
      | None =>
          if c =? Chr.lt then strip_tags_from (Some [c]) s'
          else c :: strip_tags_from None s'
      | Some h =>
          if c =? Chr.gt then strip_tags_from None s'
          else if c =? Chr.newline then rev h ++ c :: strip_tags_from None s'
          else strip_tags_from (Some (c :: h)) s'
      end
  end.

Definition strip_tags (s : str) : str := strip_tags_from None s.

(** [lit] is a prefix of [s]. *)
Fixpoint starts_with (lit s : str) : bool :=
  match lit, s with
  | [], _ => true
  | l :: lit', c :: s' => (c =? l) && starts_with lit' s'
  | _ :: _, [] => false
  end.

(** A URL starts at the head of token [tok]: [http] or [www] followed by at
    least one more character of the token. *)
Definition url_starts (tok : str) : bool :=
  (starts_with (py "http") tok && (4 <? length tok)%nat)
  || (starts_with (py "www") tok && (3 <? length tok)%nat).

(** The part of a token before the first place where a URL starts. *)
Fixpoint cut_url (tok : str) : str :=
  match tok with
  | [] => []
  | c :: tok' => if url_starts tok then [] else c :: cut_url tok'
  end.

(** Apply [f] to every whitespace-delimited token, leaving the whitespace
    between tokens as it is.  [cur] is the token being read, reversed. *)
Fixpoint on_tokens (f : str -> str) (cur : str) (s : str) : str :=
  match s with
  | [] => f (rev cur)
  | c :: s' =>
      if isspace c then f (rev cur) ++ c :: on_tokens f [] s'
      else on_tokens f (c :: cur) s'
  end.

Definition cut_urls (s : str) : str := on_tokens cut_url [] s.

(** Replace every maximal run of whitespace by one ASCII space. *)
Fixpoint squeeze (s : str) : str :=
  match s with
  | [] => []
  | c :: s' =>
      if isspace c
      then match s' with
           | c' :: _ => if isspace c' then squeeze s' else Chr.space :: squeeze s'
           | [] => [Chr.space]
           end
      else c :: squeeze s'
  end.

Definition collapse_whitespace (s : str) : str := strip (squeeze s).

(** *** The steps as the specification words them *)

(** Step 2 as worded: every span from a [<] to the nearest following [>],
    whatever lies between. *)
Fixpoint strip_tags_as_specified (held : option str) (s : str) : str :=
  match s with
  | [] => match held with Some h => rev h | None => [] end
  | c :: s' =>
      match held with
      | None =>
          if c =? Chr.lt then strip_tags_as_specified (Some [c]) s'
          else c :: strip_tags_as_specified None s'
      | Some h =>
          if c =? Chr.gt then strip_tags_as_specified None s'
          else strip_tags_as_specified (Some (c :: h)) s'
      end
  end.

(** Step 3 as worded: a token that begins with [http] or [www] goes whole. *)
Definition drop_url_token_as_specified (tok : str) : str :=
  if starts_with (py "http") tok || starts_with (py "www") tok then [] else tok.

Section NormalizerSpecification.
Context {L : PyLib}.

Definition normalize_as_specified (text : str) : str :=
  let text := unescape text in
  let text := strip_tags_as_specified None text in
  let text := on_tokens drop_url_token_as_specified [] text in
  let text := lower text in
  collapse_whitespace text.

Definition normalize_steps (text : str) : str :=
  let text := unescape text in
  let text := strip_tags text in
  let text := cut_urls text in
  let text := lower text in
  collapse_whitespace text.
End NormalizerSpecification.

(** ** Predicates on texts *)

(** Pattern [p] matches somewhere in [s]. *)
Fixpoint has_match (p : pattern) (s : str) : bool :=
  match s with
  | [] => false
  | _ :: s' => (if p s is Some _ then true else false) || has_match p s'
  end.

(** Two adjacent whitespace characters. *)
Fixpoint has_whitespace_run (s : str) : bool :=
  match s with
  | c :: (c' :: _) as s' => (isspace c && isspace c') || has_whitespace_run s'
  | _ => false
  end.

(** Whitespace already in canonical form: only single ASCII spaces, and only
    between two non-whitespace characters. *)
Fixpoint spaces_inside (s : str) : bool :=
  match s with
  | [] => true
  | c :: s' =>
      (if isspace c
       then (c =? Chr.space) && match s' with c' :: _ => negb (isspace c') | [] => false end
       else true)
      && spaces_inside s'
  end.

Definition whitespace_canonical (s : str) : bool :=
  match s with
  | [] => true
  | c :: _ => negb (isspace c) && spaces_inside s
  end.

(** The token at the head of a text and what follows it. *)
Definition token (s : str) : str := take (nonspace_run s) s.
Definition after_token (s : str) : str := drop (nonspace_run s) s.

(** A whitespace-delimited token: non-empty, no whitespace inside. *)
Definition is_token (t : str) : Prop :=
  t <> [] /\ forallb (fun c => negb (isspace c)) t = true.

(** Some token of the text begins with [http] or [www]. *)
Definition has_url_token (s : str) : bool :=
  existsb (fun t => starts_with (py "http") t || starts_with (py "www") t) (split s).

(** The angle brackets of a text, in order. *)
Definition is_angle (c : char) : bool := (c =? Chr.lt) || (c =? Chr.gt).
Definition angles (s : str) : str := List.filter is_angle s.

(** A [<] with a [>] somewhere after it. *)
Fixpoint angle_pair (s : str) : bool :=
  match s with
  | [] => false
  | c :: s' => ((c =? Chr.lt) && existsb (N.eqb Chr.gt) s') || angle_pair s'
  end.

Section Clean.
Context {L : PyLib}.

(** Nothing for steps 1, 2, 3 and 5 to do: no entity to decode, no tag and
    no URL to remove, whitespace already canonical. *)
Definition clean (x : str) : Prop :=
  unescape x = x
  /\ has_match tag_pattern x = false
  /\ has_match url_pattern x = false
  /\ whitespace_canonical x = true.

(** Free of HTML, URLs and extra whitespace in the words of the
    specification: a URL-like token is one that begins with [http] or
    [www]. *)
Definition clean_as_specified (x : str) : Prop :=
  unescape x = x
  /\ has_match tag_pattern x = false
  /\ has_url_token x = false
  /\ whitespace_canonical x = true.
End Clean.

(** ** Python values, exceptions, floats *)

(** What the code needs from binary64 arithmetic. *)
Class FloatOps (F : Type) := {
  f_of_Z : Z -> F;
  fmul : F -> F -> F;
  fsub : F -> F -> F;
  (** [a > b] *)
  fgt : F -> F -> bool;
  (** [a <= b] *)
  fle : F -> F -> bool;
  (** [bool(x)] *)
  ftruthy : F -> bool;
  (** [round(x, ndigits)] *)
  fround : F -> Z -> F
}.

(** Order facts about [*], [round] and the comparisons that hold of binary64
    (comparisons with a NaN are false, which is why reflexivity is derived
    from a successful comparison rather than assumed). *)
Class FloatLaws (F : Type) {FO : FloatOps F} : Prop := {
  fle_trans : forall a b c, fle a b = true -> fle b c = true -> fle a c = true;
  fle_ordered : forall a b, fle a b = true -> fle a a = true /\ fle b b = true;
  fgt_fle : forall a b, fgt a b = true -> fle b a = true;
  not_fgt_fle :
    forall a b, fle a a = true -> fle b b = true -> fgt a b = false -> fle a b = true;
  fmul_100_mono :
    forall a b, fle a b = true ->
                fle (fmul a (f_of_Z 100)) (fmul b (f_of_Z 100)) = true;
  fmul_0_100 : fmul (f_of_Z 0) (f_of_Z 100) = f_of_Z 0;
  fmul_1_100 : fmul (f_of_Z 1) (f_of_Z 100) = f_of_Z 100;
  fround_mono : forall a b n, fle a b = true -> fle (fround a n) (fround b n) = true;
  fround_0 : fround (f_of_Z 0) 2 = f_of_Z 0;
  fround_100 : fround (f_of_Z 100) 2 = f_of_Z 100
}.

(** The values JSON can carry, which are the values that reach this code. *)
#[local] Set Warnings "-register-all".
Inductive value {F : Type} :=
  | VNone
  | VBool (b : bool)
  | VInt (z : Z)
  | VFloat (x : F)
  | VStr (s : str)
  | VList (l : list value)
  | VDict (d : gmap (list N) value).
#[local] Set Warnings "register-all".
Arguments value : clear implicits.

Abbreviation dict F := (gmap (list N) (value F)).

(** An instance of [Exception]: its [str(e)] and, for werkzeug's HTTP
    exceptions, the status code. *)
Record exn := { exn_str : str; http_code : option Z }.

Definition Exception (msg : str) : exn := {| exn_str := msg; http_code := None |}.
Definition BadRequest : exn :=
  {| exn_str := py "400 Bad Request: Failed to decode JSON object";
     http_code := Some 400%Z |}.

Inductive result (A : Type) :=
  | Ok (a : A)
  | Raise (e : exn).
Arguments Ok {A} a.
Arguments Raise {A} e.

(** Sequencing: the first exception raised ends the computation. *)
#[global] Instance result_bind : MBind result := fun A B k r =>
  match r with Ok a => k a | Raise e => Raise e end.

(** [try: body  except Exception as e: handler(e)] *)
Definition try_except {A} (body : result A) (handler : exn -> result A) : result A :=
  match body with Ok a => Ok a | Raise e => handler e end.

(** A class label as the classifier hands it out: an integer, or some other
    object known by what [== 1] and [int()] make of it. *)
Inductive label :=
  | LInt (z : Z)
  | LObj (eq_one : result bool) (to_int : result Z).

Definition label_eq_one (l : label) : result bool :=
  match l with LInt z => Ok (z =? 1)%Z | LObj e _ => e end.

Definition label_int (l : label) : result Z :=
  match l with LInt z => Ok z | LObj _ c => c end.

(** The unpickled vectorizer and classifier. *)
Record SentimentAnalyzer {F : Type} := {
  features : Type;
  (** [self.vectorizer.transform] *)
  vectorizer_transform : list (list N) -> result features;
  (** [self.model.predict] *)
  model_predict : features -> result (list label);
  (** [self.model.predict_proba] *)
  model_predict_proba : features -> result (list (list F))
}.
Arguments SentimentAnalyzer : clear implicits.

(** [xs[0]] *)
Definition index0 {A} (xs : list A) : result A :=
  match xs with
  | x :: _ => Ok x
  | [] => Raise (Exception (py "index 0 is out of bounds for axis 0 with size 0"))
  end.

(** [haystack] contains [needle] as a substring. *)
Fixpoint is_substring (needle haystack : str) : bool :=
  starts_with needle haystack
  || match haystack with
     | [] => false
     | _ :: rest => is_substring needle rest
     end.

Definition has_key {V} (k : str) (d : gmap (list N) V) : bool :=
  match d !! k with Some _ => true | None => false end.

(** [str(n)] for an integer. *)
Definition str_of_Z (z : Z) : str := py (NilZero.string_of_int (Z.to_int z)).

Definition quote : str := [34].

Section Values.
Context {F : Type} {FO : FloatOps F}.

(** Truth value of an object. *)
Definition truthy (v : value F) : bool :=
  match v with
  | VNone => false
  | VBool b => b
  | VInt z => negb (z =? 0)%Z
  | VFloat x => ftruthy x
  | VStr s => match s with [] => false | _ => true end
  | VList l => match l with [] => false | _ => true end
  | VDict d => negb (bool_decide (d = ∅))
  end.

Definition isinstance_str (v : value F) : bool :=
  match v with VStr _ => true | _ => false end.

(** Passing a value where the library wants a [str]. *)
Definition as_str (v : value F) : result str :=
  match v with
  | VStr s => Ok s
  | _ => Raise (Exception (py "argument is not iterable"))
  end.

(** [key in data] for a string key. *)
Definition py_in (key : str) (data : value F) : result bool :=
  match data with
  | VDict d => Ok (has_key key d)
  | VList l =>
      Ok (existsb (fun v => match v with
                            | VStr s => bool_decide (s = key)
                            | _ => false
                            end) l)
  | VStr s => Ok (is_substring key s)
  | _ => Raise (Exception (py "argument is not iterable"))
  end.

(** [data[key]] for a string key. *)
Definition py_getitem (data : value F) (key : str) : result (value F) :=
  match data with
  | VDict d =>
      match d !! key with
      | Some v => Ok v
      | None => Raise (Exception (quote ++ key ++ quote))
      end
  | VList _ => Raise (Exception (py "list indices must be integers or slices, not str"))
  | VStr _ => Raise (Exception (py "string indices must be integers"))
  | _ => Raise (Exception (py "object is not subscriptable"))
  end.

(** [max(xs)]: the first item no later item is greater than. *)
Definition py_max (xs : list F) : result F :=
  match xs with
  | [] => Raise (Exception (py "max() arg is an empty sequence"))
  | x :: rest => Ok (fold_left (fun m item => if fgt item m then item else m) rest x)
  end.
End Values.

(** ** [SentimentAnalyzer.predict] *)

Section Predict.
Context {F : Type} {FO : FloatOps F} {L : PyLib}.

Definition invalid_input : dict F :=
  {[ py "error" := VStr (py "Invalid input: review text must be a non-empty string") ]}.

Definition prediction_failed (e : exn) : dict F :=
  {[ py "error" := VStr (py "Prediction failed: " ++ exn_str e) ]}.

(** The [try] block from vectorisation on.  [times] holds the two readings
    of [time.time()] taken around the classifier calls. *)
Definition classify (a : SentimentAnalyzer F) (times : F * F)
    (clean_text : str) : result (dict F) :=
  tfidf_features ← vectorizer_transform a [clean_text];
  let start_time := times.1 in
  predictions ← model_predict a tfidf_features;
  prediction ← index0 predictions;
  probabilities ← model_predict_proba a tfidf_features;
  probability ← index0 probabilities;
  let prediction_time := fmul (fsub times.2 start_time) (f_of_Z 1000) in
  is_one ← label_eq_one prediction;
  let sentiment := if (is_one : bool) then py "Positive" else py "Negative" in
  top ← py_max probability;
  let confidence := fmul top (f_of_Z 100) in
  label_value ← label_int prediction;
  Ok (<[py "sentiment" := VStr sentiment]>
      (<[py "confidence" := VFloat (fround confidence 2)]>
       (<[py "prediction_time_ms" := VFloat (fround prediction_time 2)]>
        {[ py "label" := VInt label_value ]}))).

(** The body of the [try] block. *)
Definition predict_steps (a : SentimentAnalyzer F) (times : F * F)
    (review_text : value F) : result (dict F) :=
  text ← as_str review_text;
  let clean_text := preprocess_text text in
  classify a times clean_text.

Definition predict (a : SentimentAnalyzer F) (times : F * F)
    (review_text : value F) : result (dict F) :=
  if negb (truthy review_text) || negb (isinstance_str review_text)
  then Ok invalid_input
  else try_except (predict_steps a times review_text)
                  (fun e => Ok (prediction_failed e)).
End Predict.

(** A Prediction Outcome and an Error, as dictionaries. *)
Definition is_error {F} (d : dict F) : Prop :=
  exists msg, d !! py "error" = Some (VStr msg).

Definition is_outcome {F} (d : dict F) : Prop :=
  d !! py "error" = None
  /\ (exists s, d !! py "sentiment" = Some (VStr s))
  /\ (exists c, d !! py "confidence" = Some (VFloat c))
  /\ (exists t, d !! py "prediction_time_ms" = Some (VFloat t))
  /\ (exists l, d !! py "label" = Some (VInt l)).

(** The classifier answers with class labels 0 or 1 and with probabilities
    between 0 and 1. *)
Definition well_behaved {F} {FO : FloatOps F} (a : SentimentAnalyzer F) : Prop :=
  (forall f ls, model_predict a f = Ok ls ->
                Forall (fun l => l = LInt 0 \/ l = LInt 1) ls)
  /\ (forall f rows, model_predict_proba a f = Ok rows ->
                     Forall (Forall (fun p => fle (f_of_Z 0) p = true
                                              /\ fle p (f_of_Z 1) = true)) rows).

(** [answer] is what running the vectorizer and then the classifier on
    [clean_text] gives: the exception of the first of the three calls that
    raises, reported as a prediction failure; when none raises, the outcome
    built from the label and the probabilities the classifier returned. *)
Definition consults_model {F} {FO : FloatOps F} (a : SentimentAnalyzer F)
    (times : F * F) (clean_text : str) (answer : result (dict F)) : Prop :=
  (forall e,
     vectorizer_transform a [clean_text] = Raise e ->
     answer = Ok (prediction_failed e))
  /\ (forall f e,
        vectorizer_transform a [clean_text] = Ok f ->
        model_predict a f = Raise e ->
        answer = Ok (prediction_failed e))
  /\ (forall f pred preds e,
        vectorizer_transform a [clean_text] = Ok f ->
        model_predict a f = Ok (pred :: preds) ->
        model_predict_proba a f = Raise e ->
        answer = Ok (prediction_failed e))
  /\ (forall f pred preds row rows is_one top lab,
        vectorizer_transform a [clean_text] = Ok f ->
        model_predict a f = Ok (pred :: preds) ->
        model_predict_proba a f = Ok (row :: rows) ->
        label_eq_one pred = Ok is_one ->
        py_max row = Ok top ->
        label_int pred = Ok lab ->
        answer =
          Ok (<[py "sentiment" :=
                  VStr (if (is_one : bool) then py "Positive" else py "Negative")]>
              (<[py "confidence" := VFloat (fround (fmul top (f_of_Z 100)) 2)]>
               (<[py "prediction_time_ms" :=
                    VFloat (fround (fmul (fsub times.2 times.1) (f_of_Z 1000)) 2)]>
                {[ py "label" := VInt lab ]})))).

(** ** [app.py] *)

Inductive response {F : Type} :=
  (** [jsonify(body), status] *)
  | Json (body : dict F) (status : Z)
  (** the page werkzeug renders for an HTTP exception nobody handles *)
  | ErrorPage (status : Z).
Arguments response : clear implicits.

Definition status_of {F} (r : response F) : Z :=
  match r with Json _ st => st | ErrorPage st => st end.

(** What module initialisation leaves behind. *)
Record App {F : Type} := {
  (** [None] when loading the model raised *)
  analyzer : option (SentimentAnalyzer F);
  MAX_REVIEW_LENGTH : Z;
  (** [json.load] of [model_metadata.json]; [None] when reading it raises *)
  model_metadata : option (value F)
}.
Arguments App : clear implicits.

(** The view functions, plus the two outcomes of routing that reach none. *)
Inductive endpoint :=
  | Home | HealthCheck | GetStats | PredictSentiment | PredictBatch
  | NoSuchRoute | WrongMethod.

(** A request together with what the clock showed while it was served. *)
Record request {F : Type} := {
  target : endpoint;
  (** [request.is_json] *)
  is_json : bool;
  (** the parsed body; [None] when it does not parse *)
  json : option (value F);
  (** [time.time()] in [health_check] *)
  now : F;
  (** the two readings of [time.time()] in the [i]-th call of [predict] *)
  times : nat -> F * F
}.
Arguments request : clear implicits.

(** [request.get_json()] *)
Definition get_json {F} (r : request F) : result (value F) :=
  match json r with Some v => Ok v | None => Raise BadRequest end.

(** A view function's run: the global counter afterwards, the arguments of the
    calls of [analyzer.predict] it made, and what it returned or raised. *)
Record served {F : Type} := {
  new_request_count : Z;
  predicted : list (value F);
  returned : result (response F)
}.
Arguments served : clear implicits.

Section Views.
Context {F : Type} {FO : FloatOps F} {L : PyLib}.

Definition home (app : App F) : response F :=
  Json (<[py "status" := VStr (py "online")]>
        (<[py "message" := VStr (py "Movie Sentiment Analyzer API")]>
         (<[py "version" := VStr (py "1.0.0")]>
          (<[py "model_loaded" := VBool (bool_decide (is_Some (analyzer app)))]>
           {[ py "endpoints" :=
                VDict (<[py "predict" := VStr (py "/api/predict")]>
                       (<[py "health" := VStr (py "/api/health")]>
                        {[ py "stats" := VStr (py "/api/stats") ]})) ]}))))
       200.

Definition health_check (app : App F) (r : request F) (request_count : Z)
    : response F :=
  Json (<[py "status" := VStr (py "healthy")]>
        (<[py "model_loaded" := VBool (bool_decide (is_Some (analyzer app)))]>
         (<[py "total_requests" := VInt request_count]>
          {[ py "timestamp" := VFloat (now r) ]})))
       200.

Definition get_stats (app : App F) (request_count : Z) : response F :=
  match analyzer app with
  | None => Json {[ py "error" := VStr (py "Model not loaded") ]} 503
  | Some _ =>
      let metadata := match model_metadata app with
                      | Some m => m
                      | None => VDict ∅
                      end in
      Json (<[py "total_requests" := VInt request_count]>
            (<[py "model_info" := metadata]>
             {[ py "max_review_length" := VInt (MAX_REVIEW_LENGTH app) ]}))
           200
  end.

Definition error_message (error message : str) : dict F :=
  <[py "error" := VStr error]> {[ py "message" := VStr message ]}.

Definition predict_sentiment (app : App F) (r : request F) (request_count : Z)
    : served F :=
  let request_count := (request_count + 1)%Z in
  let answer (x : result (response F)) :=
    {| new_request_count := request_count; predicted := []; returned := x |} in
  match analyzer app with
  | None =>
      answer (Ok (Json (error_message (py "Model not available")
                          (py "Sentiment analysis model failed to load")) 503))
  | Some a =>
  if negb (is_json r) then
    answer (Ok (Json (error_message (py "Invalid request format")
                        (py "Request must be JSON with Content-Type: application/json"))
                  400))
  else
  match get_json r with
  | Raise e => answer (Raise e)
  | Ok data =>
  match py_in (py "review") data with
  | Raise e => answer (Raise e)
  | Ok present =>
  if negb present then
    answer (Ok (Json (error_message (py "Missing required field")
                        (py "Request body must contain " ++ quote ++ py "review"
                         ++ quote ++ py " field")) 400))
  else
  match py_getitem data (py "review") with
  | Raise e => answer (Raise e)
  | Ok review_text =>
  match review_text with
  | VStr text =>
      if negb (truthy (VStr (F:=F) (strip text))) then
        answer (Ok (Json (error_message (py "Empty review")
                            (py "Review text cannot be empty")) 400))
      else if (MAX_REVIEW_LENGTH app <? Z.of_nat (length text))%Z then
        answer (Ok (Json (<[py "current_length" := VInt (Z.of_nat (length text))]>
                          (error_message (py "Review too long")
                             (py "Review must be less than "
                              ++ str_of_Z (MAX_REVIEW_LENGTH app)
                              ++ py " characters"))) 400))
      else
        {| new_request_count := request_count;
           predicted := [review_text];
           returned :=
             try_except
               (result ← predict a (times r 0) review_text;
                if has_key (py "error") result then Ok (Json result 500)
                else
                  let result :=
                    <[py "review_length" := VInt (Z.of_nat (length text))]> result in
                  let result := <[py "request_id" := VInt request_count]> result in
                  Ok (Json result 200))
               (fun e => Ok (Json (error_message (py "Prediction failed") (exn_str e))
                               500)) |}
  | _ =>
      answer (Ok (Json (error_message (py "Invalid review format")
                          (py "Review must be a string")) 400))
  end end end end end.

Definition item_error (i : nat) (error : str) : dict F :=
  <[py "index" := VInt (Z.of_nat i)]> {[ py "error" := VStr error ]}.

(** The [for i, review in enumerate(reviews)] loop, from index [i] on. *)
Fixpoint batch_loop (a : SentimentAnalyzer F) (times : nat -> F * F) (i : nat)
    (reviews : list (value F)) (request_count : Z) (results : list (dict F))
    (predicted : list (value F)) : Z * list (dict F) * list (value F) :=
  match reviews with
  | [] => (request_count, results, predicted)
  | review :: rest =>
      let request_count := (request_count + 1)%Z in
      let blank := match review with
                   | VStr text => negb (truthy (VStr (F:=F) (strip text)))
                   | _ => true
                   end in
      if blank then
        batch_loop a times (S i) rest request_count
          (results ++ [item_error i (py "Invalid or empty review")]) predicted
      else
        let entry := match predict a (times i) review with
                     | Ok result => <[py "index" := VInt (Z.of_nat i)]> result
                     | Raise e => item_error i (exn_str e)
                     end in
        batch_loop a times (S i) rest request_count (results ++ [entry])
          (predicted ++ [review])
  end.

Definition error_only (error : str) : dict F := {[ py "error" := VStr error ]}.

Definition predict_batch (app : App F) (r : request F) (request_count : Z)
    : served F :=
  let answer (x : result (response F)) :=
    {| new_request_count := request_count; predicted := []; returned := x |} in
  match analyzer app with
  | None => answer (Ok (Json (error_only (py "Model not available")) 503))
  | Some a =>
  if negb (is_json r) then
    answer (Ok (Json (error_only (py "Invalid request format")) 400))
  else
  match get_json r with
  | Raise e => answer (Raise e)
  | Ok data =>
  match py_in (py "reviews") data with
  | Raise e => answer (Raise e)
  | Ok present =>
  if negb present then
    answer (Ok (Json (error_only (py "Missing required field " ++ quote
                                  ++ py "reviews" ++ quote)) 400))
  else
  match py_getitem data (py "reviews") with
  | Raise e => answer (Raise e)
  | Ok (VList reviews) =>
      if (length reviews =? 0)%nat then
        answer (Ok (Json (error_only (py "Reviews list cannot be empty")) 400))
      else if (100 <? length reviews)%nat then
        answer (Ok (Json (error_only (py "Maximum 100 reviews per batch request"))
                      400))
      else
        let '(request_count, results, predicted) :=
          batch_loop a (times r) 0 reviews request_count [] [] in
        {| new_request_count := request_count;
           predicted := predicted;
           returned :=
             Ok (Json (<[py "total_reviews" := VInt (Z.of_nat (length reviews))]>
                       (<[py "successful_predictions" :=
                            VInt (Z.of_nat (length
                              (List.filter (fun r => negb (has_key (py "error") r))
                                 results)))]>
                        {[ py "results" := VList (VDict <$> results) ]}))
                   200) |}
  | Ok _ => answer (Ok (Json (error_only (py "Reviews must be a list")) 400))
  end end end end.

Definition not_found : response F :=
  Json (error_message (py "Endpoint not found")
          (py "The requested URL was not found on the server")) 404.

Definition internal_error : response F :=
  Json (error_message (py "Internal server error")
          (py "An unexpected error occurred")) 500.

(** Routing to a view function. *)
Definition serve (app : App F) (r : request F) (request_count : Z) : served F :=
  let answer (x : response F) :=
    {| new_request_count := request_count; predicted := []; returned := Ok x |} in
  match target r with
  | Home => answer (home app)
  | HealthCheck => answer (health_check app r request_count)
  | GetStats => answer (get_stats app request_count)
  | PredictSentiment => predict_sentiment app r request_count
  | PredictBatch => predict_batch app r request_count
  | NoSuchRoute => answer not_found
  | WrongMethod => answer (ErrorPage 405)
  end.

(** What Flask sends: the view's response, the page of an HTTP exception,
    or the registered handler for code 500. *)
Definition respond (x : result (response F)) : response F :=
  match x with
  | Ok resp => resp
  | Raise e =>
      match http_code e with
      | Some code => ErrorPage code
      | None => internal_error
      end
  end.

Definition handle (app : App F) (r : request F) (request_count : Z)
    : Z * response F :=
  let s := serve app r request_count in
  (new_request_count s, respond (returned s)).

(** Requests served one after the other. *)
Fixpoint run (app : App F) (rs : list (request F)) (request_count : Z)
    : Z * list (response F) :=
  match rs with
  | [] => (request_count, [])
  | r :: rest =>
      let '(request_count, resp) := handle app r request_count in
      let '(request_count, resps) := run app rest request_count in
      (request_count, resp :: resps)
  end.
End Views.

(** The [request_id] a response carries, if any. *)
Definition request_id_of {F} (resp : response F) : option Z :=
  match resp with
  | Json body _ =>
      match body !! py "request_id" with
      | Some (VInt k) => Some k
      | _ => None
      end
  | ErrorPage _ => None
  end.

Definition request_ids {F} (resps : list (response F)) : list Z :=
  omap request_id_of resps.

(** A request that passes every check of [predict_sentiment] before the
    prediction: model loaded, JSON object with a string under ["review"] that
    is not blank and not longer than the limit. *)
Definition valid_review_request {F} {FO : FloatOps F} (app : App F) (r : request F)
    (a : SentimentAnalyzer F) (text : str) : Prop :=
  analyzer app = Some a
  /\ is_json r = true
  /\ (exists d, json r = Some (VDict d) /\ d !! py "review" = Some (VStr text))
  /\ strip text <> []
  /\ (Z.of_nat (length text) <= MAX_REVIEW_LENGTH app)%Z.

(** What [predict_sentiment] answers once the checks are passed, the counter
    standing at [request_count]. *)
Definition review_answer {F} {FO : FloatOps F} {L : PyLib} (a : SentimentAnalyzer F)
    (times : F * F) (request_count : Z) (text : str) : response F :=
  match predict a times (VStr text) with
  | Ok result =>
      if has_key (py "error") result then Json result 500
      else Json (<[py "request_id" := VInt request_count]>
                 (<[py "review_length" := VInt (Z.of_nat (length text))]> result))
             200
  | Raise e => Json (error_message (py "Prediction failed") (exn_str e)) 500
  end.

(** A batch request that passes the request-level checks of
    [predict_batch]. *)
Definition accepted_batch {F} (app : App F) (r : request F)
    (a : SentimentAnalyzer F) (reviews : list (value F)) : Prop :=
  analyzer app = Some a
  /\ is_json r = true
  /\ (exists d, json r = Some (VDict d) /\ d !! py "reviews" = Some (VList reviews))
  /\ (1 <= length reviews <= 100)%nat.

(** A response that reports a failure: a status other than 200 and, when it
    is JSON, an ["error"] field. *)
Definition rejected {F} (resp : response F) : Prop :=
  match resp with
  | Json body st => st <> 200%Z /\ is_Some (body !! py "error")
  | ErrorPage st => st <> 200%Z
  end.

(** The entry the batch loop appends for the item at position [i]. *)
Definition batch_entry {F} {FO : FloatOps F} {L : PyLib} (a : SentimentAnalyzer F)
    (times : nat -> F * F) (i : nat) (review : value F) : dict F :=
  match review with
  | VStr text =>
      if negb (truthy (VStr (F:=F) (strip text)))
      then item_error i (py "Invalid or empty review")
      else match predict a (times i) review with
           | Ok result => <[py "index" := VInt (Z.of_nat i)]> result
           | Raise e => item_error i (exn_str e)
           end
  | _ => item_error i (py "Invalid or empty review")
  end.

(** The entry comes from [predict]: the item is a string that is not blank. *)
Definition reaches_predict {F} {FO : FloatOps F} (review : value F) : bool :=
  match review with
  | VStr text => truthy (VStr (F:=F) (strip text))
  | _ => false
  end.

(** A response without the two fields that report the counter. *)
Definition without_counter {F} (resp : response F) : response F :=
  match resp with
  | Json body st =>
      Json (delete (py "request_id") (delete (py "total_requests") body)) st
  | ErrorPage st => ErrorPage st
  end.

(** ** Start-up: [SentimentAnalyzer.__init__], [load_models], module level *)

(** [os.path.join(a, b)] on POSIX. *)
Definition path_join (a b : str) : str :=
  if starts_with (py "/") b then b
  else match rev a with
       | [] => b
       | c :: _ => if c =? 47 then a ++ b else a ++ py "/" ++ b
       end.

(** An unpickled object, known by the three methods the service calls on
    it; a method the object lacks raises. *)
Record pyobj {F Feat : Type} := {
  obj_transform : list (list N) -> result Feat;
  obj_predict : Feat -> result (list label);
  obj_predict_proba : Feat -> result (list (list F))
}.
Arguments pyobj : clear implicits.

Section Startup.
Context {F Feat : Type}.

(** [read path] stands for [open(path, 'rb')] followed by [pickle.load].
    Writing the success line to the console is taken to succeed. *)
Definition load_models (read : list N -> result (pyobj F Feat)) (model_path : str)
    : result (pyobj F Feat * pyobj F Feat) :=
  try_except
    (let model_file := path_join model_path (py "lr_model.pkl") in
     let vectorizer_file := path_join model_path (py "tfidf_vectorizer.pkl") in
     model ← read model_file;
     vectorizer ← read vectorizer_file;
     Ok (model, vectorizer))
    (fun e => Raise (Exception (py "Failed to load models: " ++ exn_str e))).

(** [SentimentAnalyzer(model_path)] *)
Definition new_analyzer (read : list N -> result (pyobj F Feat)) (model_path : str)
    : result (SentimentAnalyzer F) :=
  loaded ← load_models read model_path;
  Ok {| features := Feat;
        vectorizer_transform := obj_transform loaded.2;
        model_predict := obj_predict loaded.1;
        model_predict_proba := obj_predict_proba loaded.1 |}.

(** [os.getenv(key, default)] *)
Definition getenv (env : gmap (list N) (list N)) (key default : str) : str :=
  match env !! key with Some v => v | None => default end.

(** Module initialisation of [app.py], given the environment, the limit
    [int(os.getenv('MAX_REVIEW_LENGTH', 5000))] and what reading the metadata
    file gives. *)
Definition startup (env : gmap (list N) (list N))
    (read : list N -> result (pyobj F Feat)) (max_review_length : Z)
    (metadata : option (value F)) : App F :=
  let model_path := getenv env (py "MODEL_PATH") (py "models") in
  {| analyzer := match new_analyzer read model_path with
                 | Ok a => Some a
                 | Raise _ => None
                 end;
     MAX_REVIEW_LENGTH := max_review_length;
     model_metadata := metadata |}.
End Startup.

(** ** Exact rationals as floats

    An instance of the float interface without rounding error in [*] and [-],
    with [round] to the nearest multiple of [10^-ndigits], ties to even.  It
    serves to run the model on concrete data and is not binary64: where a
    binary64 product is inexact the two can differ in the last digit [round]
    keeps (for the probability 0.50005 the product with 100 is slightly above
    50.005 in binary64, which rounds to 50.01, and exactly 50.005 here, which
    rounds to 50.0).  The theorems are stated over the interface and do not
    depend on this instance; the runs below use probabilities and clock
    readings on which both agree. *)

Definition round_half_even (q : Q) : Z :=
  let f := Qfloor q in
  match ((q - inject_Z f) ?= 1 # 2)%Q with
  | Lt => f
  | Gt => (f + 1)%Z
  | Eq => if Z.even f then f else (f + 1)%Z
  end.

Definition Qscale (n : Z) : Q :=
  if (0 <=? n)%Z then inject_Z (10 ^ n) else (/ inject_Z (10 ^ (- n)))%Q.

Definition Qround_digits (x : Q) (n : Z) : Q :=
  Qred (inject_Z (round_half_even (x * Qscale n)) / Qscale n).

#[export] Instance Q_float_ops : FloatOps Q := {|
  f_of_Z := inject_Z;
  fmul a b := Qred (a * b);
  fsub a b := Qred (a - b);
  fgt a b := negb (Qle_bool a b);
  fle := Qle_bool;
  ftruthy x := negb (Qeq_bool x 0);
  fround := Qround_digits
|}.

(** A stand-in analyzer for running the model: the features are the cleaned
    text, every text is classified positive with probabilities 0.2 / 0.8. *)
Definition toy_analyzer : SentimentAnalyzer Q := {|
  features := list (list N);
  vectorizer_transform docs := Ok docs;
  model_predict f := Ok (map (fun _ => LInt 1) f);
  model_predict_proba f := Ok (map (fun _ => [2 # 10; 8 # 10]%Q) f)
|}.

Definition toy_app : App Q := {|
  analyzer := Some toy_analyzer;
  MAX_REVIEW_LENGTH := 5000;
  model_metadata := None
|}.

(** The service when loading the model failed. *)
Definition no_model_app : App Q := {|
  analyzer := None;
  MAX_REVIEW_LENGTH := 5000;
  model_metadata := None
|}.

(** What [predict] makes of any text with [toy_analyzer], clock at zero. *)
Definition toy_outcome : dict Q :=
  <[py "sentiment" := VStr (py "Positive")]>
  (<[py "confidence" := VFloat 80%Q]>
   (<[py "prediction_time_ms" := VFloat 0%Q]>
    {[ py "label" := VInt 1 ]})).

(** The pickled classifier and vectorizer behind [toy_analyzer]. *)
Definition toy_object : pyobj Q (list (list N)) := {|
  obj_transform docs := Ok docs;
  obj_predict f := Ok (map (fun _ => LInt 1) f);
  obj_predict_proba f := Ok (map (fun _ => [2 # 10; 8 # 10]%Q) f)
|}.

(** A model directory that holds both artifacts, and one that lacks the
    vectorizer. *)
Definition toy_files (path : list N) : result (pyobj Q (list (list N))) :=
  if bool_decide (path = py "models/lr_model.pkl")
     || bool_decide (path = py "models/tfidf_vectorizer.pkl")
  then Ok toy_object
  else Raise (Exception (py "[Errno 2] No such file or directory")).

Definition toy_files_no_vectorizer (path : list N)
    : result (pyobj Q (list (list N))) :=
  if bool_decide (path = py "models/lr_model.pkl") then Ok toy_object
  else Raise (Exception (py "[Errno 2] No such file or directory")).

(** A POST with a JSON body, served at clock reading zero. *)
Definition post (e : endpoint) (body : value Q) : request Q := {|
  target := e;
  is_json := true;
  json := Some body;
  now := 0%Q;
  times := fun _ => (0%Q, 0%Q)
|}.

(** ** Tactics: dictionaries with literal keys, case splits *)

Ltac key_ne := let E := fresh in intros E; vm_compute in E; congruence.

Ltac lookup_keys :=
  repeat first
    [ rewrite lookup_insert_eq
    | rewrite lookup_insert_ne by key_ne
    | rewrite lookup_singleton_eq
    | rewrite lookup_singleton_ne by key_ne
    | rewrite lookup_empty ].

Ltac split_cases :=
  repeat match goal with
         | |- context [match ?x with _ => _ end] => destruct x eqn:?
         end.

(** * Proofs *)

(** ** The substitution engine *)

Lemma sub_from_skip (p : pattern) (n : nat) (s : str) :
  sub_from p n s = sub_from p 0 (drop n s).
Proof.
  revert n. induction s as [|c s IH]; intros [|n]; simpl; try reflexivity.
  apply IH.
Qed.

Lemma sub_from_cons (p : pattern) (n : nat) (c : char) (s : str) :
  sub_from p n (c :: s) =
    match n with
    | S k => sub_from p k s
    | O => match p (c :: s) with
           | Some (S k) => sub_from p k s
           | _ => c :: sub_from p 0 s
           end
    end.
Proof. reflexivity. Qed.

Lemma re_sub_cons_no_match (p : pattern) (c : char) (s : str) :
  p (c :: s) = None -> re_sub p (c :: s) = c :: re_sub p s.
Proof. unfold re_sub. simpl. intros ->. reflexivity. Qed.

Lemma re_sub_cons_match (p : pattern) (c : char) (s : str) (k : nat) :
  p (c :: s) = Some (S k) -> re_sub p (c :: s) = re_sub p (drop k s).
Proof. unfold re_sub. simpl. intros ->. apply sub_from_skip. Qed.

Lemma re_sub_no_match (p : pattern) (s : str) :
  has_match p s = false -> re_sub p s = s.
Proof.
  induction s as [|c s IH]; [reflexivity|].
  simpl. intros Hm. apply orb_false_iff in Hm as [Hp Hs].
  destruct (p (c :: s)) eqn:E; [discriminate|].
  rewrite re_sub_cons_no_match by assumption. f_equal. auto.
Qed.

(** ** Step 2: the tag pattern against the one-pass filter *)

Lemma tag_pattern_not_lt (c : char) (s : str) :
  (c =? Chr.lt) = false -> tag_pattern (c :: s) = None.
Proof. unfold tag_pattern. intros ->. reflexivity. Qed.

Lemma tag_pattern_lt (s : str) :
  tag_pattern (Chr.lt :: s) = S <$> lazy_any_then_gt s.
Proof. reflexivity. Qed.

Lemma strip_tags_from_spec (s : str) :
  strip_tags_from None s = re_sub tag_pattern s
  /\ forall h, strip_tags_from (Some h) s =
       match lazy_any_then_gt s with
       | Some n => re_sub tag_pattern (drop n s)
       | None => rev h ++ re_sub tag_pattern s
       end.
Proof.
  induction s as [|c s [IHn IHs]]; split; simpl.
  - reflexivity.
  - intros h. unfold re_sub. simpl. now rewrite app_nil_r.
  - destruct (c =? Chr.lt) eqn:Elt.
    + apply N.eqb_eq in Elt. subst c. rewrite IHs.
      destruct (lazy_any_then_gt s) as [n|] eqn:El.
      * symmetry. apply re_sub_cons_match. rewrite tag_pattern_lt, El. reflexivity.
      * rewrite re_sub_cons_no_match; [reflexivity|].
        rewrite tag_pattern_lt, El. reflexivity.
    + rewrite re_sub_cons_no_match by (now apply tag_pattern_not_lt).
      now rewrite IHn.
  - intros h. destruct (c =? Chr.gt) eqn:Egt; [now rewrite IHn|].
    destruct (c =? Chr.newline) eqn:Enl.
    + rewrite IHn. rewrite re_sub_cons_no_match; [reflexivity|].
      apply tag_pattern_not_lt. apply N.eqb_eq in Enl. now subst c.
    + rewrite IHs. destruct (lazy_any_then_gt s) as [n|] eqn:El; simpl.
      * reflexivity.
      * rewrite <- app_assoc. simpl. f_equal.
        rewrite re_sub_cons_no_match; [reflexivity|].
        unfold tag_pattern. rewrite El. now destruct (c =? Chr.lt).
Qed.

Lemma strip_tags_correct (s : str) : re_sub tag_pattern s = strip_tags s.
Proof. symmetry. apply strip_tags_from_spec. Qed.

(** ** Tokens *)

Lemma token_cons_space (c : char) (s : str) :
  isspace c = true -> token (c :: s) = [] /\ after_token (c :: s) = c :: s.
Proof. unfold token, after_token. simpl. intros ->. split; reflexivity. Qed.

Lemma token_cons_nonspace (c : char) (s : str) :
  isspace c = false ->
  token (c :: s) = c :: token s /\ after_token (c :: s) = after_token s.
Proof. unfold token, after_token. simpl. intros ->. split; reflexivity. Qed.

Lemma token_length (s : str) : length (token s) = nonspace_run s.
Proof.
  induction s as [|c s IH]; [reflexivity|].
  destruct (isspace c) eqn:E.
  - destruct (token_cons_space c s E) as [-> _]. simpl. now rewrite E.
  - destruct (token_cons_nonspace c s E) as [-> _]. simpl. rewrite E. now f_equal.
Qed.

Lemma token_after_token (s : str) : token s ++ after_token s = s.
Proof. apply take_drop. Qed.

Lemma after_token_head (s : str) :
  match after_token s with [] => True | c :: _ => isspace c = true end.
Proof.
  induction s as [|c s IH]; [exact I|].
  destruct (isspace c) eqn:E.
  - destruct (token_cons_space c s E) as [_ ->]. exact E.
  - destruct (token_cons_nonspace c s E) as [_ ->]. exact IH.
Qed.

Lemma after_token_length (s : str) : (length (after_token s) <= length s)%nat.
Proof. unfold after_token. rewrite length_drop. lia. Qed.

Lemma token_nonspace (s : str) : forallb (fun c => negb (isspace c)) (token s) = true.
Proof.
  induction s as [|c s IH]; [reflexivity|].
  destruct (isspace c) eqn:E.
  - now destruct (token_cons_space c s E) as [-> _].
  - destruct (token_cons_nonspace c s E) as [-> _]. simpl. now rewrite E.
Qed.

(** ** Step 3: the URL pattern against token-wise cutting *)

Lemma literal_then_nonspace_spec (lit s : str) :
  forallb (fun c => negb (isspace c)) lit = true ->
  literal_then_nonspace lit s =
    if starts_with lit (token s) && (length lit <? length (token s))%nat
    then Some (nonspace_run s) else None.
Proof.
  revert s. induction lit as [|l lit IH]; intros s Hl.
  - simpl. rewrite token_length. destruct (nonspace_run s); reflexivity.
  - simpl in Hl. apply andb_true_iff in Hl as [Hl1 Hl2]. apply negb_true_iff in Hl1.
    destruct s as [|c s]; [reflexivity|]. simpl literal_then_nonspace.
    destruct (c =? l) eqn:Ec.
    + apply N.eqb_eq in Ec. subst c.
      destruct (token_cons_nonspace l s Hl1) as [-> _].
      rewrite (IH s Hl2). cbn [starts_with nonspace_run length].
      rewrite N.eqb_refl, Hl1. cbn [andb].
      change (S (length lit) <? S (length (token s)))%nat
        with (length lit <? length (token s))%nat.
      now destruct (starts_with lit (token s) && (length lit <? length (token s))%nat).
    + destruct (isspace c) eqn:E.
      * now destruct (token_cons_space c s E) as [-> _].
      * destruct (token_cons_nonspace c s E) as [-> _]. simpl. now rewrite Ec.
Qed.

Lemma url_pattern_spec (s : str) :
  url_pattern s = if url_starts (token s) then Some (nonspace_run s) else None.
Proof.
  unfold url_pattern, url_starts.
  rewrite !literal_then_nonspace_spec by reflexivity.
  change (length (py "http")) with 4%nat. change (length (py "www")) with 3%nat.
  destruct (starts_with (py "http") (token s) && (4 <? length (token s))%nat);
    [reflexivity|].
  now destruct (starts_with (py "www") (token s) && (3 <? length (token s))%nat).
Qed.

Lemma url_pattern_space (c : char) (s : str) :
  isspace c = true -> url_pattern (c :: s) = None.
Proof.
  intros E. rewrite url_pattern_spec.
  now destruct (token_cons_space c s E) as [-> _].
Qed.

Lemma re_sub_url_after_token (s : str) :
  re_sub url_pattern (after_token s) =
    match after_token s with [] => [] | c :: r => c :: re_sub url_pattern r end.
Proof.
  pose proof (after_token_head s) as Hh.
  destruct (after_token s) as [|c r]; [reflexivity|].
  apply re_sub_cons_no_match. now apply url_pattern_space.
Qed.

Lemma re_sub_url_token (s : str) :
  re_sub url_pattern s =
    cut_url (token s) ++
    match after_token s with [] => [] | c :: r => c :: re_sub url_pattern r end.
Proof.
  induction s as [|c s IH]; [reflexivity|].
  destruct (isspace c) eqn:E.
  - destruct (token_cons_space c s E) as [-> ->]. simpl.
    apply re_sub_cons_no_match. now apply url_pattern_space.
  - pose proof (url_pattern_spec (c :: s)) as Hp.
    destruct (token_cons_nonspace c s E) as [Ht Ha]. rewrite Ht, Ha in *.
    simpl cut_url. simpl nonspace_run in Hp. rewrite E in Hp.
    destruct (url_starts (c :: token s)).
    + rewrite (re_sub_cons_match _ _ _ _ Hp). apply re_sub_url_after_token.
    + rewrite (re_sub_cons_no_match _ _ _ Hp), IH. reflexivity.
Qed.

Lemma on_tokens_token (f : str -> str) (cur s : str) :
  on_tokens f cur s =
    f (rev cur ++ token s) ++
    match after_token s with [] => [] | c :: r => c :: on_tokens f [] r end.
Proof.
  revert cur. induction s as [|c s IH]; intros cur.
  - simpl. now rewrite !app_nil_r.
  - simpl on_tokens. destruct (isspace c) eqn:E.
    + destruct (token_cons_space c s E) as [-> ->]. now rewrite app_nil_r.
    + destruct (token_cons_nonspace c s E) as [-> ->]. rewrite IH. simpl.
      now rewrite <- app_assoc.
Qed.

Lemma cut_urls_correct (s : str) : re_sub url_pattern s = cut_urls s.
Proof.
  unfold cut_urls.
  induction s as [s IH] using (induction_ltof1 _ (@length char)). unfold ltof in IH.
  rewrite re_sub_url_token, on_tokens_token. simpl. f_equal.
  pose proof (after_token_length s) as Hlen.
  destruct (after_token s) as [|c r]; [reflexivity|].
  f_equal. apply IH. simpl in Hlen. lia.
Qed.

(** ** Step 5: [' '.join(text.split())] against squeeze-then-trim *)

Lemma split_from_token (cur s : str) :
  cur <> [] -> split_from cur s = (rev cur ++ token s) :: split (after_token s).
Proof.
  revert cur. induction s as [|c s IH]; intros cur Hc.
  - destruct cur; [congruence|]. cbn. now rewrite app_nil_r.
  - simpl split_from. destruct (isspace c) eqn:E.
    + destruct (token_cons_space c s E) as [-> ->].
      destruct cur; [congruence|]. rewrite app_nil_r. f_equal.
      unfold split. simpl. now rewrite E.
    + destruct (token_cons_nonspace c s E) as [-> ->].
      rewrite IH by discriminate. simpl. now rewrite <- app_assoc.
Qed.

Lemma split_cons_space (c : char) (s : str) :
  isspace c = true -> split (c :: s) = split s.
Proof. unfold split. simpl. now intros ->. Qed.

Lemma split_cons_nonspace (c : char) (s : str) :
  isspace c = false -> split (c :: s) = (c :: token s) :: split (after_token s).
Proof.
  intros E. unfold split at 1. simpl. rewrite E.
  now rewrite split_from_token by discriminate.
Qed.

Lemma lstrip_cons_nonspace (c : char) (s : str) :
  isspace c = false -> lstrip (c :: s) = c :: s.
Proof. simpl. now intros ->. Qed.

Lemma lstrip_head (s : str) :
  match lstrip s with [] => True | c :: _ => isspace c = false end.
Proof.
  induction s as [|c s IH]; [exact I|]. simpl.
  destruct (isspace c) eqn:E; [exact IH | exact E].
Qed.

Lemma lstrip_fixed (s : str) :
  match s with [] => True | c :: _ => isspace c = false end -> lstrip s = s.
Proof. destruct s as [|c s]; [reflexivity|]. apply lstrip_cons_nonspace. Qed.

Lemma lstrip_app (u v : str) :
  lstrip (u ++ v) = match lstrip u with [] => lstrip v | x => x ++ v end.
Proof.
  induction u as [|c u IH]; [reflexivity|]. simpl.
  destruct (isspace c); [exact IH | reflexivity].
Qed.

Lemma rstrip_cons (c : char) (t : str) :
  rstrip (c :: t) =
    match rstrip t with
    | [] => if isspace c then [] else [c]
    | x => c :: x
    end.
Proof.
  unfold rstrip. simpl rev. rewrite lstrip_app.
  destruct (lstrip (rev t)) as [|d u] eqn:E.
  - simpl. now destruct (isspace c).
  - rewrite rev_app_distr.
    change (rev [c] ++ rev (d :: u)) with (c :: rev (d :: u)).
    pose proof (length_rev (d :: u)) as Hlen.
    destruct (rev (d :: u)); [discriminate | reflexivity].
Qed.

Lemma rstrip_cons_nonspace (c : char) (t : str) :
  isspace c = false -> rstrip (c :: t) = c :: rstrip t.
Proof. intros E. rewrite rstrip_cons, E. now destruct (rstrip t). Qed.

Lemma rstrip_token_app (tok u : str) :
  forallb (fun c => negb (isspace c)) tok = true ->
  rstrip (tok ++ u) = tok ++ rstrip u.
Proof.
  induction tok as [|c tok IH]; [reflexivity|]. simpl.
  intros Hc. apply andb_true_iff in Hc as [Hc Ht]. apply negb_true_iff in Hc.
  rewrite rstrip_cons_nonspace by assumption. f_equal. auto.
Qed.

Lemma squeeze_cons_nonspace (c : char) (s : str) :
  isspace c = false -> squeeze (c :: s) = c :: squeeze s.
Proof. simpl. now intros ->. Qed.

Lemma squeeze_cons_space (c : char) (s : str) :
  isspace c = true -> squeeze (c :: s) = Chr.space :: squeeze (lstrip s).
Proof.
  revert c. induction s as [|d s IH]; intros c E.
  - simpl. now rewrite E.
  - change (squeeze (c :: d :: s))
      with (if isspace c
            then if isspace d then squeeze (d :: s) else Chr.space :: squeeze (d :: s)
            else c :: squeeze (d :: s)).
    rewrite E. simpl lstrip. destruct (isspace d) eqn:Ed; [|reflexivity].
    now apply IH.
Qed.

Lemma squeeze_token (s : str) : squeeze s = token s ++ squeeze (after_token s).
Proof.
  induction s as [|c s IH]; [reflexivity|].
  destruct (isspace c) eqn:E.
  - now destruct (token_cons_space c s E) as [-> ->].
  - destruct (token_cons_nonspace c s E) as [-> ->].
    rewrite squeeze_cons_nonspace by assumption. simpl. now f_equal.
Qed.

Lemma squeeze_head (s : str) :
  match s with [] => True | c :: _ => isspace c = false end ->
  match squeeze s with [] => True | c :: _ => isspace c = false end.
Proof.
  destruct s as [|c s]; [easy|]. intros E.
  now rewrite squeeze_cons_nonspace.
Qed.

Lemma lstrip_squeeze_lstrip (s : str) :
  lstrip (squeeze (lstrip s)) = lstrip (squeeze s).
Proof.
  destruct s as [|d s]; [reflexivity|]. simpl lstrip at 2.
  destruct (isspace d) eqn:Ed; [|reflexivity].
  now rewrite (squeeze_cons_space d s Ed).
Qed.

Lemma collapse_cons_space (c : char) (s : str) :
  isspace c = true -> collapse_whitespace (c :: s) = collapse_whitespace s.
Proof.
  intros E. unfold collapse_whitespace, strip. f_equal.
  rewrite squeeze_cons_space by assumption.
  change (lstrip (Chr.space :: squeeze (lstrip s))) with (lstrip (squeeze (lstrip s))).
  apply lstrip_squeeze_lstrip.
Qed.

Lemma collapse_lstrip (s : str) : collapse_whitespace (lstrip s) = collapse_whitespace s.
Proof.
  induction s as [|c s IH]; [reflexivity|]. simpl.
  destruct (isspace c) eqn:E; [|reflexivity].
  now rewrite collapse_cons_space.
Qed.

Lemma collapse_rstrip (s : str) :
  match s with [] => True | c :: _ => isspace c = false end ->
  collapse_whitespace s = rstrip (squeeze s).
Proof.
  intros Hh. unfold collapse_whitespace, strip. f_equal.
  apply lstrip_fixed. now apply squeeze_head.
Qed.

Lemma split_tokens (s : str) : Forall is_token (split s).
Proof.
  induction s as [s IH] using (induction_ltof1 _ (@length N)). unfold ltof in IH.
  destruct s as [|c s]; [constructor|].
  destruct (isspace c) eqn:E.
  - rewrite split_cons_space by assumption. apply IH. simpl. lia.
  - rewrite split_cons_nonspace by assumption. constructor.
    + split; [discriminate|]. simpl. rewrite E. apply token_nonspace.
    + apply IH. pose proof (after_token_length s). simpl. lia.
Qed.

Lemma join_cons (sep p : str) (rest : list str) :
  join sep (p :: rest) = match rest with [] => p | _ => p ++ sep ++ join sep rest end.
Proof. reflexivity. Qed.

Lemma join_tokens_nonempty (sep : str) (parts : list str) :
  Forall is_token parts -> parts <> [] -> join sep parts <> [].
Proof.
  intros Hf Hne. destruct parts as [|p rest]; [congruence|].
  inversion Hf as [|? ? [Hp _] _]; subst. rewrite join_cons.
  destruct p; [congruence|]. now destruct rest.
Qed.

(** The last step of [preprocess_text] is squeeze-then-trim. *)
Lemma collapse_whitespace_correct (s : str) :
  join (py " ") (split s) = collapse_whitespace s.
Proof.
  induction s as [s IH] using (induction_ltof1 _ (@length N)). unfold ltof in IH.
  destruct s as [|c s]; [reflexivity|].
  destruct (isspace c) eqn:E.
  - rewrite split_cons_space, collapse_cons_space by assumption.
    apply IH. simpl. lia.
  - rewrite split_cons_nonspace by assumption.
    rewrite collapse_rstrip by exact E.
    rewrite (squeeze_token (c :: s)).
    destruct (token_cons_nonspace c s E) as [-> ->].
    rewrite rstrip_token_app
      by (simpl; rewrite E; apply token_nonspace).
    rewrite join_cons.
    pose proof (after_token_head s) as Hh.
    pose proof (after_token_length s) as Hlen.
    destruct (after_token s) as [|d r].
    + cbn. now rewrite app_nil_r.
    + rewrite split_cons_space by assumption.
      rewrite squeeze_cons_space by assumption.
      rewrite rstrip_cons. change (isspace Chr.space) with true.
      rewrite <- collapse_rstrip by apply lstrip_head.
      rewrite collapse_lstrip.
      rewrite <- (IH r) by (simpl in *; lia).
      pose proof (split_tokens r) as Htok.
      destruct (split r) as [|t l] eqn:Er.
      * cbn. now rewrite app_nil_r.
      * pose proof (join_tokens_nonempty (py " ") (t :: l) Htok) as Hne.
        destruct (join (py " ") (t :: l)); [now contradiction Hne|].
        reflexivity.
Qed.

(** ** Canonical whitespace *)

Lemma spaces_inside_squeeze (s : str) : spaces_inside s = true -> squeeze s = s.
Proof.
  induction s as [|c s IH]; [reflexivity|].
  simpl spaces_inside. intros Hs. apply andb_true_iff in Hs as [Hc Hs].
  destruct (isspace c) eqn:E.
  - apply andb_true_iff in Hc as [Hc Hn]. apply N.eqb_eq in Hc. subst c.
    destruct s as [|d s]; [discriminate|]. apply negb_true_iff in Hn.
    rewrite squeeze_cons_space by assumption.
    rewrite lstrip_cons_nonspace by assumption. f_equal. auto.
  - rewrite squeeze_cons_nonspace by assumption. f_equal. auto.
Qed.

Lemma spaces_inside_rstrip (s : str) : spaces_inside s = true -> rstrip s = s.
Proof.
  induction s as [|c s IH]; [reflexivity|].
  simpl spaces_inside. intros Hs. apply andb_true_iff in Hs as [Hc Hs].
  rewrite rstrip_cons, (IH Hs).
  destruct s as [|d s]; [|reflexivity].
  destruct (isspace c); [|reflexivity].
  apply andb_true_iff in Hc as [_ Hc]. discriminate.
Qed.

Lemma whitespace_canonical_collapse (s : str) :
  whitespace_canonical s = true -> collapse_whitespace s = s.
Proof.
  destruct s as [|c s]; [reflexivity|].
  unfold whitespace_canonical. intros Hs. apply andb_true_iff in Hs as [Hc Hs].
  apply negb_true_iff in Hc.
  rewrite collapse_rstrip by exact Hc.
  rewrite spaces_inside_squeeze by assumption.
  now apply spaces_inside_rstrip.
Qed.

Lemma spaces_inside_token_app (t rest : str) :
  is_token t ->
  match rest with
  | [] => True
  | c :: r => c = Chr.space /\ whitespace_canonical r = true /\ r <> []
  end ->
  spaces_inside (t ++ rest) = true.
Proof.
  intros [_ Ht] Hrest. induction t as [|c t IH].
  - simpl. destruct rest as [|d r]; [reflexivity|].
    destruct Hrest as (-> & Hr & Hne). destruct r as [|e r]; [congruence|].
    unfold whitespace_canonical in Hr. apply andb_true_iff in Hr as [He Hr].
    cbn [spaces_inside]. change (isspace Chr.space) with true.
    rewrite He. cbn [spaces_inside] in Hr. now rewrite Hr.
  - simpl in Ht. apply andb_true_iff in Ht as [Hc Ht]. apply negb_true_iff in Hc.
    cbn [app spaces_inside]. rewrite Hc. now apply IH.
Qed.

Lemma join_tokens_canonical (parts : list str) :
  Forall is_token parts -> whitespace_canonical (join (py " ") parts) = true.
Proof.
  induction parts as [|t rest IH]; [reflexivity|].
  intros Hf. inversion Hf as [|? ? Ht Hrest]; subst. rewrite join_cons.
  assert (Hgen : forall tail : str,
             match tail with
             | [] => True
             | c :: r => c = Chr.space /\ whitespace_canonical r = true /\ r <> []
             end -> whitespace_canonical (t ++ tail) = true).
  { intros tail Htail. pose proof (spaces_inside_token_app t tail Ht Htail) as Hs.
    destruct Ht as [Hne Hns]. destruct t as [|c t]; [congruence|].
    simpl in Hns. apply andb_true_iff in Hns as [Hc _].
    unfold whitespace_canonical. cbn [app] in *. now rewrite Hc, Hs. }
  destruct rest as [|t' rest'].
  - rewrite <- (app_nil_r t). now apply Hgen.
  - apply Hgen. change (py " " ++ join (py " ") (t' :: rest'))
      with (Chr.space :: join (py " ") (t' :: rest')).
    split; [reflexivity|]. split; [now apply IH|].
    now apply join_tokens_nonempty.
Qed.

Lemma has_whitespace_run_cons (c d : char) (s : str) :
  has_whitespace_run (c :: d :: s) =
    (isspace c && isspace d) || has_whitespace_run (d :: s).
Proof. reflexivity. Qed.

Lemma spaces_inside_no_run (s : str) :
  spaces_inside s = true -> has_whitespace_run s = false.
Proof.
  induction s as [|c s IH]; [reflexivity|].
  simpl spaces_inside. intros Hs. apply andb_true_iff in Hs as [Hc Hs].
  destruct s as [|d s]; [reflexivity|].
  rewrite has_whitespace_run_cons, (IH Hs), orb_false_r.
  destruct (isspace c); [|reflexivity].
  apply andb_true_iff in Hc as [_ Hc]. apply negb_true_iff in Hc. now rewrite Hc.
Qed.

Lemma whitespace_canonical_no_run (s : str) :
  whitespace_canonical s = true -> has_whitespace_run s = false.
Proof.
  destruct s as [|c s]; [reflexivity|]. unfold whitespace_canonical.
  intros Hs. apply andb_true_iff in Hs as [_ Hs]. now apply spaces_inside_no_run.
Qed.

(** ** What a substitution leaves behind *)

Lemma lazy_any_then_gt_sub_tags (s : str) :
  lazy_any_then_gt s = None -> lazy_any_then_gt (re_sub tag_pattern s) = None.
Proof.
  induction s as [|c s IH]; [reflexivity|]. simpl.
  destruct (c =? Chr.gt) eqn:Egt; [discriminate|].
  destruct (c =? Chr.newline) eqn:Enl.
  - intros _. rewrite re_sub_cons_no_match.
    + simpl. now rewrite Egt, Enl.
    + apply tag_pattern_not_lt. apply N.eqb_eq in Enl. now subst c.
  - intros Hl. destruct (lazy_any_then_gt s) eqn:El; [discriminate|].
    rewrite re_sub_cons_no_match.
    + simpl. now rewrite Egt, Enl, IH.
    + unfold tag_pattern. rewrite El. now destruct (c =? Chr.lt).
Qed.

Lemma sub_tags_no_match_from (n : nat) (s : str) :
  has_match tag_pattern (sub_from tag_pattern n s) = false.
Proof.
  revert n. induction s as [|c s IH]; intros n; [reflexivity|].
  rewrite sub_from_cons. destruct n as [|n]; [|apply IH].
  destruct (tag_pattern (c :: s)) as [[|k]|] eqn:Ep; [| apply IH |].
  - unfold tag_pattern in Ep. destruct (c =? Chr.lt); [|discriminate].
    destruct (lazy_any_then_gt s); discriminate.
  - cbn [has_match]. rewrite IH, orb_false_r.
    fold (re_sub tag_pattern s).
    unfold tag_pattern in Ep |- * at 1. destruct (c =? Chr.lt); [|reflexivity].
    destruct (lazy_any_then_gt s) eqn:El; [discriminate|].
    now rewrite lazy_any_then_gt_sub_tags.
Qed.

(** After step 2 no [<.*?>] is left. *)
Lemma sub_tags_no_match (s : str) :
  has_match tag_pattern (re_sub tag_pattern s) = false.
Proof. apply sub_tags_no_match_from. Qed.

Lemma token_app (t tail : str) :
  forallb (fun c => negb (isspace c)) t = true ->
  match tail with [] => True | c :: _ => isspace c = true end ->
  token (t ++ tail) = t.
Proof.
  intros Ht Htail. induction t as [|c t IH].
  - destruct tail as [|d r]; [reflexivity|]. now destruct (token_cons_space d r Htail).
  - simpl in Ht. apply andb_true_iff in Ht as [Hc Ht]. apply negb_true_iff in Hc.
    simpl app. destruct (token_cons_nonspace c (t ++ tail) Hc) as [-> _].
    f_equal. auto.
Qed.

Lemma cut_url_prefix (tok : str) : exists rest, tok = cut_url tok ++ rest.
Proof.
  induction tok as [|c tok [rest IH]]; [now exists []|].
  simpl. destruct (url_starts (c :: tok)).
  - now exists (c :: tok).
  - exists rest. simpl. now f_equal.
Qed.

Lemma cut_url_nonspace (tok : str) :
  forallb (fun c => negb (isspace c)) tok = true ->
  forallb (fun c => negb (isspace c)) (cut_url tok) = true.
Proof.
  induction tok as [|c tok IH]; [reflexivity|]. intros Ht.
  simpl in Ht. apply andb_true_iff in Ht as [Hc Ht].
  simpl cut_url. destruct (url_starts (c :: tok)); [reflexivity|].
  simpl. now rewrite Hc, IH.
Qed.

Lemma starts_with_app (lit p q : str) :
  starts_with lit p = true -> starts_with lit (p ++ q) = true.
Proof.
  revert p. induction lit as [|l lit IH]; intros p; [reflexivity|].
  destruct p as [|c p]; [discriminate|]. simpl.
  intros Hs. apply andb_true_iff in Hs as [-> Hs]. simpl. auto.
Qed.

Lemma url_starts_app (p q : str) :
  url_starts p = true -> url_starts (p ++ q) = true.
Proof.
  unfold url_starts. intros Hu. rewrite length_app.
  apply orb_true_iff in Hu as [Hu|Hu]; apply andb_true_iff in Hu as [Hs Hl];
    apply orb_true_iff; [left|right];
    (rewrite starts_with_app by assumption); simpl;
    apply Nat.ltb_lt in Hl; apply Nat.ltb_lt; lia.
Qed.

Lemma token_sub_urls (s : str) :
  token (re_sub url_pattern s) = cut_url (token s).
Proof.
  rewrite re_sub_url_token. apply token_app.
  - apply cut_url_nonspace, token_nonspace.
  - pose proof (after_token_head s). now destruct (after_token s).
Qed.

Lemma sub_urls_no_match_from (n : nat) (s : str) :
  has_match url_pattern (sub_from url_pattern n s) = false.
Proof.
  revert n. induction s as [|c s IH]; intros n; [reflexivity|].
  rewrite sub_from_cons. destruct n as [|n]; [|apply IH].
  destruct (url_pattern (c :: s)) as [[|k]|] eqn:Ep; [| apply IH |].
  - rewrite url_pattern_spec in Ep.
    destruct (url_starts (token (c :: s))) eqn:Eu; [|discriminate].
    injection Ep as Ep. simpl in Ep. destruct (isspace c) eqn:E; [|discriminate].
    destruct (token_cons_space c s E) as [Ht _]. rewrite Ht in Eu.
    now vm_compute in Eu.
  - simpl has_match. rewrite IH, orb_false_r.
    fold (re_sub url_pattern s).
    rewrite url_pattern_spec in *.
    destruct (url_starts (token (c :: s))) eqn:Eu; [discriminate|].
    destruct (isspace c) eqn:E.
    + now destruct (token_cons_space c (re_sub url_pattern s) E) as [-> _].
    + destruct (token_cons_nonspace c (re_sub url_pattern s) E) as [-> _].
      destruct (token_cons_nonspace c s E) as [Ht _]. rewrite Ht in Eu.
      rewrite token_sub_urls.
      destruct (cut_url_prefix (token s)) as [rest Hrest].
      destruct (url_starts (c :: cut_url (token s))) eqn:Eu'; [|reflexivity].
      apply (url_starts_app _ rest) in Eu'. simpl app in Eu'.
      rewrite <- Hrest in Eu'. congruence.
Qed.

(** After step 3 no [http\S+|www\S+] is left. *)
Lemma sub_urls_no_match (s : str) :
  has_match url_pattern (re_sub url_pattern s) = false.
Proof. apply sub_urls_no_match_from. Qed.

(** Step 3 does not bring a tag back: it drops non-whitespace characters only,
    so no [>] moves onto the line of an open [<]. *)
Lemma lazy_any_then_gt_sub_urls (n : nat) (s : str) :
  (n <= nonspace_run s)%nat ->
  lazy_any_then_gt s = None ->
  lazy_any_then_gt (sub_from url_pattern n s) = None.
Proof.
  revert n. induction s as [|c s IH]; intros n Hn; [reflexivity|].
  simpl lazy_any_then_gt at 1.
  destruct (c =? Chr.gt) eqn:Egt; [discriminate|].
  simpl in Hn. destruct (isspace c) eqn:E.
  - assert (n = 0%nat) as -> by lia. intros Hl. rewrite sub_from_cons.
    rewrite url_pattern_space by assumption. simpl. rewrite Egt.
    destruct (c =? Chr.newline); [reflexivity|].
    destruct (lazy_any_then_gt s) eqn:El; [discriminate|].
    rewrite IH; [reflexivity | lia | reflexivity].
  - assert (Enl : (c =? Chr.newline) = false).
    { destruct (c =? Chr.newline) eqn:Enl; [|reflexivity].
      apply N.eqb_eq in Enl. subst c. discriminate. }
    rewrite Enl. intros Hl.
    destruct (lazy_any_then_gt s) eqn:El; [discriminate|].
    rewrite sub_from_cons. destruct n as [|n]; [|apply IH; [lia | reflexivity]].
    pose proof (url_pattern_spec (c :: s)) as Hp. simpl nonspace_run in Hp.
    rewrite E in Hp. rewrite Hp.
    destruct (url_starts (token (c :: s))).
    + apply IH; [lia | reflexivity].
    + simpl. rewrite Egt, Enl, IH; [reflexivity | lia | reflexivity].
Qed.

Lemma sub_urls_keeps_tag_free (n : nat) (s : str) :
  (n <= nonspace_run s)%nat ->
  has_match tag_pattern s = false ->
  has_match tag_pattern (sub_from url_pattern n s) = false.
Proof.
  revert n. induction s as [|c s IH]; intros n Hn; [reflexivity|].
  simpl has_match at 1. intros Hm. apply orb_false_iff in Hm as [Hp Hm].
  simpl in Hn. rewrite sub_from_cons. destruct (isspace c) eqn:E.
  - assert (n = 0%nat) as -> by lia.
    rewrite url_pattern_space by assumption.
    simpl has_match. rewrite IH by (assumption || lia). rewrite orb_false_r.
    unfold tag_pattern in *. destruct (c =? Chr.lt); [|reflexivity].
    destruct (lazy_any_then_gt s) eqn:El; [discriminate|].
    rewrite lazy_any_then_gt_sub_urls; [reflexivity | lia | assumption].
  - destruct n as [|n]; [|apply IH; [lia | assumption]].
    pose proof (url_pattern_spec (c :: s)) as Hu. simpl nonspace_run in Hu.
    rewrite E in Hu. rewrite Hu.
    destruct (url_starts (token (c :: s))); [apply IH; [lia | assumption]|].
    simpl has_match. rewrite IH by (assumption || lia). rewrite orb_false_r.
    unfold tag_pattern in *. destruct (c =? Chr.lt); [|reflexivity].
    destruct (lazy_any_then_gt s) eqn:El; [discriminate|].
    rewrite lazy_any_then_gt_sub_urls; [reflexivity | lia | assumption].
Qed.

Section PredictProofs.
Context {F : Type} {FO : FloatOps F} {L : PyLib}.

Lemma invalid_input_is_error : is_error (invalid_input (F:=F)).
Proof. eexists. unfold invalid_input. now lookup_keys. Qed.

Lemma invalid_input_not_outcome : ~ is_outcome (invalid_input (F:=F)).
Proof. intros [He _]. unfold invalid_input in He. now lookup_keys. Qed.

Lemma prediction_failed_is_error (e : exn) : is_error (prediction_failed (F:=F) e).
Proof. eexists. unfold prediction_failed. now lookup_keys. Qed.

(** What a successful run of the [try] block went through. *)
Lemma classify_Ok (a : SentimentAnalyzer F) (times : F * F) (clean_text : str)
    (d : dict F) :
  classify a times clean_text = Ok d ->
  exists f pred preds row rows is_one top lab,
    vectorizer_transform a [clean_text] = Ok f
    /\ model_predict a f = Ok (pred :: preds)
    /\ model_predict_proba a f = Ok (row :: rows)
    /\ label_eq_one pred = Ok is_one
    /\ py_max row = Ok top
    /\ label_int pred = Ok lab
    /\ d = <[py "sentiment" :=
               VStr (if is_one then py "Positive" else py "Negative")]>
           (<[py "confidence" := VFloat (fround (fmul top (f_of_Z 100)) 2)]>
            (<[py "prediction_time_ms" :=
                 VFloat (fround (fmul (fsub times.2 times.1) (f_of_Z 1000)) 2)]>
             {[ py "label" := VInt lab ]})).
Proof.
  unfold classify. intros Hc.
  destruct (vectorizer_transform a [clean_text]) as [f|] eqn:Ef; [|discriminate].
  cbn in Hc.
  destruct (model_predict a f) as [[|pred preds]|] eqn:Ep; try discriminate.
  cbn in Hc.
  destruct (model_predict_proba a f) as [[|row rows]|] eqn:Er; try discriminate.
  cbn in Hc.
  destruct (label_eq_one pred) as [is_one|] eqn:E1; [|discriminate]. cbn in Hc.
  destruct (py_max row) as [top|] eqn:Em; [|discriminate]. cbn in Hc.
  destruct (label_int pred) as [lab|] eqn:Ei; [|discriminate]. cbn in Hc.
  injection Hc as <-. now exists f, pred, preds, row, rows, is_one, top, lab.
Qed.

Lemma classify_Ok_outcome (a : SentimentAnalyzer F) (times : F * F)
    (clean_text : str) (d : dict F) :
  classify a times clean_text = Ok d -> is_outcome d.
Proof.
  intros Hc. apply classify_Ok in Hc
    as (f & pred & preds & row & rows & is_one & top & lab & _ & _ & _ & _ & _ & _ & ->).
  repeat split; try eexists; now lookup_keys.
Qed.

Lemma predict_str (a : SentimentAnalyzer F) (times : F * F) (s : str) :
  s <> [] ->
  predict a times (VStr s) =
    match classify a times (preprocess_text s) with
    | Ok o => Ok o
    | Raise e => Ok (prediction_failed e)
    end.
Proof. intros Hs. destruct s; [congruence|]. reflexivity. Qed.

(** On a non-empty string [predict] runs the vectorizer and the classifier
    on the normal form. *)
Lemma predict_consults_model (a : SentimentAnalyzer F) (times : F * F) (s : str) :
  s <> [] ->
  consults_model a times (preprocess_text s) (predict a times (VStr s)).
Proof.
  intros Hs. rewrite predict_str by assumption. unfold consults_model, classify.
  repeat split.
  - intros e ->. reflexivity.
  - intros f e -> He. cbn [mbind result_bind]. now rewrite He.
  - intros f pred preds e -> Hp He. cbn [mbind result_bind]. rewrite Hp.
    cbn [mbind result_bind index0]. now rewrite He.
  - intros f pred preds row rows is_one top lab -> Hp Hr H1 Hm Hl.
    cbn [mbind result_bind]. rewrite Hp. cbn [mbind result_bind index0].
    rewrite Hr. cbn [mbind result_bind index0]. rewrite H1.
    cbn [mbind result_bind]. rewrite Hm. cbn [mbind result_bind].
    rewrite Hl. reflexivity.
Qed.

(** C4.  On the empty string and on every value that is not a string,
    [predict] returns the invalid-input Error, which is not a Prediction
    Outcome. *)
Theorem predict_rejects_empty_and_non_strings (a : SentimentAnalyzer F)
    (times : F * F) (v : value F) :
  v = VStr [] \/ isinstance_str v = false ->
  predict a times v = Ok invalid_input
  /\ is_error (invalid_input (F:=F))
  /\ ~ is_outcome (invalid_input (F:=F)).
Proof.
  intros Hv. split; [|split; [apply invalid_input_is_error
                             | apply invalid_input_not_outcome]].
  unfold predict. destruct Hv as [-> | Hv]; [reflexivity|].
  now rewrite Hv, orb_true_r.
Qed.

(** C5.  On every string [predict] returns a dictionary and never raises:
    when a step of the [try] block raises [e], the result is the Error
    carrying ["Prediction failed: " + str(e)]; otherwise it is the Prediction
    Outcome the block built. *)
Theorem predict_never_raises (a : SentimentAnalyzer F) (times : F * F) (s : str) :
  (exists d, predict a times (VStr s) = Ok d /\ (is_outcome d \/ is_error d))
  /\ match s, predict_steps a times (VStr s) with
     | [], _ => predict a times (VStr s) = Ok invalid_input
     | _, Raise e =>
         predict a times (VStr s) = Ok (prediction_failed e)
         /\ prediction_failed (F:=F) e !! py "error"
            = Some (VStr (py "Prediction failed: " ++ exn_str e))
     | _, Ok o => predict a times (VStr s) = Ok o /\ is_outcome o
     end.
Proof.
  destruct s as [|c s].
  - split; [|reflexivity]. exists invalid_input.
    split; [reflexivity | right; apply invalid_input_is_error].
  - rewrite predict_str by discriminate.
    change (predict_steps a times (VStr (c :: s)))
      with (classify a times (preprocess_text (c :: s))).
    destruct (classify a times (preprocess_text (c :: s))) as [o|e] eqn:Ec.
    + pose proof (classify_Ok_outcome _ _ _ _ Ec) as Ho.
      split; [exists o|]; auto.
    + split.
      * exists (prediction_failed e).
        split; [reflexivity | right; apply prediction_failed_is_error].
      * split; [reflexivity|]. unfold prediction_failed. now lookup_keys.
Qed.
End PredictProofs.

Section OutcomeInvariant.
Context {F : Type} {FO : FloatOps F} {FL : FloatLaws F} {L : PyLib}.

Lemma fold_max_spec (rest : list F) (x m : F) :
  fle x x = true ->
  Forall (fun p => fle p p = true) rest ->
  fold_left (fun m item => if fgt item m then item else m) rest x = m ->
  fle x m = true /\ Forall (fun p => fle p m = true) rest /\ (m = x \/ In m rest).
Proof.
  revert x. induction rest as [|item rest IH]; intros x Hx Hrest Hm.
  - simpl in Hm. subst m. auto.
  - pose proof (Forall_inv Hrest) as Hitem.
    pose proof (Forall_inv_tail Hrest) as Hrest'. simpl in Hm.
    destruct (fgt item x) eqn:Eg.
    + destruct (IH item Hitem Hrest' Hm) as (Hle & Hall & Hin).
      pose proof (fgt_fle _ _ Eg) as Hxi.
      split; [eapply fle_trans; eassumption|].
      split; [constructor; assumption|].
      right. destruct Hin as [->|Hin]; [now left | now right].
    + destruct (IH x Hx Hrest' Hm) as (Hle & Hall & Hin).
      pose proof (not_fgt_fle _ _ Hitem Hx Eg) as Hix.
      split; [assumption|].
      split; [constructor; [eapply fle_trans; eassumption | assumption]|].
      destruct Hin as [->|Hin]; [now left | right; now right].
Qed.

(** [max] returns an item of the sequence that no item exceeds. *)
Lemma py_max_spec (xs : list F) (m : F) :
  Forall (fun p => fle p p = true) xs ->
  py_max xs = Ok m ->
  In m xs /\ Forall (fun p => fle p m = true) xs.
Proof.
  destruct xs as [|x rest]; [discriminate|]. intros Hxs Hm.
  pose proof (Forall_inv Hxs) as Hx. pose proof (Forall_inv_tail Hxs) as Hrest.
  injection Hm as <-.
  destruct (fold_max_spec rest x _ Hx Hrest eq_refl) as (Hle & Hall & Hin).
  split; [destruct Hin as [->|Hin]; [now left | now right] | now constructor].
Qed.

Lemma percent_in_range (p : F) :
  fle (f_of_Z 0) p = true -> fle p (f_of_Z 1) = true ->
  fle (f_of_Z 0) (fround (fmul p (f_of_Z 100)) 2) = true
  /\ fle (fround (fmul p (f_of_Z 100)) 2) (f_of_Z 100) = true.
Proof.
  intros H0 H1. split.
  - rewrite <- fround_0, <- fmul_0_100 at 1. now apply fround_mono, fmul_100_mono.
  - rewrite <- fround_100, <- fmul_1_100 at 2. now apply fround_mono, fmul_100_mono.
Qed.

(** C6.  When the classifier answers with labels 0 or 1 and probabilities in
    [0, 1], every result of [predict] that is not an Error is a Prediction
    Outcome whose label is 0 or 1, whose sentiment is ["Positive"] exactly
    when the label is 1, and whose confidence is the largest probability of
    the row times 100, rounded to 2 decimals, and lies between 0 and 100. *)
Theorem predict_outcome_invariant (a : SentimentAnalyzer F) (times : F * F)
    (v : value F) (d : dict F) :
  well_behaved a ->
  predict a times v = Ok d ->
  d !! py "error" = None ->
  is_outcome d
  /\ exists text f preds rows lab sent row top,
      v = VStr text
      /\ vectorizer_transform a [preprocess_text text] = Ok f
      /\ model_predict a f = Ok (LInt lab :: preds)
      /\ model_predict_proba a f = Ok (row :: rows)
      /\ d !! py "label" = Some (VInt lab)
      /\ (lab = 0 \/ lab = 1)%Z
      /\ d !! py "sentiment" = Some (VStr sent)
      /\ (sent = py "Positive" <-> lab = 1%Z)
      /\ In top row
      /\ Forall (fun p => fle p top = true) row
      /\ d !! py "confidence" = Some (VFloat (fround (fmul top (f_of_Z 100)) 2))
      /\ fle (f_of_Z 0) (fround (fmul top (f_of_Z 100)) 2) = true
      /\ fle (fround (fmul top (f_of_Z 100)) 2) (f_of_Z 100) = true.
Proof.
  intros [Hlabels Hprobs] Hp Herr. unfold predict in Hp.
  destruct (negb (truthy v) || negb (isinstance_str v)) eqn:Ev.
  { injection Hp as <-. unfold invalid_input in Herr. now lookup_keys. }
  apply orb_false_iff in Ev as [_ Ev]. apply negb_false_iff in Ev.
  destruct v as [| | | |text| |]; try discriminate.
  change (predict_steps a times (VStr text))
    with (classify a times (preprocess_text text)) in Hp.
  destruct (classify a times (preprocess_text text)) as [o|e] eqn:Ec; cbn in Hp.
  2:{ injection Hp as <-. unfold prediction_failed in Herr. now lookup_keys. }
  injection Hp as <-.
  split; [eapply classify_Ok_outcome; eassumption|].
  apply classify_Ok in Ec
    as (f & pred & preds & row & rows & is_one & top & lab
        & Hf & Hpred & Hrows & Hone & Hmax & Hint & ->).
  pose proof (Hlabels _ _ Hpred) as Hl. inversion Hl as [|? ? Hl0 _]; subst.
  pose proof (Hprobs _ _ Hrows) as Hr. inversion Hr as [|? ? Hrow _]; subst.
  assert (Hself : Forall (fun p => fle p p = true) row).
  { eapply Forall_impl; [exact Hrow|]. intros p [Hp0 _].
    now destruct (fle_ordered _ _ Hp0). }
  destruct (py_max_spec row top Hself Hmax) as [Hin Hall].
  rewrite Forall_forall in Hrow. destruct (Hrow top) as [H0 H1].
  { now apply list_elem_of_In. }
  destruct (percent_in_range top H0 H1) as [Hlo Hhi].
  assert (Hlab : pred = LInt lab /\ is_one = (lab =? 1)%Z /\ (lab = 0 \/ lab = 1)%Z).
  { destruct Hl0 as [-> | ->]; cbn in Hone, Hint;
      injection Hone as <-; injection Hint as <-; auto. }
  destruct Hlab as (-> & -> & Hlab).
  exists text, f, preds, rows, lab,
    (if (lab =? 1)%Z then py "Positive" else py "Negative"), row, top.
  repeat split; try assumption; try now lookup_keys.
  - intros Hs. destruct Hlab as [-> | ->]; [discriminate Hs | reflexivity].
  - now intros ->.
Qed.
End OutcomeInvariant.

(** ** The rational instance satisfies the float laws *)

Lemma round_half_even_mono (a b : Q) :
  (a <= b)%Q -> (round_half_even a <= round_half_even b)%Z.
Proof.
  intros Hab. unfold round_half_even.
  pose proof (Qfloor_resp_le _ _ Hab) as Hf.
  pose proof (Qfloor_le a) as Ha. pose proof (Qfloor_le b) as Hb.
  destruct (Z.eq_dec (Qfloor a) (Qfloor b)) as [Heq|Hne].
  - rewrite <- Heq in *.
    destruct (Qcompare_spec (a - inject_Z (Qfloor a)) (1 # 2)) as [Ea|Ea|Ea];
      destruct (Qcompare_spec (b - inject_Z (Qfloor a)) (1 # 2)) as [Eb|Eb|Eb];
      try lra; destruct (Z.even (Qfloor a)); lia.
  - assert (Hlt : (Qfloor a + 1 <= Qfloor b)%Z) by lia.
    destruct ((a - inject_Z (Qfloor a)) ?= 1 # 2)%Q;
      destruct ((b - inject_Z (Qfloor b)) ?= 1 # 2)%Q;
      destruct (Z.even (Qfloor a)); destruct (Z.even (Qfloor b)); lia.
Qed.

Lemma Qscale_pos (n : Z) : (0 < Qscale n)%Q.
Proof.
  unfold Qscale. destruct (0 <=? n)%Z eqn:E.
  - apply Z.leb_le in E. change 0%Q with (inject_Z 0). rewrite <- Zlt_Qlt.
    now apply Z.pow_pos_nonneg.
  - apply Z.leb_gt in E. apply Qinv_lt_0_compat.
    change 0%Q with (inject_Z 0). rewrite <- Zlt_Qlt.
    apply Z.pow_pos_nonneg; lia.
Qed.

Lemma Qround_digits_mono (a b : Q) (n : Z) :
  (a <= b)%Q -> (Qround_digits a n <= Qround_digits b n)%Q.
Proof.
  intros Hab. unfold Qround_digits. rewrite !Qred_correct.
  pose proof (Qscale_pos n) as Hs.
  apply Qmult_le_compat_r.
  - rewrite <- Zle_Qle. apply round_half_even_mono.
    apply Qmult_le_compat_r; [assumption | now apply Qlt_le_weak].
  - apply Qlt_le_weak, Qinv_lt_0_compat, Hs.
Qed.

#[export] Instance Q_float_laws : FloatLaws Q.
Proof.
  constructor; cbn.
  - intros a b c Hab Hbc. apply Qle_bool_iff in Hab, Hbc. apply Qle_bool_iff. lra.
  - intros a b _. split; apply Qle_bool_iff; lra.
  - intros a b Hgt. apply negb_true_iff in Hgt. apply Qle_bool_iff.
    destruct (Qlt_le_dec b a) as [Hlt|Hle]; [lra|].
    apply Qle_bool_iff in Hle. congruence.
  - intros a b _ _ Hgt. now apply negb_false_iff in Hgt.
  - intros a b Hab. apply Qle_bool_iff in Hab. apply Qle_bool_iff.
    rewrite !Qred_correct. apply Qmult_le_compat_r; [assumption | discriminate].
  - reflexivity.
  - reflexivity.
  - intros a b n Hab. apply Qle_bool_iff in Hab. apply Qle_bool_iff.
    now apply Qround_digits_mono.
  - reflexivity.
  - reflexivity.
Qed.

Lemma toy_analyzer_well_behaved : well_behaved toy_analyzer.
Proof.
  split; intros f xs Hx; injection Hx as <-.
  - induction f; constructor; auto.
  - induction f; constructor; auto.
Qed.

(** ** Whitespace-only text *)

Lemma isspace_cases (c : char) :
  isspace c = true ->
  (9 <= c <= 13) \/ (28 <= c <= 32) \/ c = 133 \/ c = 160 \/ c = 5760
  \/ (8192 <= c <= 8202) \/ c = 8232 \/ c = 8233 \/ c = 8239 \/ c = 8287
  \/ c = 12288.
Proof.
  unfold isspace. intros Hc.
  repeat (apply orb_true_iff in Hc as [Hc|Hc]);
    repeat match goal with
           | H : (_ && _) = true |- _ => apply andb_true_iff in H as [? ?]
           | H : (_ <=? _) = true |- _ => apply N.leb_le in H
           | H : (_ =? _) = true |- _ => apply N.eqb_eq in H
           end; lia.
Qed.

Lemma isspace_not_special (c : char) :
  isspace c = true ->
  (Chr.amp =? c) = false /\ (c =? Chr.lt) = false /\ ascii_tolower c = c.
Proof.
  intros Hc. apply isspace_cases in Hc. unfold Chr.amp, Chr.lt, ascii_tolower.
  split; [apply N.eqb_neq; lia|]. split; [apply N.eqb_neq; lia|].
  destruct (65 <=? c) eqn:E1; [|reflexivity].
  destruct (c <=? 90) eqn:E2; [|reflexivity].
  apply N.leb_le in E1, E2. lia.
Qed.

Lemma whitespace_only_split (s : str) : forallb isspace s = true -> split s = [].
Proof.
  induction s as [|c s IH]; [reflexivity|]. simpl.
  intros Hs. apply andb_true_iff in Hs as [Hc Hs].
  rewrite split_cons_space by assumption. auto.
Qed.

Lemma whitespace_only_strip (s : str) : forallb isspace s = true -> strip s = [].
Proof.
  intros Hs. unfold strip.
  assert (Hl : lstrip s = []).
  { induction s as [|c s IH]; [reflexivity|]. simpl in *.
    apply andb_true_iff in Hs as [-> Hs]. auto. }
  now rewrite Hl.
Qed.

Section WhitespaceOnly.
Context {F : Type} {FO : FloatOps F} {L : PyLib}.

Lemma whitespace_only_untouched (s : str) :
  forallb isspace s = true ->
  unescape s = s /\ re_sub tag_pattern s = s /\ re_sub url_pattern s = s.
Proof.
  intros Hs. split; [|split].
  - unfold unescape.
    assert (He : existsb (N.eqb Chr.amp) s = false).
    { induction s as [|c s IH]; [reflexivity|]. cbn [existsb forallb] in *.
      apply andb_true_iff in Hs as [Hc Hs].
      destruct (isspace_not_special c Hc) as (-> & _). auto. }
    now rewrite He.
  - apply re_sub_no_match. induction s as [|c s IH]; [reflexivity|].
    simpl in Hs. apply andb_true_iff in Hs as [Hc Hs].
    cbn [has_match]. rewrite (IH Hs), orb_false_r.
    rewrite tag_pattern_not_lt; [reflexivity|].
    now destruct (isspace_not_special c Hc) as (_ & -> & _).
  - apply re_sub_no_match. induction s as [|c s IH]; [reflexivity|].
    simpl in Hs. apply andb_true_iff in Hs as [Hc Hs].
    cbn [has_match]. rewrite (IH Hs), orb_false_r.
    now rewrite url_pattern_space.
Qed.

(** White space has no case: lower-casing leaves it as it is. *)
Lemma lower_ucs4_space (before : str) (c : char) (after : str) :
  isspace c = true -> lower_ucs4 before c after = [c].
Proof.
  intros Hc. unfold lower_ucs4.
  destruct (c =? Chr.capital_sigma) eqn:E.
  { apply N.eqb_eq in E. subst c. discriminate. }
  destruct (isspace_not_special c Hc) as (_ & _ & ->). rewrite Hc.
  now destruct (is_ascii c).
Qed.

Lemma do_lower_whitespace_only (s : str) :
  forallb isspace s = true -> forall before, do_lower before s = s.
Proof.
  induction s as [|c s IH]; intros Hs before; [reflexivity|].
  cbn [forallb] in Hs. apply andb_true_iff in Hs as [Hc Hs].
  cbn [do_lower]. now rewrite (lower_ucs4_space _ _ _ Hc), (IH Hs).
Qed.

Lemma whitespace_only_lower (s : str) :
  forallb isspace s = true -> lower s = s.
Proof.
  intros Hs. unfold lower. destruct (forallb is_ascii s).
  - induction s as [|c s IH]; [reflexivity|]. cbn [forallb map] in *.
    apply andb_true_iff in Hs as [Hc Hs].
    destruct (isspace_not_special c Hc) as (_ & _ & ->). now rewrite (IH Hs).
  - now apply do_lower_whitespace_only.
Qed.

Lemma preprocess_text_whitespace_only (s : str) :
  forallb isspace s = true -> preprocess_text s = [].
Proof.
  intros Hs. unfold preprocess_text.
  destruct (whitespace_only_untouched s Hs) as (-> & -> & ->).
  rewrite (whitespace_only_lower s Hs).
  now rewrite (whitespace_only_split _ Hs).
Qed.

Lemma prediction_failed_not_invalid (e : exn) :
  prediction_failed (F:=F) e <> invalid_input.
Proof.
  intros Heq. apply (f_equal (fun d => d !! py "error")) in Heq.
  unfold prediction_failed, invalid_input in Heq.
  rewrite !lookup_singleton_eq in Heq. vm_compute in Heq. discriminate.
Qed.

(** C10.  A non-empty text made of whitespace only passes the input check
    of [predict]: it is normalised to the empty text, on which the vectorizer
    ([transform]) and then the classifier ([predict], [predict_proba]) are
    run.  What [predict] returns is the exception of the first of these
    three calls that raises, reported as a prediction failure, or else the
    outcome built from the classifier's label and probabilities; it is never
    the invalid-input Error.  Only the HTTP layer turns such a review away,
    with status 400 on [/api/predict] and a per-item error in a batch, in both
    cases without calling [predict]. *)
Theorem predict_accepts_whitespace_only (a : SentimentAnalyzer F)
    (times : F * F) (s : str) :
  s <> [] ->
  forallb isspace s = true ->
  preprocess_text s = []
  /\ consults_model a times [] (predict a times (VStr s))
  /\ predict a times (VStr s) =
       match classify a times [] with
       | Ok o => Ok o
       | Raise e => Ok (prediction_failed e)
       end
  /\ predict a times (VStr s) <> Ok invalid_input
  /\ (forall (app : App F) (r : request F) (n : Z) (d : dict F),
       analyzer app = Some a ->
       is_json r = true ->
       json r = Some (VDict d) ->
       d !! py "review" = Some (VStr s) ->
       predict_sentiment app r n =
         {| new_request_count := n + 1;
            predicted := [];
            returned := Ok (Json (error_message (py "Empty review")
                                    (py "Review text cannot be empty")) 400) |})
  /\ forall (tm : nat -> F * F) (i : nat) (n : Z) (results : list (dict F))
        (predicted : list (value F)),
       batch_loop a tm i [VStr s] n results predicted =
         ((n + 1)%Z, results ++ [item_error i (py "Invalid or empty review")],
          predicted).
Proof.
  intros Hne Hs.
  pose proof (preprocess_text_whitespace_only s Hs) as Hp.
  assert (Hpred : predict a times (VStr s) =
                  match classify a times [] with
                  | Ok o => Ok o
                  | Raise e => Ok (prediction_failed e)
                  end)
    by (rewrite predict_str by assumption; now rewrite Hp).
  split; [exact Hp|].
  split; [rewrite <- Hp; now apply predict_consults_model|].
  split; [exact Hpred|]. split.
  - rewrite Hpred. destruct (classify a times []) as [o|e] eqn:Ec.
    + intros Heq. apply classify_Ok_outcome in Ec.
      assert (Ho : o = invalid_input) by congruence. subst o.
      exact (invalid_input_not_outcome Ec).
    + intros Heq. apply (prediction_failed_not_invalid e). congruence.
  - split.
    + intros app r n d Ha Hj Hb Hd. unfold predict_sentiment, get_json.
      rewrite Ha, Hj, Hb. cbn [negb py_in py_getitem]. unfold has_key.
      rewrite Hd. cbn [negb]. now rewrite (whitespace_only_strip s Hs).
    + intros tm i n results predicted. cbn [batch_loop].
      now rewrite (whitespace_only_strip s Hs).
Qed.
End WhitespaceOnly.

(** * The HTTP layer *)

Section ViewProofs.
Context {F : Type} {FO : FloatOps F} {L : PyLib}.

Lemma predict_keys (a : SentimentAnalyzer F) (times : F * F) (v : value F)
    (d : dict F) :
  predict a times v = Ok d ->
  d !! py "request_id" = None /\ d !! py "index" = None.
Proof.
  unfold predict. destruct (negb (truthy v) || negb (isinstance_str v)).
  { intros Hd. injection Hd as <-. unfold invalid_input. now lookup_keys. }
  unfold predict_steps. destruct (as_str v) as [text|e]; cbn.
  2:{ intros Hd. injection Hd as <-. unfold prediction_failed. now lookup_keys. }
  destruct (classify a times (preprocess_text text)) as [o|e] eqn:Ec; cbn.
  2:{ intros Hd. injection Hd as <-. unfold prediction_failed. now lookup_keys. }
  intros Hd. injection Hd as <-.
  apply classify_Ok in Ec
    as (f & pred & preds & row & rows & is_one & top & lab & _ & _ & _ & _ & _ & _ & ->).
  now lookup_keys.
Qed.

Lemma predict_sentiment_count (app : App F) (r : request F) (n : Z) :
  new_request_count (predict_sentiment app r n) = (n + 1)%Z
  /\ (length (predicted (predict_sentiment app r n)) <= 1)%nat.
Proof. unfold predict_sentiment. split_cases; cbn; split; (reflexivity || lia). Qed.

Lemma batch_loop_spec (a : SentimentAnalyzer F) (times : nat -> F * F)
    (reviews : list (value F)) :
  forall (i : nat) (n : Z) (results : list (dict F)) (predicted : list (value F)),
    (batch_loop a times i reviews n results predicted).1.1
      = (n + Z.of_nat (length reviews))%Z
    /\ length (batch_loop a times i reviews n results predicted).1.2
       = (length results + length reviews)%nat
    /\ (length (batch_loop a times i reviews n results predicted).2
        <= length predicted + length reviews)%nat.
Proof.
  induction reviews as [|review rest IH]; intros i n results predicted.
  - cbn. repeat split; lia.
  - cbn [batch_loop].
    destruct (match review with
              | VStr text => negb (truthy (VStr (F:=F) (strip text)))
              | _ => true
              end).
    + destruct (IH (S i) (n + 1)%Z
                  (results ++ [item_error i (py "Invalid or empty review")])
                  predicted) as (-> & -> & Hp).
      rewrite length_app. cbn [length]. repeat split; lia.
    + match goal with
      | |- context [batch_loop a times (S i) rest _ ?res ?prs] =>
          destruct (IH (S i) (n + 1)%Z res prs) as (-> & -> & Hp)
      end.
      rewrite !length_app in *. cbn [length] in *. repeat split; lia.
Qed.

(** Whatever the batch, the loop appends one entry per item, in input order,
    and the entry for the item at position [i] carries index [i]. *)
Lemma batch_loop_results (a : SentimentAnalyzer F) (times : nat -> F * F)
    (reviews : list (value F)) :
  forall (i : nat) (n : Z) (results : list (dict F)) (predicted : list (value F)),
  exists entries,
    (batch_loop a times i reviews n results predicted).1.2 = results ++ entries
    /\ length entries = length reviews
    /\ forall (j : nat) (e : dict F),
         entries !! j = Some e -> e !! py "index" = Some (VInt (Z.of_nat (i + j))).
Proof.
  induction reviews as [|review rest IH]; intros i n results predicted.
  - exists []. cbn. rewrite app_nil_r. repeat split. intros j e Hj.
    now rewrite lookup_nil in Hj.
  - cbn [batch_loop].
    set (entry := if match review with
                     | VStr text => negb (truthy (VStr (F:=F) (strip text)))
                     | _ => true
                     end
                  then item_error i (py "Invalid or empty review")
                  else match predict a (times i) review with
                       | Ok result => <[py "index" := VInt (Z.of_nat i)]> result
                       | Raise e => item_error i (exn_str e)
                       end).
    assert (Hentry : entry !! py "index" = Some (VInt (Z.of_nat i))).
    { unfold entry, item_error. repeat case_match; now lookup_keys. }
    assert (Hgo : exists prs,
               (if match review with
                   | VStr text => negb (truthy (VStr (F:=F) (strip text)))
                   | _ => true
                   end
                then batch_loop a times (S i) rest (n + 1)
                       (results ++ [item_error i (py "Invalid or empty review")])
                       predicted
                else batch_loop a times (S i) rest (n + 1)
                       (results ++
                        [match predict a (times i) review with
                         | Ok result => <[py "index" := VInt (Z.of_nat i)]> result
                         | Raise e => item_error i (exn_str e)
                         end]) (predicted ++ [review]))
               = batch_loop a times (S i) rest (n + 1) (results ++ [entry]) prs).
    { unfold entry. destruct (match review with
                              | VStr text => negb (truthy (VStr (F:=F) (strip text)))
                              | _ => true
                              end); eauto. }
    destruct Hgo as [prs ->].
    destruct (IH (S i) (n + 1)%Z (results ++ [entry]) prs) as (entries & -> & Hlen & Hidx).
    exists (entry :: entries). rewrite <- app_assoc. split; [reflexivity|].
    split; [cbn; lia|]. intros [|j] e Hj.
    + cbn in Hj. injection Hj as <-. now rewrite Nat.add_0_r.
    + cbn in Hj. rewrite (Hidx j e Hj). do 3 f_equal. lia.
Qed.

(** The counter and the calls of [predict] in a run of [predict_batch]. *)
Lemma predict_batch_count (app : App F) (r : request F) (n : Z) :
  let s := predict_batch app r n in
  (n <= new_request_count s)%Z
  /\ (Z.of_nat (length (predicted s)) <= new_request_count s - n)%Z
  /\ (status_of (respond (returned s)) = 200%Z ->
      exists data reviews,
        get_json r = Ok data
        /\ py_getitem data (py "reviews") = Ok (VList reviews)
        /\ new_request_count s = (n + Z.of_nat (length reviews))%Z)
  /\ (status_of (respond (returned s)) <> 200%Z -> new_request_count s = n).
Proof.
  unfold predict_batch.
  destruct (analyzer app) as [a|];
    [|cbn; repeat split; try lia; intros; (discriminate || congruence)].
  destruct (is_json r);
    [|cbn; repeat split; try lia; intros; (discriminate || congruence)].
  unfold get_json. destruct (json r) as [data|];
    [|cbn; repeat split; try lia; intros; (discriminate || congruence)].
  cbn [negb].
  destruct data as [| | | |text|items|d];
    try (cbn; repeat split; try lia; intros; (discriminate || congruence)).
  - cbn [py_in]. destruct (is_substring (py "reviews") text);
      cbn; repeat split; try lia; intros; (discriminate || congruence).
  - cbn [py_in].
    destruct (existsb _ items);
      cbn; repeat split; try lia; intros; (discriminate || congruence).
  - cbn [py_in py_getitem]. unfold has_key.
    destruct (d !! py "reviews") as [v|] eqn:Ed;
      [|cbn; repeat split; try lia; intros; (discriminate || congruence)].
    cbn [negb].
    destruct v as [| | | | |reviews|];
      try (cbn; repeat split; try lia; intros; (discriminate || congruence)).
    destruct (length reviews =? 0)%nat;
      [cbn; repeat split; try lia; intros; (discriminate || congruence)|].
    destruct (100 <? length reviews)%nat;
      [cbn; repeat split; try lia; intros; (discriminate || congruence)|].
    pose proof (batch_loop_spec a (times r) reviews 0 n [] []) as (Hn & _ & Hp).
    destruct (batch_loop a (times r) 0 reviews n [] []) as [[n' results] calls].
    cbn in Hn, Hp. subst n'. cbn.
    repeat split; try lia.
    intros _. exists (VDict d), reviews.
    split; [reflexivity|]. split; [|reflexivity].
    cbn [py_getitem]. now rewrite Ed.
Qed.

(** C8, as amended.  The counter never decreases.  Every request to
    [/api/predict] adds exactly one, on entry, whether or not it gets as far
    as a prediction; a batch that passes the request-level checks adds
    exactly one per item, whether or not the item is predicted; a batch
    turned away as a whole and every other endpoint leave the counter
    unchanged.  Each call of [predict] is thereby counted once. *)
Theorem request_count_accounting (app : App F) (r : request F) (n : Z) :
  let s := serve app r n in
  (n <= new_request_count s)%Z
  /\ (Z.of_nat (length (predicted s)) <= new_request_count s - n)%Z
  /\ match target r with
     | PredictSentiment => new_request_count s = (n + 1)%Z
     | PredictBatch =>
         (status_of (respond (returned s)) = 200%Z ->
          exists data reviews,
            get_json r = Ok data
            /\ py_getitem data (py "reviews") = Ok (VList reviews)
            /\ new_request_count s = (n + Z.of_nat (length reviews))%Z)
         /\ (status_of (respond (returned s)) <> 200%Z -> new_request_count s = n)
     | _ => new_request_count s = n
     end.
Proof.
  unfold serve. destruct (target r); cbn [new_request_count predicted length];
    try (repeat split; lia).
  - destruct (predict_sentiment_count app r n) as [-> Hp]. repeat split; lia.
  - destruct (predict_batch_count app r n) as (Hmono & Hcalls & Hok & Hno).
    repeat split; assumption.
Qed.

Ltac no_request_id :=
  cbn [returned respond http_code Exception BadRequest];
  unfold request_id_of, internal_error, not_found, error_message, error_only,
    home, health_check;
  lookup_keys; discriminate.

Lemma predict_sentiment_request_id (app : App F) (r : request F) (n k : Z) :
  request_id_of (respond (returned (predict_sentiment app r n))) = Some k ->
  k = (n + 1)%Z.
Proof.
  unfold predict_sentiment, get_json.
  destruct (analyzer app) as [a|]; [|no_request_id].
  destruct (is_json r); [|no_request_id]. cbn [negb].
  destruct (json r) as [data|]; [|no_request_id].
  destruct (py_in (py "review") data) as [[|]|e] eqn:Ein; cbn [negb];
    [| no_request_id
     | destruct data; cbn in Ein; try discriminate; injection Ein as <-;
       no_request_id].
  destruct (py_getitem data (py "review")) as [review_text|e] eqn:Eget.
  2:{ destruct data; cbn in Eget; try discriminate;
        try (injection Eget as <-; no_request_id).
      destruct (_ !! _); [discriminate|]. injection Eget as <-. no_request_id. }
  destruct review_text as [| | | |text| |]; try no_request_id.
  destruct (negb (truthy (VStr (F:=F) (strip text)))); [no_request_id|].
  destruct (MAX_REVIEW_LENGTH app <? Z.of_nat (length text))%Z; [no_request_id|].
  cbn [returned].
  destruct (predict a (times r 0) (VStr text)) as [result|e] eqn:Ep;
    cbn [try_except mbind result_bind]; [|no_request_id].
  destruct (has_key (py "error") result); cbn [try_except respond request_id_of].
  - destruct (predict_keys _ _ _ _ Ep) as [-> _]. discriminate.
  - lookup_keys. congruence.
Qed.

Lemma serve_request_id (app : App F) (r : request F) (n k : Z) :
  request_id_of (handle app r n).2 = Some k ->
  k = (handle app r n).1 /\ (n < k)%Z.
Proof.
  unfold handle, serve. cbn [fst snd].
  destruct (target r); cbn [new_request_count returned]; try no_request_id.
  - unfold get_stats. destruct (analyzer app); lookup_keys; no_request_id.
  - intros Hk. apply predict_sentiment_request_id in Hk. subst k.
    destruct (predict_sentiment_count app r n) as [-> _]. lia.
  - unfold predict_batch. split_cases; try no_request_id.
    all: cbn [returned respond request_id_of]; try now lookup_keys.
    all: try (destruct (http_code _); [discriminate | no_request_id]).
Qed.

Lemma handle_monotone (app : App F) (r : request F) (n : Z) :
  (n <= (handle app r n).1)%Z.
Proof.
  unfold handle, serve. cbn [fst].
  destruct (target r); cbn [new_request_count]; try lia.
  - destruct (predict_sentiment_count app r n) as [-> _]. lia.
  - apply (predict_batch_count app r n).
Qed.

(** Across requests served one after the other, the [request_id]s handed
    out strictly increase, and each lies above the counter the run started
    from and at most at the counter it ended with. *)
Lemma run_request_ids (app : App F) (rs : list (request F)) :
  forall n : Z,
    (n <= (run app rs n).1)%Z
    /\ Forall (fun k => (n < k <= (run app rs n).1)%Z) (request_ids (run app rs n).2)
    /\ StronglySorted Z.lt (request_ids (run app rs n).2).
Proof.
  induction rs as [|r rest IH]; intros n.
  - cbn. repeat split; [lia | constructor | constructor].
  - cbn [run].
    pose proof (handle_monotone app r n) as Hmono.
    pose proof (serve_request_id app r n) as Hid.
    destruct (handle app r n) as [n1 resp]. cbn [fst snd] in *.
    destruct (IH n1) as (Hle & Hall & Hsorted).
    destruct (run app rest n1) as [n2 resps]. cbn [fst snd] in *.
    unfold request_ids in *. cbn [omap list_omap].
    split; [lia|].
    destruct (request_id_of resp) as [k|].
    + destruct (Hid k eq_refl) as [-> Hk]. split.
      * constructor; [lia|]. eapply Forall_impl; [exact Hall|]. cbn. lia.
      * constructor; [exact Hsorted|].
        eapply Forall_impl; [exact Hall|]. cbn. lia.
    + split; [|exact Hsorted].
      eapply Forall_impl; [exact Hall|]. cbn. lia.
Qed.

Lemma preprocess_text_loved :
  preprocess_text (py "I loved this movie!") = py "i loved this movie!".
Proof. reflexivity. Qed.

Lemma truthy_strip (text : str) :
  strip text <> [] -> truthy (VStr (F:=F) (strip text)) = true.
Proof. cbn. now destruct (strip text). Qed.

(** C7, as amended.  With the model loaded, the length limit at its default
    or anywhere from 19 up, and a classifier that answers this review with
    label 0 or 1, posting [{"review": "I loved this movie!"}] to
    [/api/predict] yields status 200 with a sentiment, that label,
    [review_length] 19 and, as [request_id], the counter after its
    increment; across requests served one after the other the request ids
    strictly increase. *)
Theorem predict_sentiment_round_trip (app : App F) (a : SentimentAnalyzer F)
    (r : request F) (n : Z) (d : dict F) (f : features a) (lab : Z)
    (preds : list label) (p : F) (ps : list F) (rows : list (list F)) :
  analyzer app = Some a ->
  (19 <= MAX_REVIEW_LENGTH app)%Z ->
  target r = PredictSentiment ->
  is_json r = true ->
  json r = Some (VDict d) ->
  d !! py "review" = Some (VStr (py "I loved this movie!")) ->
  vectorizer_transform a [py "i loved this movie!"] = Ok f ->
  model_predict a f = Ok (LInt lab :: preds) ->
  (lab = 0 \/ lab = 1)%Z ->
  model_predict_proba a f = Ok ((p :: ps) :: rows) ->
  (exists body,
      handle app r n = ((n + 1)%Z, Json body 200)
      /\ body !! py "sentiment"
         = Some (VStr (if (lab =? 1)%Z then py "Positive" else py "Negative"))
      /\ body !! py "label" = Some (VInt lab)
      /\ body !! py "review_length" = Some (VInt 19)
      /\ body !! py "request_id" = Some (VInt (n + 1)))
  /\ forall (rs : list (request F)) (m : Z),
       StronglySorted Z.lt (request_ids (run app rs m).2)
       /\ Forall (fun k => (m < k <= (run app rs m).1)%Z)
            (request_ids (run app rs m).2).
Proof.
  intros Ha Hmax Ht Hj Hb Hd Hf Hpred Hlab Hrows.
  split; [|intros rs m; now destruct (run_request_ids app rs m) as (_ & ? & ?)].
  assert (Hs : exists body,
             predict_sentiment app r n =
               {| new_request_count := n + 1;
                  predicted := [VStr (py "I loved this movie!")];
                  returned := Ok (Json body 200) |}
             /\ body !! py "sentiment"
                = Some (VStr (if (lab =? 1)%Z then py "Positive" else py "Negative"))
             /\ body !! py "label" = Some (VInt lab)
             /\ body !! py "review_length" = Some (VInt 19)
             /\ body !! py "request_id" = Some (VInt (n + 1))).
  { unfold predict_sentiment, get_json.
    rewrite Ha, Hj, Hb. cbn [negb py_in py_getitem]. unfold has_key at 1.
    rewrite Hd. cbn [negb].
    rewrite truthy_strip by (vm_compute; discriminate). cbn [negb].
    change (length (py "I loved this movie!")) with 19%nat.
    replace (MAX_REVIEW_LENGTH app <? Z.of_nat 19)%Z with false
      by (symmetry; apply Z.ltb_ge; lia).
    rewrite predict_str by (vm_compute; discriminate).
    rewrite preprocess_text_loved. unfold classify.
    rewrite Hf. cbn [mbind result_bind]. rewrite Hpred. cbn [mbind result_bind index0].
    rewrite Hrows. cbn [mbind result_bind index0 label_eq_one label_int py_max].
    cbn [try_except]. unfold has_key. lookup_keys.
    eexists. split; [reflexivity|]. now lookup_keys. }
  destruct Hs as (body & Hs & Hfields). exists body. split; [|exact Hfields].
  unfold handle, serve. now rewrite Ht, Hs.
Qed.

(** C9.  In a batch of three reviews whose middle item is the empty string
    and whose other items are predicted without error, the response has
    status 200 and three results in input order: entry [i] carries index
    [i]; entries 0 and 2 are the predictions of items 0 and 2; entry 1 is an
    error; [successful_predictions] is 2. *)
Theorem predict_batch_isolates_bad_item (app : App F) (a : SentimentAnalyzer F)
    (r : request F) (n : Z) (d : dict F) (r0 r2 : str) (d0 d2 : dict F) :
  analyzer app = Some a ->
  target r = PredictBatch ->
  is_json r = true ->
  json r = Some (VDict d) ->
  d !! py "reviews" = Some (VList [VStr r0; VStr []; VStr r2]) ->
  strip r0 <> [] ->
  strip r2 <> [] ->
  predict a (times r 0) (VStr r0) = Ok d0 ->
  d0 !! py "error" = None ->
  predict a (times r 2) (VStr r2) = Ok d2 ->
  d2 !! py "error" = None ->
  exists body e0 e1 e2,
    handle app r n = ((n + 3)%Z, Json body 200)
    /\ body !! py "results" = Some (VList [VDict e0; VDict e1; VDict e2])
    /\ body !! py "total_reviews" = Some (VInt 3)
    /\ body !! py "successful_predictions" = Some (VInt 2)
    /\ e0 = <[py "index" := VInt 0]> d0
    /\ e2 = <[py "index" := VInt 2]> d2
    /\ e0 !! py "index" = Some (VInt 0)
    /\ e1 !! py "index" = Some (VInt 1)
    /\ e2 !! py "index" = Some (VInt 2)
    /\ e0 !! py "error" = None
    /\ e1 !! py "error" = Some (VStr (py "Invalid or empty review"))
    /\ e2 !! py "error" = None.
Proof.
  intros Ha Ht Hj Hb Hd Hs0 Hs2 Hp0 He0 Hp2 He2.
  assert (Hk0 : has_key (py "error") (<[py "index" := VInt (Z.of_nat 0)]> d0) = false)
    by (unfold has_key; lookup_keys; now rewrite He0).
  assert (Hk2 : has_key (py "error") (<[py "index" := VInt (Z.of_nat 2)]> d2) = false)
    by (unfold has_key; lookup_keys; now rewrite He2).
  assert (Hk1 : has_key (py "error")
                  (item_error (F:=F) 1 (py "Invalid or empty review")) = true)
    by (unfold has_key, item_error; now lookup_keys).
  assert (Hs : exists body,
             predict_batch app r n =
               {| new_request_count := n + 1 + 1 + 1;
                  predicted := [VStr r0; VStr r2];
                  returned := Ok (Json body 200) |}
             /\ body !! py "results"
                = Some (VList [VDict (<[py "index" := VInt 0]> d0);
                               VDict (item_error 1 (py "Invalid or empty review"));
                               VDict (<[py "index" := VInt 2]> d2)])
             /\ body !! py "total_reviews" = Some (VInt 3)
             /\ body !! py "successful_predictions" = Some (VInt 2)).
  { unfold predict_batch, get_json.
    rewrite Ha, Hj, Hb. cbn [negb py_in py_getitem]. unfold has_key at 1.
    rewrite Hd. cbn [negb length Nat.eqb Nat.ltb Nat.leb batch_loop].
    change (strip []) with (@nil N). cbn [truthy].
    destruct (strip r0); [congruence|]. destruct (strip r2); [congruence|].
    cbn [negb Datatypes.app]. rewrite Hp0, Hp2. cbn [List.filter].
    rewrite Hk0, Hk1, Hk2. cbn [negb length fmap list_fmap].
    eexists. split; [reflexivity|]. now lookup_keys. }
  destruct Hs as (body & Hs & Hres & Htot & Hsucc).
  exists body, (<[py "index" := VInt 0]> d0),
    (item_error 1 (py "Invalid or empty review")), (<[py "index" := VInt 2]> d2).
  split; [unfold handle, serve; rewrite Ht, Hs; cbn; f_equal; lia|].
  unfold item_error. repeat split; lookup_keys; try reflexivity; assumption.
Qed.
End ViewProofs.

(** ** What whitespace collapsing and lower-casing keep *)

Lemma existsb_sub_from (f : char -> bool) (p : pattern) (n : nat) (s : str) :
  existsb f (sub_from p n s) = true -> existsb f s = true.
Proof.
  revert n. induction s as [|c s IH]; intros n; [easy|].
  rewrite sub_from_cons. cbn [existsb].
  destruct n as [|n].
  - destruct (p (c :: s)) as [[|k]|].
    + cbn [existsb]. intros H. apply orb_true_iff in H as [->|H]; [reflexivity|].
      rewrite (IH _ H). apply orb_true_r.
    + intros H. rewrite (IH _ H). apply orb_true_r.
    + cbn [existsb]. intros H. apply orb_true_iff in H as [->|H]; [reflexivity|].
      rewrite (IH _ H). apply orb_true_r.
  - intros H. rewrite (IH _ H). apply orb_true_r.
Qed.

Lemma angle_pair_sub_from (p : pattern) (n : nat) (s : str) :
  angle_pair (sub_from p n s) = true -> angle_pair s = true.
Proof.
  revert n. induction s as [|c s IH]; intros n; [easy|].
  rewrite sub_from_cons. cbn [angle_pair].
  assert (Hkeep : angle_pair (c :: sub_from p 0 s) = true ->
                  (c =? Chr.lt) && existsb (N.eqb Chr.gt) s || angle_pair s = true).
  { cbn [angle_pair]. intros H. apply orb_true_iff in H as [H|H].
    - apply andb_true_iff in H as [-> H]. now rewrite (existsb_sub_from _ _ _ _ H).
    - rewrite (IH _ H). apply orb_true_r. }
  destruct n as [|n].
  - destruct (p (c :: s)) as [[|k]|]; try exact Hkeep.
    intros H. rewrite (IH _ H). apply orb_true_r.
  - intros H. rewrite (IH _ H). apply orb_true_r.
Qed.

Lemma lazy_any_then_gt_exists (s : str) (n : nat) :
  lazy_any_then_gt s = Some n -> existsb (N.eqb Chr.gt) s = true.
Proof.
  revert n. induction s as [|c s IH]; intros n; [discriminate|].
  cbn [existsb lazy_any_then_gt]. rewrite (N.eqb_sym Chr.gt c).
  destruct (c =? Chr.gt); [reflexivity|].
  destruct (c =? Chr.newline); [discriminate|].
  destruct (lazy_any_then_gt s); [|discriminate]. intros _. cbn [orb]. eauto.
Qed.

Lemma lazy_any_then_gt_one_line (s : str) :
  existsb (N.eqb Chr.newline) s = false ->
  lazy_any_then_gt s = None ->
  existsb (N.eqb Chr.gt) s = false.
Proof.
  induction s as [|c s IH]; [reflexivity|]. cbn [existsb lazy_any_then_gt].
  rewrite (N.eqb_sym Chr.gt c), (N.eqb_sym Chr.newline c).
  intros Hn. apply orb_false_iff in Hn as [-> Hn].
  destruct (c =? Chr.gt); [discriminate|].
  destruct (lazy_any_then_gt s); [discriminate|]. intros _. cbn [orb]. auto.
Qed.

(** A match of [<.*?>] needs a [<] with a [>] after it. *)
Lemma no_angle_pair_no_tag (s : str) :
  angle_pair s = false -> has_match tag_pattern s = false.
Proof.
  induction s as [|c s IH]; [reflexivity|]. cbn [angle_pair has_match].
  intros H. apply orb_false_iff in H as [Hc Hs]. rewrite (IH Hs), orb_false_r.
  unfold tag_pattern. destruct (c =? Chr.lt); [|reflexivity].
  destruct (lazy_any_then_gt s) as [n|] eqn:El; [|reflexivity].
  apply lazy_any_then_gt_exists in El. cbn [andb] in Hc. congruence.
Qed.

(** On a single line, a text without a match of [<.*?>] has no [<] before
    a [>]. *)
Lemma one_line_tag_free (s : str) :
  existsb (N.eqb Chr.newline) s = false ->
  has_match tag_pattern s = false ->
  angle_pair s = false.
Proof.
  induction s as [|c s IH]; [reflexivity|]. cbn [existsb angle_pair has_match].
  intros Hn Hm. apply orb_false_iff in Hn as [_ Hn]. apply orb_false_iff in Hm as [Hc Hm].
  rewrite (IH Hn Hm), orb_false_r.
  unfold tag_pattern in Hc. destruct (c =? Chr.lt); [|reflexivity].
  destruct (lazy_any_then_gt s) eqn:El; [discriminate|].
  now rewrite (lazy_any_then_gt_one_line s Hn El).
Qed.

Lemma existsb_gt_angles (s : str) :
  existsb (N.eqb Chr.gt) (angles s) = existsb (N.eqb Chr.gt) s.
Proof.
  induction s as [|c s IH]; [reflexivity|]. unfold angles in *. cbn [List.filter existsb].
  unfold is_angle at 1. rewrite (N.eqb_sym Chr.gt c).
  destruct (c =? Chr.gt) eqn:Eg.
  - rewrite orb_true_r. cbn [existsb]. now rewrite (N.eqb_sym Chr.gt c), Eg.
  - rewrite orb_false_r. destruct (c =? Chr.lt) eqn:El; [|exact IH].
    cbn [existsb]. now rewrite (N.eqb_sym Chr.gt c), Eg, IH.
Qed.

(** Whether a [<] precedes a [>] depends on the angle brackets alone. *)
Lemma angle_pair_angles (s : str) : angle_pair (angles s) = angle_pair s.
Proof.
  induction s as [|c s IH]; [reflexivity|].
  pose proof (existsb_gt_angles s) as He.
  unfold angles in *. cbn [List.filter angle_pair]. unfold is_angle at 1.
  destruct (c =? Chr.lt) eqn:El.
  - cbn [orb angle_pair]. now rewrite El, He, IH.
  - destruct (c =? Chr.gt) eqn:Eg; cbn [orb andb]; [|exact IH].
    cbn [angle_pair]. now rewrite El, IH.
Qed.

Lemma isspace_not_angle (c : char) : isspace c = true -> is_angle c = false.
Proof.
  intros Hc. apply isspace_cases in Hc. unfold is_angle, Chr.lt, Chr.gt.
  apply orb_false_iff. split; apply N.eqb_neq; lia.
Qed.

Lemma angles_lstrip (s : str) : angles (lstrip s) = angles s.
Proof.
  induction s as [|c s IH]; [reflexivity|]. simpl lstrip.
  destruct (isspace c) eqn:E; [|reflexivity].
  unfold angles in *. cbn [List.filter]. now rewrite (isspace_not_angle c E).
Qed.

Lemma angles_rev (s : str) : angles (rev s) = rev (angles s).
Proof. apply filter_rev. Qed.

Lemma angles_strip (s : str) : angles (strip s) = angles s.
Proof.
  unfold strip, rstrip.
  now rewrite angles_rev, angles_lstrip, angles_rev, rev_involutive, angles_lstrip.
Qed.

Lemma angles_squeeze (s : str) : angles (squeeze s) = angles s.
Proof.
  induction s as [|c s IH]; [reflexivity|].
  destruct (isspace c) eqn:E.
  - assert (Hs : angles (squeeze (c :: s)) = angles (squeeze s)).
    { simpl squeeze. rewrite E. destruct s as [|d s]; [reflexivity|].
      destruct (isspace d); reflexivity. }
    rewrite Hs, IH. unfold angles. cbn [List.filter].
    now rewrite (isspace_not_angle c E).
  - rewrite squeeze_cons_nonspace by assumption.
    unfold angles in *. cbn [List.filter]. now rewrite IH.
Qed.

(** Collapsing whitespace leaves the angle brackets as they are. *)
Lemma angles_collapse (s : str) : angles (join (py " ") (split s)) = angles s.
Proof.
  rewrite collapse_whitespace_correct. unfold collapse_whitespace.
  now rewrite angles_strip, angles_squeeze.
Qed.

Lemma split_token_app (t rest : str) :
  is_token t ->
  match rest with [] => True | c :: _ => isspace c = true end ->
  split (t ++ rest) = t :: split rest.
Proof.
  intros [Hne Ht] Hrest. destruct t as [|c t]; [congruence|].
  simpl in Ht. apply andb_true_iff in Ht as [Hc Ht]. apply negb_true_iff in Hc.
  cbn [app]. rewrite split_cons_nonspace by assumption.
  pose proof (token_app t rest Ht Hrest) as Htok.
  rewrite Htok. do 2 f_equal.
  unfold after_token. rewrite <- token_length, Htok. apply drop_app_length.
Qed.

(** Collapsing whitespace leaves the tokens as they are. *)
Lemma split_join (parts : list str) :
  Forall is_token parts -> split (join (py " ") parts) = parts.
Proof.
  induction parts as [|t rest IH]; [reflexivity|]. intros Hf.
  pose proof (Forall_inv Hf) as Ht. pose proof (Forall_inv_tail Hf) as Hrest.
  rewrite join_cons. destruct rest as [|t' rest'].
  - rewrite <- (app_nil_r t) at 1.
    now rewrite split_token_app by (assumption || exact I).
  - change (py " " ++ join (py " ") (t' :: rest'))
      with (Chr.space :: join (py " ") (t' :: rest')).
    rewrite split_token_app by (assumption || reflexivity).
    rewrite split_cons_space by reflexivity. now rewrite IH.
Qed.

Lemma has_match_url_token_app (t rest : str) :
  forallb (fun c => negb (isspace c)) t = true ->
  match rest with [] => True | c :: _ => isspace c = true end ->
  has_match url_pattern (t ++ rest) =
    has_match url_pattern t || has_match url_pattern rest.
Proof.
  intros Ht Hrest. induction t as [|c t IH]; [reflexivity|].
  simpl in Ht. apply andb_true_iff in Ht as [Hc Ht].
  cbn [app has_match]. rewrite (IH Ht), orb_assoc. f_equal.
  rewrite !url_pattern_spec.
  assert (Hall : forallb (fun c => negb (isspace c)) (c :: t) = true)
    by (simpl; now rewrite Hc, Ht).
  pose proof (token_app (c :: t) rest Hall Hrest) as H1.
  pose proof (token_app (c :: t) [] Hall I) as H2. rewrite app_nil_r in H2.
  cbn [app] in H1. rewrite H1, H2. now destruct (url_starts (c :: t)).
Qed.

(** A match of the URL pattern lies inside one token. *)
Lemma has_match_url_tokens (s : str) :
  has_match url_pattern s = existsb (has_match url_pattern) (split s).
Proof.
  induction s as [s IH] using (induction_ltof1 _ (@length N)). unfold ltof in IH.
  destruct s as [|c s]; [reflexivity|].
  destruct (isspace c) eqn:E.
  - rewrite split_cons_space by assumption. cbn [has_match].
    rewrite url_pattern_space by assumption. apply IH. simpl. lia.
  - rewrite split_cons_nonspace by assumption. cbn [existsb].
    destruct (token_cons_nonspace c s E) as [Ht Ha].
    rewrite <- Ht, <- Ha, <- IH.
    + rewrite <- (token_after_token (c :: s)) at 1.
      apply has_match_url_token_app; [apply token_nonspace|].
      pose proof (after_token_head (c :: s)). now destruct (after_token (c :: s)).
    + pose proof (after_token_length s). rewrite Ha. simpl. lia.
Qed.

Lemma has_match_url_collapse (s : str) :
  has_match url_pattern (join (py " ") (split s)) = has_match url_pattern s.
Proof.
  rewrite (has_match_url_tokens (join _ _)), split_join by apply split_tokens.
  symmetry. apply has_match_url_tokens.
Qed.

(** * The normaliser *)

(** ** Tokens through URL removal and lower-casing *)

Lemma split_from_app_space (x y : str) :
  match y with [] => True | c :: _ => isspace c = true end ->
  forall cur, split_from cur (x ++ y) = split_from cur x ++ split y.
Proof.
  intros Hy. induction x as [|c x IH]; intros cur.
  - cbn [Datatypes.app split_from]. unfold split. destruct y as [|c y].
    + cbn [split_from]. now rewrite app_nil_r.
    + cbn [split_from]. rewrite Hy. now destruct cur.
  - cbn [Datatypes.app split_from].
    destruct (isspace c); [destruct cur|]; now rewrite IH.
Qed.

Lemma split_one_token (t : str) : is_token t -> split t = [t].
Proof.
  intros Ht. rewrite <- (app_nil_r t) at 1.
  now rewrite (split_token_app t [] Ht I).
Qed.

Lemma is_token_cons_token (c : char) (s : str) :
  isspace c = false -> is_token (c :: token s).
Proof.
  intros Hc. split; [discriminate|]. cbn [forallb]. rewrite Hc.
  apply token_nonspace.
Qed.

(** URL removal keeps every token that holds no URL start. *)
Lemma split_sub_urls_keeps (t : str) :
  cut_url t = t ->
  forall (n : nat) (s : str),
    (length s <= n)%nat ->
    In t (split s) -> In t (split (re_sub url_pattern s)).
Proof.
  intros Ht. induction n as [|n IH]; intros s Hn Hin.
  { destruct s; [destruct Hin | cbn in Hn; lia]. }
  destruct s as [|c s]; [destruct Hin|].
  rewrite re_sub_url_token. destruct (isspace c) eqn:Hc.
  - destruct (token_cons_space c s Hc) as [-> ->]. cbn [cut_url Datatypes.app].
    rewrite (split_cons_space _ _ Hc) in Hin. rewrite (split_cons_space _ _ Hc).
    apply IH; [cbn in Hn; lia | exact Hin].
  - rewrite (split_cons_nonspace _ _ Hc) in Hin.
    destruct (token_cons_nonspace c s Hc) as [-> ->].
    pose proof (after_token_head s) as Hh.
    pose proof (after_token_length s) as Hl.
    unfold split at 1. rewrite split_from_app_space by (now destruct (after_token s)).
    apply in_or_app. destruct Hin as [<-|Hin].
    + left. rewrite Ht. fold (split (c :: token s)).
      rewrite split_one_token by now apply is_token_cons_token.
      now left.
    + right. destruct (after_token s) as [|c' r]; [exact Hin|].
      rewrite (split_cons_space _ _ Hh) in Hin. rewrite (split_cons_space _ _ Hh).
      apply IH; [cbn in Hn, Hl; lia | exact Hin].
Qed.

Lemma starts_with_short (lit t : str) :
  starts_with lit t = true -> (length t <= length lit)%nat -> t = lit.
Proof.
  revert t. induction lit as [|l lit IH]; intros [|c t] Hs Hlen;
    cbn in *; try reflexivity; try discriminate; try lia.
  apply andb_true_iff in Hs as [Hc Hs]. apply N.eqb_eq in Hc. subst c.
  f_equal. apply IH; [exact Hs | lia].
Qed.

(** In a text without a match of [http\S+|www\S+], a token that starts
    with [http] or [www] is just that. *)
Lemma url_free_tokens (s : str) :
  has_match url_pattern s = false ->
  Forall (fun t => starts_with (py "http") t || starts_with (py "www") t = true ->
                   t = py "http" \/ t = py "www") (split s).
Proof.
  rewrite has_match_url_tokens. pose proof (split_tokens s) as Htok.
  induction Htok as [|t ts Ht _ IH]; intros Hm; [constructor|].
  cbn [existsb] in Hm. apply orb_false_iff in Hm as [Hm Hms].
  constructor; [|now apply IH].
  intros Hstart. destruct Ht as [Hne Hns].
  destruct t as [|c t]; [congruence|].
  cbn [has_match] in Hm. apply orb_false_iff in Hm as [Hm _].
  rewrite url_pattern_spec in Hm.
  replace (token (c :: t)) with (c :: t) in Hm
    by (symmetry; rewrite <- (app_nil_r (c :: t)) at 1; now apply token_app).
  destruct (url_starts (c :: t)) eqn:Hu; [discriminate|].
  unfold url_starts in Hu. apply orb_false_iff in Hu as [Hh Hw].
  apply orb_true_iff in Hstart as [Hs|Hs]; rewrite Hs in *; cbn [andb] in *.
  - left. apply starts_with_short; [exact Hs|]. apply Nat.ltb_ge in Hh. exact Hh.
  - right. apply starts_with_short; [exact Hs|]. apply Nat.ltb_ge in Hw. exact Hw.
Qed.

Section LowerCasing.
Context {L : PyLib}.

Lemma do_lower_ascii (s : str) :
  forallb is_ascii s = true ->
  forall before, do_lower before s = map ascii_tolower s.
Proof.
  induction s as [|c s IH]; intros Hs before; [reflexivity|].
  cbn [forallb] in Hs. apply andb_true_iff in Hs as [Hc Hs].
  cbn [do_lower map]. rewrite (IH Hs). unfold lower_ucs4. rewrite Hc.
  destruct (c =? Chr.capital_sigma) eqn:E; [|reflexivity].
  apply N.eqb_eq in E. subst c. discriminate.
Qed.

(** The ASCII shortcut of [str.lower] agrees with the general path. *)
Lemma lower_do_lower (s : str) : lower s = do_lower [] s.
Proof.
  unfold lower. destruct (forallb is_ascii s) eqn:E; [|reflexivity].
  symmetry. now apply do_lower_ascii.
Qed.

Lemma do_lower_head_space (before r : str) :
  match r with [] => True | c :: _ => isspace c = true end ->
  match do_lower before r with [] => True | c :: _ => isspace c = true end.
Proof.
  destruct r as [|c r]; [easy|]. intros Hc. cbn [do_lower].
  now rewrite (lower_ucs4_space _ _ _ Hc).
Qed.

Lemma do_lower_fixed_prefix (t r : str) :
  forallb (fun c => is_ascii c && (ascii_tolower c =? c)) t = true ->
  forall before, do_lower before (t ++ r) = t ++ do_lower (rev t ++ before) r.
Proof.
  induction t as [|c t IH]; intros Ht before; [reflexivity|].
  cbn [forallb] in Ht. apply andb_true_iff in Ht as [Hc Ht].
  apply andb_true_iff in Hc as [Ha Hl]. apply N.eqb_eq in Hl.
  cbn [Datatypes.app do_lower rev]. rewrite (IH Ht), <- app_assoc.
  cbn [Datatypes.app]. unfold lower_ucs4. rewrite Ha, Hl.
  destruct (c =? Chr.capital_sigma) eqn:E; [|reflexivity].
  apply N.eqb_eq in E. subst c. discriminate.
Qed.

Lemma do_lower_prefix (x r : str) :
  forall before,
    exists X, do_lower before (x ++ r) = X ++ do_lower (rev x ++ before) r.
Proof.
  induction x as [|c x IH]; intros before; [now exists []|].
  cbn [Datatypes.app do_lower rev]. destruct (IH (c :: before)) as [X HX].
  exists (lower_ucs4 before c (x ++ r) ++ X).
  rewrite HX, <- !app_assoc. reflexivity.
Qed.

(** Lower-casing keeps every token made of ASCII characters that are not
    upper-case letters. *)
Lemma split_do_lower_keeps (t : str) :
  forallb (fun c => is_ascii c && (ascii_tolower c =? c)) t = true ->
  forall (n : nat) (s before : str),
    (length s <= n)%nat ->
    In t (split s) -> In t (split (do_lower before s)).
Proof.
  intros Ht. induction n as [|n IH]; intros s before Hn Hin.
  { destruct s; [destruct Hin | cbn in Hn; lia]. }
  destruct s as [|c s]; [destruct Hin|].
  destruct (isspace c) eqn:Hc.
  - rewrite (split_cons_space _ _ Hc) in Hin. cbn [do_lower].
    rewrite (lower_ucs4_space _ _ _ Hc). cbn [Datatypes.app].
    rewrite (split_cons_space _ _ Hc).
    apply IH; [cbn in Hn; lia | exact Hin].
  - rewrite (split_cons_nonspace _ _ Hc) in Hin.
    destruct (token_cons_nonspace c s Hc) as [Htok Haft].
    pose proof (token_after_token (c :: s)) as Hs. rewrite Htok, Haft in Hs.
    pose proof (after_token_length s) as Hl.
    rewrite <- Hs. destruct Hin as [<-|Hin].
    + rewrite do_lower_fixed_prefix by exact Ht.
      rewrite split_token_app;
        [now left | now apply is_token_cons_token
         | apply do_lower_head_space, after_token_head].
    + destruct (do_lower_prefix (c :: token s) (after_token s) before) as [X ->].
      unfold split at 1.
      rewrite split_from_app_space by apply do_lower_head_space, after_token_head.
      apply in_or_app. right. apply IH; [cbn in Hn; lia | exact Hin].
Qed.

(** Collapsing leaves no line feed. *)
Lemma spaces_inside_no_newline (u : str) :
  spaces_inside u = true -> existsb (N.eqb Chr.newline) u = false.
Proof.
  induction u as [|c u IH]; [reflexivity|]. cbn [spaces_inside existsb].
  intros H. apply andb_true_iff in H as [Hc Hu]. rewrite (IH Hu), orb_false_r.
  destruct (Chr.newline =? c) eqn:E; [|reflexivity].
  apply N.eqb_eq in E. subst c. discriminate.
Qed.

Lemma collapse_no_newline (t : str) :
  existsb (N.eqb Chr.newline) (join (py " ") (split t)) = false.
Proof.
  pose proof (join_tokens_canonical (split t) (split_tokens t)) as Hc.
  unfold whitespace_canonical in Hc.
  destruct (join (py " ") (split t)) as [|c u] eqn:E; [reflexivity|].
  apply andb_true_iff in Hc as [_ Hc]. now apply spaces_inside_no_newline.
Qed.

Lemma tag_match_on_one_line (u : str) :
  existsb (N.eqb Chr.newline) u = false ->
  has_match tag_pattern u = angle_pair u.
Proof.
  intros Hl. destruct (has_match tag_pattern u) eqn:Hm.
  - destruct (angle_pair u) eqn:Hp; [reflexivity|].
    apply no_angle_pair_no_tag in Hp. congruence.
  - symmetry. now apply one_line_tag_free.
Qed.

(** After collapsing, a tag matches exactly when a [<] precedes a [>]. *)
Lemma tag_match_collapse (t : str) :
  has_match tag_pattern (join (py " ") (split t)) = angle_pair t.
Proof.
  rewrite tag_match_on_one_line by apply collapse_no_newline.
  now rewrite <- angle_pair_angles, angles_collapse, angle_pair_angles.
Qed.
End LowerCasing.

Section NormalizerClaims.
Context {L : PyLib}.

Lemma preprocess_text_unfold (s : str) :
  preprocess_text s =
    join (py " ")
      (split (lower (re_sub url_pattern (re_sub tag_pattern (unescape s))))).
Proof. reflexivity. Qed.

(** C1, as amended.  [preprocess_text] is the composition, in this order, of
    (1) entity decoding; (2) removal, left to right, of every span from a
    [<] to the nearest following [>] on the same line, a [<] that is not
    closed before the next line feed or the end of the text being kept;
    (3) in every whitespace-delimited token, removal of everything from the
    first occurrence of [http] or [www] that is followed by at least one
    more character of the token up to the end of the token; (4) lower-casing;
    (5) replacing every run of whitespace by one ASCII space and trimming
    both ends. *)
Theorem preprocess_text_is_its_steps (s : str) :
  preprocess_text s = normalize_steps s
  /\ normalize_steps s =
       collapse_whitespace (lower (cut_urls (strip_tags (unescape s)))).
Proof.
  split; [|reflexivity].
  rewrite preprocess_text_unfold. unfold normalize_steps.
  now rewrite strip_tags_correct, cut_urls_correct, collapse_whitespace_correct.
Qed.

Lemma angles_lower_ascii (t : str) :
  forallb is_ascii t = true -> angles (lower t) = angles t.
Proof.
  intros Ha. unfold lower. rewrite Ha. clear Ha.
  induction t as [|c t IH]; [reflexivity|].
  unfold angles in *. cbn [map List.filter]. rewrite IH.
  assert (Hc : is_angle (ascii_tolower c) = is_angle c /\
               (is_angle c = true -> ascii_tolower c = c)).
  { unfold is_angle, ascii_tolower, Chr.lt, Chr.gt.
    destruct ((65 <=? c) && (c <=? 90)) eqn:E.
    - apply andb_true_iff in E as [E1 E2]. apply N.leb_le in E1, E2.
      replace (c + 32 =? 60) with false by (symmetry; apply N.eqb_neq; lia).
      replace (c + 32 =? 62) with false by (symmetry; apply N.eqb_neq; lia).
      replace (c =? 60) with false by (symmetry; apply N.eqb_neq; lia).
      replace (c =? 62) with false by (symmetry; apply N.eqb_neq; lia).
      split; [reflexivity | discriminate].
    - split; reflexivity. }
  destruct Hc as [Hc1 Hc2]. rewrite Hc1.
  destruct (is_angle c) eqn:E; [|reflexivity]. now rewrite Hc2.
Qed.

(** C2, as amended.  Write [stripped] for the text after steps 1 and 2,
    [cut] for the text after step 3 and [low] for the lower-cased text after
    step 4.

    White space: the output has no two adjacent whitespace characters, its
    whitespace being single ASCII spaces between non-whitespace characters,
    and its tokens are exactly the tokens of [low].

    After steps 1 to 3: [cut] contains no match of [<.*?>] and no match of
    [http\S+|www\S+], so a token of [cut] that starts with [http] or [www]
    is exactly [http] or [www].  Such a token is never removed: a token
    [http] or [www] of [stripped] is a token of the output.

    Tags in the output: it contains a match of [<.*?>] exactly when [low]
    has a [<] somewhere before a [>].  When [cut] is ASCII this is exactly
    when [cut] has a [<] before a [>], and it is never the case when the
    entity-decoded input has no line feed.

    URLs in the output: it contains a match of [http\S+|www\S+], and
    likewise a token that starts with [http] or [www], exactly when [low]
    does.  When [cut] is ASCII it contains a match exactly when [cut] with
    its letters [A] to [Z] lower-cased does. *)
Theorem preprocess_text_output_shape (s : str) :
  let stripped := re_sub tag_pattern (unescape s) in
  let cut := re_sub url_pattern stripped in
  let low := lower cut in
  preprocess_text s = join (py " ") (split low)
  /\ has_whitespace_run (preprocess_text s) = false
  /\ whitespace_canonical (preprocess_text s) = true
  /\ split (preprocess_text s) = split low
  /\ has_match tag_pattern stripped = false
  /\ has_match tag_pattern cut = false
  /\ has_match url_pattern cut = false
  /\ Forall (fun t => starts_with (py "http") t || starts_with (py "www") t = true ->
                      t = py "http" \/ t = py "www") (split cut)
  /\ (forall t, t = py "http" \/ t = py "www" ->
                In t (split stripped) -> In t (split (preprocess_text s)))
  /\ has_match tag_pattern (preprocess_text s) = angle_pair low
  /\ (forallb is_ascii cut = true ->
      has_match tag_pattern (preprocess_text s) = angle_pair cut)
  /\ (forallb is_ascii cut = true ->
      existsb (N.eqb Chr.newline) (unescape s) = false ->
      has_match tag_pattern (preprocess_text s) = false)
  /\ has_match url_pattern (preprocess_text s) = has_match url_pattern low
  /\ has_url_token (preprocess_text s) = has_url_token low
  /\ (forallb is_ascii cut = true ->
      has_match url_pattern (preprocess_text s)
      = has_match url_pattern (map ascii_tolower cut)).
Proof.
  intros stripped cut low.
  assert (Hout : preprocess_text s = join (py " ") (split low)) by reflexivity.
  assert (Hc : whitespace_canonical (preprocess_text s) = true)
    by (rewrite Hout; apply join_tokens_canonical, split_tokens).
  assert (Hsplit : split (preprocess_text s) = split low)
    by (rewrite Hout; apply split_join, split_tokens).
  assert (Htag : has_match tag_pattern (preprocess_text s) = angle_pair low)
    by (rewrite Hout; apply tag_match_collapse).
  assert (Hascii : forallb is_ascii cut = true ->
                   has_match tag_pattern (preprocess_text s) = angle_pair cut).
  { intros Ha. rewrite Htag. unfold low.
    now rewrite <- angle_pair_angles, (angles_lower_ascii _ Ha), angle_pair_angles. }
  assert (Hurl : has_match url_pattern (preprocess_text s)
                 = has_match url_pattern low)
    by (rewrite Hout; apply has_match_url_collapse).
  split; [exact Hout|].
  split; [now apply whitespace_canonical_no_run|]. split; [exact Hc|].
  split; [exact Hsplit|].
  split; [apply sub_tags_no_match|].
  split; [apply sub_urls_keeps_tag_free; [lia | apply sub_tags_no_match]|].
  split; [apply sub_urls_no_match|].
  split; [apply url_free_tokens, sub_urls_no_match|].
  split.
  { intros t Ht Hin. rewrite Hsplit. unfold low. rewrite lower_do_lower.
    apply (split_do_lower_keeps t) with (n := length cut);
      [destruct Ht as [-> | ->]; reflexivity | lia |].
    apply (split_sub_urls_keeps t) with (n := length stripped);
      [destruct Ht as [-> | ->]; reflexivity | lia | exact Hin]. }
  split; [exact Htag|]. split; [exact Hascii|].
  split.
  { intros Ha Hline. rewrite (Hascii Ha).
    assert (Hs : angle_pair stripped = false).
    { apply one_line_tag_free; [|apply sub_tags_no_match].
      destruct (existsb (N.eqb Chr.newline) stripped) eqn:E; [|reflexivity].
      apply existsb_sub_from in E. congruence. }
    destruct (angle_pair cut) eqn:E; [|reflexivity].
    apply angle_pair_sub_from in E. congruence. }
  split; [exact Hurl|].
  split; [unfold has_url_token; now rewrite Hsplit|].
  intros Ha. rewrite Hurl. unfold low, lower. now rewrite Ha.
Qed.

(** A clean text that lower-casing leaves alone is a fixed point. *)
Lemma preprocess_text_fixed (x : str) :
  clean x -> lower x = x -> preprocess_text x = x.
Proof.
  intros (Hu & Ht & Hw & Hc) Hl. rewrite preprocess_text_unfold.
  rewrite Hu, (re_sub_no_match _ _ Ht), (re_sub_no_match _ _ Hw), Hl.
  rewrite collapse_whitespace_correct. now apply whitespace_canonical_collapse.
Qed.

(** C3, as amended.  On every text [x] such that [x] and its lower-cased
    form are both free of HTML entities, tags, matches of [http\S+|www\S+]
    and extra whitespace, and whose lower-cased form is unchanged by
    lower-casing again, [preprocess_text] is idempotent; there it just
    lower-cases. *)
Theorem preprocess_text_idempotent (x : str) :
  clean x -> clean (lower x) -> lower (lower x) = lower x ->
  preprocess_text x = lower x
  /\ preprocess_text (preprocess_text x) = preprocess_text x.
Proof.
  intros (Hu & Ht & Hw & Hc) Hy Hl.
  assert (Hx : preprocess_text x = lower x).
  { rewrite preprocess_text_unfold.
    rewrite Hu, (re_sub_no_match _ _ Ht), (re_sub_no_match _ _ Hw).
    rewrite collapse_whitespace_correct.
    apply whitespace_canonical_collapse, Hy. }
  split; [exact Hx|]. rewrite Hx. now apply preprocess_text_fixed.
Qed.
End NormalizerClaims.

(** C1 fails as worded: a bare [http] is a token that begins with [http], yet
    it is kept; what precedes [http] inside a token is kept although the token
    does not begin with it; a [<] and a [>] on different lines are kept. *)
Lemma preprocess_text_not_as_specified :
  (preprocess_text (L:=ascii_lib) (py "http") = py "http"
   /\ normalize_as_specified (L:=ascii_lib) (py "http") = [])
  /\ (preprocess_text (L:=ascii_lib) (py "xhttp://a") = py "x"
      /\ normalize_as_specified (L:=ascii_lib) (py "xhttp://a") = py "xhttp://a")
  /\ (preprocess_text (L:=ascii_lib) (py "<" ++ [Chr.newline] ++ py ">") = py "< >"
      /\ normalize_as_specified (L:=ascii_lib) (py "<" ++ [Chr.newline] ++ py ">") = [])
  /\ preprocess_text (L:=ascii_lib) (py "http")
     <> normalize_as_specified (L:=ascii_lib) (py "http").
Proof. repeat split; try reflexivity. vm_compute. discriminate. Qed.

(** C2 fails as worded: the output can contain a [<...>] span and tokens that
    begin with [http]. *)
Lemma preprocess_text_output_keeps_tag_and_url :
  (preprocess_text (L:=ascii_lib) (py "<" ++ [Chr.newline] ++ py ">") = py "< >"
   /\ has_match tag_pattern (py "< >") = true)
  /\ (preprocess_text (L:=ascii_lib) (py "http") = py "http"
      /\ has_url_token (py "http") = true)
  /\ (preprocess_text (L:=ascii_lib) (py "HTTP://X") = py "http://x"
      /\ has_url_token (py "http://x") = true).
Proof. repeat split; reflexivity. Qed.

(** C3 fails as worded: [HTTP://X] and [xHTTP://y] have no entity, no tag, no
    token beginning with [http] or [www] (the second not even after
    lower-casing) and no extra whitespace, but normalising them twice differs
    from normalising them once. *)
Lemma preprocess_text_not_idempotent :
  (clean_as_specified (L:=ascii_lib) (py "HTTP://X")
   /\ preprocess_text (L:=ascii_lib) (py "HTTP://X") = py "http://x"
   /\ preprocess_text (L:=ascii_lib) (py "http://x") = []
   /\ preprocess_text (L:=ascii_lib) (preprocess_text (L:=ascii_lib) (py "HTTP://X"))
      <> preprocess_text (L:=ascii_lib) (py "HTTP://X"))
  /\ (clean_as_specified (L:=ascii_lib) (py "xHTTP://y")
      /\ has_url_token (lower (L:=ascii_lib) (py "xHTTP://y")) = false
      /\ preprocess_text (L:=ascii_lib) (py "xHTTP://y") = py "xhttp://y"
      /\ preprocess_text (L:=ascii_lib) (py "xhttp://y") = py "x"
      /\ preprocess_text (L:=ascii_lib) (preprocess_text (L:=ascii_lib) (py "xHTTP://y"))
         <> preprocess_text (L:=ascii_lib) (py "xHTTP://y")).
Proof. repeat split; try reflexivity; vm_compute; discriminate. Qed.

Lemma preprocess_text_idempotent_witness :
  let x := py "I Loved This Movie!" in
  preprocess_text (L:=ascii_lib) x = lower (L:=ascii_lib) x
  /\ preprocess_text (L:=ascii_lib) (preprocess_text (L:=ascii_lib) x)
     = preprocess_text (L:=ascii_lib) x.
Proof.
  apply (preprocess_text_idempotent (L:=ascii_lib) (py "I Loved This Movie!"));
    repeat split; reflexivity.
Defined.

(** * Further properties of the normaliser *)

Lemma sub_from_sublist (p : pattern) (n : nat) (s : str) :
  sub_from p n s `sublist_of` s.
Proof.
  revert n. induction s as [|c s IH]; intros n; [constructor|].
  rewrite sub_from_cons. destruct n as [|n]; [|apply sublist_cons, IH].
  destruct (p (c :: s)) as [[|k]|];
    [apply sublist_skip, IH | apply sublist_cons, IH | apply sublist_skip, IH].
Qed.

Lemma forallb_sub_from (f : char -> bool) (p : pattern) (n : nat) (s : str) :
  forallb f s = true -> forallb f (sub_from p n s) = true.
Proof.
  revert n. induction s as [|c s IH]; intros n; [easy|].
  cbn [forallb]. intros H. apply andb_true_iff in H as [Hc Hs].
  rewrite sub_from_cons. destruct n as [|n]; [|auto].
  destruct (p (c :: s)) as [[|k]|]; cbn [forallb]; rewrite ?Hc; cbn [andb]; auto.
Qed.

Lemma squeeze_length (s : str) : (length (squeeze s) <= length s)%nat.
Proof.
  induction s as [|c s IH]; [reflexivity|].
  destruct (isspace c) eqn:E.
  - simpl squeeze. rewrite E. destruct s as [|d s]; [reflexivity|].
    destruct (isspace d); cbn [length] in *; lia.
  - rewrite squeeze_cons_nonspace by assumption. cbn [length]. lia.
Qed.

Lemma lstrip_shorter (s : str) : (length (lstrip s) <= length s)%nat.
Proof.
  induction s as [|c s IH]; [reflexivity|]. simpl lstrip.
  destruct (isspace c); cbn [length]; lia.
Qed.

Lemma collapse_length (s : str) : (length (join (py " ") (split s)) <= length s)%nat.
Proof.
  rewrite collapse_whitespace_correct. unfold collapse_whitespace, strip, rstrip.
  rewrite length_rev.
  etransitivity; [apply lstrip_shorter|]. rewrite length_rev.
  etransitivity; [apply lstrip_shorter|]. apply squeeze_length.
Qed.

Section NormalizerFurther.
Context {L : PyLib}.

(** X1.  Tag stripping, URL removal and whitespace collapsing are each
    idempotent: applied to its own result, the step changes nothing. *)
Theorem normalizer_steps_idempotent (s : str) :
  re_sub tag_pattern (re_sub tag_pattern s) = re_sub tag_pattern s
  /\ re_sub url_pattern (re_sub url_pattern s) = re_sub url_pattern s
  /\ join (py " ") (split (join (py " ") (split s))) = join (py " ") (split s).
Proof.
  split; [apply re_sub_no_match, sub_tags_no_match|].
  split; [apply re_sub_no_match, sub_urls_no_match|].
  now rewrite split_join by apply split_tokens.
Qed.

(** X2.  Tag stripping and URL removal only delete characters: what they
    leave is a subsequence of the entity-decoded text.  For ASCII text without
    an ampersand the output is never longer than the input. *)
Theorem preprocess_text_only_shortens (s : str) :
  re_sub url_pattern (re_sub tag_pattern (unescape s)) `sublist_of` unescape s
  /\ (existsb (N.eqb Chr.amp) s = false ->
      forallb is_ascii s = true ->
      (length (preprocess_text s) <= length s)%nat).
Proof.
  split.
  - etransitivity; apply sub_from_sublist.
  - intros Hamp Hascii. rewrite preprocess_text_unfold.
    unfold unescape. rewrite Hamp. cbn [negb].
    etransitivity; [apply collapse_length|].
    unfold lower. unfold re_sub.
    rewrite (forallb_sub_from _ _ _ _ (forallb_sub_from _ tag_pattern 0 _ Hascii)).
    rewrite length_map.
    apply sublist_length. etransitivity; apply sub_from_sublist.
Qed.

(** X3.  The output is made of the tokens of the lower-cased text that
    steps 1 to 3 leave, joined by single spaces: splitting the output gives
    those tokens back, and joining them again gives the output. *)
Theorem preprocess_text_tokens (s : str) :
  let words := split (lower (re_sub url_pattern (re_sub tag_pattern (unescape s)))) in
  preprocess_text s = join (py " ") words
  /\ split (preprocess_text s) = words
  /\ join (py " ") (split (preprocess_text s)) = preprocess_text s
  /\ Forall is_token words
  /\ (preprocess_text s = [] <-> words = []).
Proof.
  intros words. pose proof (split_tokens
    (lower (re_sub url_pattern (re_sub tag_pattern (unescape s))))) as Htok.
  fold words in Htok. rewrite preprocess_text_unfold. fold words.
  rewrite split_join by assumption.
  repeat split; try assumption; try reflexivity.
  - intros Hj. destruct words as [|w ws]; [reflexivity|].
    exfalso. now apply (join_tokens_nonempty (py " ") (w :: ws) Htok).
  - now intros ->.
Qed.
End NormalizerFurther.

Lemma lazy_any_then_gt_body (body : str) (tail : str) :
  forallb (fun c => negb (c =? Chr.gt) && negb (c =? Chr.newline)) body = true ->
  lazy_any_then_gt (body ++ Chr.gt :: tail) = Some (S (length body)).
Proof.
  induction body as [|c body IH]; [reflexivity|]. cbn [forallb app length].
  intros H. apply andb_true_iff in H as [Hc Hb].
  apply andb_true_iff in Hc as [Hg Hn]. apply negb_true_iff in Hg, Hn.
  cbn [lazy_any_then_gt]. now rewrite Hg, Hn, (IH Hb).
Qed.

Section TagOnlyReview.
Context {F : Type} {FO : FloatOps F} {L : PyLib}.

(** X4.  A review that is one tag, [<] ... [>] on one line, is not blank, so
    the HTTP layer lets it through; its normal form is the empty text, and
    that is what the vectorizer ([transform]) and then the classifier
    ([predict], [predict_proba]) are run on: [predict] returns the exception
    of the first of these calls that raises, as a prediction failure, or else
    the outcome built from the classifier's label and probabilities. *)
Theorem tag_only_review_scored_as_empty (a : SentimentAnalyzer F) (times : F * F)
    (body : str) :
  forallb (fun c => negb (c =? Chr.gt) && negb (c =? Chr.newline)) body = true ->
  existsb (N.eqb Chr.amp) body = false ->
  let text := Chr.lt :: body ++ [Chr.gt] in
  strip text <> []
  /\ preprocess_text text = []
  /\ consults_model a times [] (predict a times (VStr text))
  /\ predict a times (VStr text) =
       match classify a times [] with
       | Ok o => Ok o
       | Raise e => Ok (prediction_failed e)
       end
  /\ forall (app : App F) (r : request F) (n : Z) (d : dict F),
       analyzer app = Some a ->
       is_json r = true ->
       json r = Some (VDict d) ->
       d !! py "review" = Some (VStr text) ->
       (Z.of_nat (length text) <= MAX_REVIEW_LENGTH app)%Z ->
       predicted (predict_sentiment app r n) = [VStr text].
Proof.
  intros Hbody Hamp text.
  assert (Hstrip : strip text <> []).
  { unfold strip, text. rewrite lstrip_cons_nonspace by reflexivity.
    now rewrite rstrip_cons_nonspace by reflexivity. }
  assert (Hclean : preprocess_text text = []).
  { rewrite preprocess_text_unfold. unfold unescape, text.
    cbn [existsb]. rewrite existsb_app, Hamp. cbn [existsb orb negb].
    change (N.eqb Chr.amp Chr.lt) with false.
    change (N.eqb Chr.amp Chr.gt) with false. cbn [orb negb].
    rewrite (re_sub_cons_match tag_pattern Chr.lt (body ++ [Chr.gt]) (S (length body))).
    - rewrite drop_ge by (rewrite length_app; cbn; lia). reflexivity.
    - rewrite tag_pattern_lt, (lazy_any_then_gt_body body [] Hbody). reflexivity. }
  split; [exact Hstrip|]. split; [exact Hclean|].
  split; [rewrite <- Hclean; now apply predict_consults_model|]. split.
  - rewrite predict_str by discriminate. now rewrite Hclean.
  - intros app r n d Ha Hj Hb Hd Hlen. unfold predict_sentiment, get_json.
    rewrite Ha, Hj, Hb. cbn [negb py_in py_getitem]. unfold has_key.
    rewrite Hd. cbn [negb]. rewrite truthy_strip by assumption. cbn [negb].
    replace (MAX_REVIEW_LENGTH app <? Z.of_nat (length text))%Z with false
      by (symmetry; apply Z.ltb_ge; lia).
    reflexivity.
Qed.
End TagOnlyReview.

(** * Further properties of the prediction service and the HTTP layer *)

Section ServiceFurther.
Context {F : Type} {FO : FloatOps F} {L : PyLib}.

(** X5.  A result of [predict] has one of two shapes and nothing else: the
    single key [error], or exactly the four keys [sentiment], [confidence],
    [prediction_time_ms] and [label]. *)
Theorem predict_result_keys (a : SentimentAnalyzer F) (times : F * F)
    (v : value F) (d : dict F) :
  predict a times v = Ok d ->
  (is_error d /\ dom d = {[ py "error" ]})
  \/ (is_outcome d
      /\ dom d = {[ py "sentiment"; py "confidence"; py "prediction_time_ms";
                    py "label" ]}).
Proof.
  unfold predict. destruct (negb (truthy v) || negb (isinstance_str v)).
  { intros Hd. injection Hd as <-. left.
    split; [apply invalid_input_is_error|]. unfold invalid_input.
    now rewrite dom_singleton_L. }
  unfold predict_steps. destruct (as_str v) as [text|e]; cbn.
  2:{ intros Hd. injection Hd as <-. left.
      split; [apply prediction_failed_is_error|]. unfold prediction_failed.
      now rewrite dom_singleton_L. }
  destruct (classify a times (preprocess_text text)) as [o|e] eqn:Ec; cbn.
  2:{ intros Hd. injection Hd as <-. left.
      split; [apply prediction_failed_is_error|]. unfold prediction_failed.
      now rewrite dom_singleton_L. }
  intros Hd. injection Hd as <-. right.
  split; [eapply classify_Ok_outcome; eassumption|].
  apply classify_Ok in Ec
    as (f & pred & preds & row & rows & is_one & top & lab & _ & _ & _ & _ & _ & _ & ->).
  rewrite !dom_insert_L, dom_singleton_L. set_solver.
Qed.

Lemma predict_sentiment_valid (app : App F) (r : request F) (n : Z)
    (a : SentimentAnalyzer F) (text : str) :
  valid_review_request app r a text ->
  predict_sentiment app r n =
    {| new_request_count := n + 1;
       predicted := [VStr text];
       returned := Ok (review_answer a (times r 0) (n + 1) text) |}.
Proof.
  intros (Ha & Hj & (d & Hb & Hd) & Hs & Hlen).
  unfold predict_sentiment, get_json.
  rewrite Ha, Hj, Hb. cbn [negb py_in py_getitem]. unfold has_key at 1.
  rewrite Hd. cbn [negb]. rewrite truthy_strip by assumption. cbn [negb].
  replace (MAX_REVIEW_LENGTH app <? Z.of_nat (length text))%Z with false
    by (symmetry; apply Z.ltb_ge; lia).
  f_equal. unfold review_answer.
  destruct (predict a (times r 0) (VStr text)) as [result|e];
    cbn [try_except mbind result_bind]; [|reflexivity].
  now destruct (has_key (py "error") result).
Qed.

Ltac turned_away :=
  solve [ left; cbn [predicted returned respond http_code Exception BadRequest];
          unfold rejected, internal_error, error_message, error_only;
          repeat split; try reflexivity; try discriminate; lookup_keys; eauto ].

(** Either [predict_sentiment] turns the request away before any prediction,
    or the request is valid and the answer is the one built from [predict]. *)
Lemma predict_sentiment_inv (app : App F) (r : request F) (n : Z) :
  (predicted (predict_sentiment app r n) = []
   /\ rejected (respond (returned (predict_sentiment app r n))))
  \/ exists a text,
       valid_review_request app r a text
       /\ predict_sentiment app r n =
            {| new_request_count := n + 1;
               predicted := [VStr text];
               returned := Ok (review_answer a (times r 0) (n + 1) text) |}.
Proof.
  destruct (analyzer app) as [a|] eqn:Ha;
    [|unfold predict_sentiment; rewrite Ha; turned_away].
  destruct (is_json r) eqn:Hj;
    [|unfold predict_sentiment; rewrite Ha, Hj; turned_away].
  destruct (json r) as [data|] eqn:Hb;
    [|unfold predict_sentiment, get_json; rewrite Ha, Hj, Hb; turned_away].
  destruct data as [| | | |body|items|d];
    try (unfold predict_sentiment, get_json; rewrite Ha, Hj, Hb; turned_away).
  - unfold predict_sentiment, get_json. rewrite Ha, Hj, Hb. cbn [negb py_in].
    destruct (is_substring (py "review") body); turned_away.
  - unfold predict_sentiment, get_json. rewrite Ha, Hj, Hb. cbn [negb py_in].
    destruct (existsb _ items); turned_away.
  - destruct (d !! py "review") as [review|] eqn:Hd.
    2:{ unfold predict_sentiment, get_json. rewrite Ha, Hj, Hb.
        cbn [negb py_in]. unfold has_key. rewrite Hd. turned_away. }
    destruct review as [| | | |text| |];
      try (unfold predict_sentiment, get_json; rewrite Ha, Hj, Hb;
           cbn [negb py_in py_getitem]; unfold has_key; rewrite Hd; turned_away).
    destruct (strip text) as [|c rest] eqn:Hs.
    { unfold predict_sentiment, get_json. rewrite Ha, Hj, Hb.
      cbn [negb py_in py_getitem]. unfold has_key. rewrite Hd, Hs. turned_away. }
    destruct (MAX_REVIEW_LENGTH app <? Z.of_nat (length text))%Z eqn:Hlen.
    { unfold predict_sentiment, get_json. rewrite Ha, Hj, Hb.
      cbn [negb py_in py_getitem]. unfold has_key. rewrite Hd, Hs, Hlen.
      turned_away. }
    right. exists a, text.
    assert (Hv : valid_review_request app r a text).
    { repeat split; try assumption; [eauto | congruence | now apply Z.ltb_ge]. }
    split; [exact Hv | now apply predict_sentiment_valid].
Qed.

Lemma has_key_false {V} (k : str) (d : gmap (list N) V) :
  has_key k d = false <-> d !! k = None.
Proof. unfold has_key. destruct (d !! k); split; congruence. Qed.

Lemma review_answer_status (a : SentimentAnalyzer F) (times : F * F) (n : Z)
    (text : str) :
  match predict a times (VStr text) with
  | Ok result =>
      if has_key (py "error") result
      then review_answer a times n text = Json result 500
      else review_answer a times n text =
             Json (<[py "request_id" := VInt n]>
                   (<[py "review_length" := VInt (Z.of_nat (length text))]> result))
               200
  | Raise e => status_of (review_answer a times n text) = 500%Z
  end.
Proof.
  unfold review_answer. destruct (predict a times (VStr text)) as [result|e];
    [|reflexivity].
  now destruct (has_key (py "error") result).
Qed.

(** X6.  [/api/predict] answers 200 exactly when the request is valid (model
    loaded, JSON object whose ["review"] is a string, not blank, at most
    [MAX_REVIEW_LENGTH] characters) and [predict] returns a result without an
    [error]; the body is then that result with [review_length], the length of
    the raw review, and [request_id], the counter after its increment. *)
Theorem predict_sentiment_ok_iff (app : App F) (r : request F) (n : Z) :
  (status_of (respond (returned (predict_sentiment app r n))) = 200%Z <->
   exists a text result,
     valid_review_request app r a text
     /\ predict a (times r 0) (VStr text) = Ok result
     /\ result !! py "error" = None)
  /\ forall a text result,
       valid_review_request app r a text ->
       predict a (times r 0) (VStr text) = Ok result ->
       result !! py "error" = None ->
       predict_sentiment app r n =
         {| new_request_count := n + 1;
            predicted := [VStr text];
            returned :=
              Ok (Json (<[py "request_id" := VInt (n + 1)]>
                        (<[py "review_length" := VInt (Z.of_nat (length text))]>
                           result)) 200) |}.
Proof.
  assert (Hback : forall a text result,
             valid_review_request app r a text ->
             predict a (times r 0) (VStr text) = Ok result ->
             result !! py "error" = None ->
             predict_sentiment app r n =
               {| new_request_count := n + 1;
                  predicted := [VStr text];
                  returned :=
                    Ok (Json (<[py "request_id" := VInt (n + 1)]>
                              (<[py "review_length" := VInt (Z.of_nat (length text))]>
                                 result)) 200) |}).
  { intros a text result Hv Hp He. rewrite (predict_sentiment_valid _ _ _ _ _ Hv).
    pose proof (review_answer_status a (times r 0) (n + 1) text) as Hr.
    rewrite Hp in Hr. apply has_key_false in He. rewrite He in Hr. now rewrite Hr. }
  split; [|exact Hback]. split.
  - intros Hst. destruct (predict_sentiment_inv app r n) as [[_ Hrej]|(a & text & Hv & Heq)].
    + exfalso. unfold rejected in Hrej.
      destruct (respond (returned (predict_sentiment app r n))); cbn in Hst; tauto.
    + rewrite Heq in Hst. cbn [returned respond] in Hst.
      pose proof (review_answer_status a (times r 0) (n + 1) text) as Hr.
      destruct (predict a (times r 0) (VStr text)) as [result|e] eqn:Hp.
      * destruct (has_key (py "error") result) eqn:He;
          [rewrite Hr in Hst; discriminate|].
        exists a, text, result. apply has_key_false in He. auto.
      * rewrite Hr in Hst. discriminate.
  - intros (a & text & result & Hv & Hp & He).
    now rewrite (Hback a text result Hv Hp He).
Qed.

Lemma review_length_limit_run (app : App F) (r : request F) (n : Z)
    (a : SentimentAnalyzer F) (d : dict F) (text : str) :
  analyzer app = Some a ->
  is_json r = true ->
  json r = Some (VDict d) ->
  d !! py "review" = Some (VStr text) ->
  strip text <> [] ->
  if (MAX_REVIEW_LENGTH app <? Z.of_nat (length text))%Z
  then predict_sentiment app r n =
         {| new_request_count := n + 1;
            predicted := [];
            returned :=
              Ok (Json (<[py "current_length" := VInt (Z.of_nat (length text))]>
                        (error_message (py "Review too long")
                           (py "Review must be less than "
                            ++ str_of_Z (MAX_REVIEW_LENGTH app)
                            ++ py " characters"))) 400) |}
  else valid_review_request app r a text.
Proof.
  intros Ha Hj Hb Hd Hs.
  destruct (MAX_REVIEW_LENGTH app <? Z.of_nat (length text))%Z eqn:Hlen.
  - unfold predict_sentiment, get_json.
    rewrite Ha, Hj, Hb. cbn [negb py_in py_getitem]. unfold has_key.
    rewrite Hd. cbn [negb]. rewrite truthy_strip by assumption. cbn [negb].
    now rewrite Hlen.
  - repeat split; try assumption; [eauto | now apply Z.ltb_ge].
Qed.

(** X7.  The length limit is inclusive and is checked before any prediction:
    a non-blank review longer than [MAX_REVIEW_LENGTH] is answered 400 with
    its length as [current_length] and [predict] is not called; one of
    exactly [MAX_REVIEW_LENGTH] characters, or fewer, is predicted and
    answered 200 or 500. *)
Theorem review_length_limit (app : App F) (r : request F) (n : Z)
    (a : SentimentAnalyzer F) (d : dict F) (text : str) :
  analyzer app = Some a ->
  is_json r = true ->
  json r = Some (VDict d) ->
  d !! py "review" = Some (VStr text) ->
  strip text <> [] ->
  if (MAX_REVIEW_LENGTH app <? Z.of_nat (length text))%Z
  then predict_sentiment app r n =
         {| new_request_count := n + 1;
            predicted := [];
            returned :=
              Ok (Json (<[py "current_length" := VInt (Z.of_nat (length text))]>
                        (error_message (py "Review too long")
                           (py "Review must be less than "
                            ++ str_of_Z (MAX_REVIEW_LENGTH app)
                            ++ py " characters"))) 400) |}
  else predicted (predict_sentiment app r n) = [VStr text]
       /\ (status_of (respond (returned (predict_sentiment app r n))) = 200%Z
           \/ status_of (respond (returned (predict_sentiment app r n))) = 500%Z).
Proof.
  intros Ha Hj Hb Hd Hs.
  pose proof (review_length_limit_run app r n a d text Ha Hj Hb Hd Hs) as Hrun.
  destruct (MAX_REVIEW_LENGTH app <? Z.of_nat (length text))%Z eqn:Hlen.
  - exact Hrun.
  - rewrite (predict_sentiment_valid _ _ n _ _ Hrun). cbn [predicted returned respond].
    split; [reflexivity|].
    pose proof (review_answer_status a (times r 0) (n + 1) text) as Hr.
    destruct (predict a (times r 0) (VStr text)) as [result|e];
      [|right; exact Hr].
    destruct (has_key (py "error") result); rewrite Hr; [right | left]; reflexivity.
Qed.

(** X8.  With the model loaded and a JSON content type, a body that is not a
    JSON object never reaches a prediction.  A body that does not parse gets
    werkzeug's 400 page.  [null], a number or a boolean makes the membership
    test raise, which Flask turns into the 500 envelope; so does a string
    that contains ["review"] as a substring and an array that has the string
    ["review"] as an element, at the subscript.  Any other string or array is
    answered 400 for the missing field.  The request is counted in every
    case. *)
Theorem predict_sentiment_non_object_body (app : App F) (a : SentimentAnalyzer F)
    (r : request F) (n : Z) :
  analyzer app = Some a ->
  is_json r = true ->
  let s := predict_sentiment app r n in
  let missing : response F :=
    Json (error_message (py "Missing required field")
            (py "Request body must contain " ++ quote ++ py "review"
             ++ quote ++ py " field")) 400 in
  match json r with
  | None =>
      new_request_count s = (n + 1)%Z /\ predicted s = []
      /\ respond (returned s) = ErrorPage 400
  | Some (VDict _) => new_request_count s = (n + 1)%Z
  | Some (VStr body) =>
      new_request_count s = (n + 1)%Z /\ predicted s = []
      /\ respond (returned s) =
           if is_substring (py "review") body then internal_error else missing
  | Some (VList items) =>
      new_request_count s = (n + 1)%Z /\ predicted s = []
      /\ respond (returned s) =
           if existsb (fun v => match v with
                                | VStr t => bool_decide (t = py "review")
                                | _ => false
                                end) items
           then internal_error else missing
  | Some _ =>
      new_request_count s = (n + 1)%Z /\ predicted s = []
      /\ respond (returned s) = internal_error
  end.
Proof.
  intros Ha Hj s missing. subst s.
  destruct (json r) as [data|] eqn:Hb.
  2:{ unfold predict_sentiment, get_json. rewrite Ha, Hj, Hb. now cbn. }
  destruct data as [| | | |body|items|d];
    try (unfold predict_sentiment, get_json; rewrite Ha, Hj, Hb; now cbn).
  - unfold predict_sentiment, get_json. rewrite Ha, Hj, Hb. cbn [negb py_in].
    now destruct (is_substring (py "review") body).
  - unfold predict_sentiment, get_json. rewrite Ha, Hj, Hb. cbn [negb py_in].
    now destruct (existsb _ items).
  - apply predict_sentiment_count.
Qed.

Lemma predict_never_raises_str (a : SentimentAnalyzer F) (times : F * F) (text : str) :
  exists result, predict a times (VStr text) = Ok result.
Proof.
  destruct text as [|c text]; [now exists invalid_input|].
  rewrite predict_str by discriminate.
  destruct (classify a times (preprocess_text (c :: text))); eauto.
Qed.

(** The loop as a whole: one entry per item, in order. *)
Lemma batch_loop_imap (a : SentimentAnalyzer F) (times : nat -> F * F)
    (reviews : list (value F)) :
  forall (i : nat) (n : Z) (results : list (dict F)) (predicted : list (value F)),
    batch_loop a times i reviews n results predicted =
      ((n + Z.of_nat (length reviews))%Z,
       results ++ imap (fun j => batch_entry a times (j + i)) reviews,
       predicted ++ List.filter reaches_predict reviews).
Proof.
  induction reviews as [|review rest IH]; intros i n results predicted.
  - cbn. now rewrite Z.add_0_r, !app_nil_r.
  - cbn [batch_loop imap List.filter length].
    assert (Hext : imap ((fun j => batch_entry a times (j + i)) ∘ S) rest
                   = imap (fun j => batch_entry a times (j + S i)) rest).
    { apply imap_ext. intros j x _. cbn. now rewrite Nat.add_succ_r. }
    rewrite Hext.
    assert (Hz : (n + 1 + Z.of_nat (length rest) = n + Z.of_nat (S (length rest)))%Z)
      by lia.
    destruct review as [| | | |text| |]; cbn [reaches_predict batch_entry];
      try (rewrite IH, Hz, <- app_assoc; reflexivity).
    destruct (truthy (VStr (F:=F) (strip text))); cbn [negb].
    + rewrite IH, Hz, <- !app_assoc. reflexivity.
    + rewrite IH, Hz, <- app_assoc. reflexivity.
Qed.

Lemma batch_entries_at_zero (a : SentimentAnalyzer F) (times : nat -> F * F)
    (reviews : list (value F)) :
  imap (fun j => batch_entry a times (j + 0)) reviews
  = imap (batch_entry a times) reviews.
Proof. apply imap_ext. intros j x _. cbn. now rewrite Nat.add_0_r. Qed.

Lemma predict_batch_accepted (app : App F) (r : request F) (n : Z)
    (a : SentimentAnalyzer F) (reviews : list (value F)) :
  accepted_batch app r a reviews ->
  predict_batch app r n =
    {| new_request_count := n + Z.of_nat (length reviews);
       predicted := List.filter reaches_predict reviews;
       returned :=
         Ok (Json (<[py "total_reviews" := VInt (Z.of_nat (length reviews))]>
                   (<[py "successful_predictions" :=
                        VInt (Z.of_nat (length
                          (List.filter (fun e => negb (has_key (py "error") e))
                             (imap (batch_entry a (times r)) reviews))))]>
                    {[ py "results" :=
                         VList (VDict <$> imap (batch_entry a (times r)) reviews) ]}))
               200) |}.
Proof.
  intros (Ha & Hj & (d & Hb & Hd) & Hlo & Hhi).
  unfold predict_batch, get_json.
  rewrite Ha, Hj, Hb. cbn [negb py_in py_getitem]. unfold has_key at 1.
  rewrite Hd. cbn [negb].
  replace (length reviews =? 0)%nat with false by (symmetry; apply Nat.eqb_neq; lia).
  replace (100 <? length reviews)%nat with false by (symmetry; apply Nat.ltb_ge; lia).
  rewrite batch_loop_imap, batch_entries_at_zero. reflexivity.
Qed.

(** Either [predict_batch] turns the whole request away, leaving the counter
    alone, or the batch is accepted. *)
Lemma predict_batch_inv (app : App F) (r : request F) (n : Z) :
  (new_request_count (predict_batch app r n) = n
   /\ predicted (predict_batch app r n) = []
   /\ rejected (respond (returned (predict_batch app r n))))
  \/ exists a reviews, accepted_batch app r a reviews.
Proof.
  destruct (analyzer app) as [a|] eqn:Ha;
    [|unfold predict_batch; rewrite Ha; turned_away].
  destruct (is_json r) eqn:Hj;
    [|unfold predict_batch; rewrite Ha, Hj; turned_away].
  destruct (json r) as [data|] eqn:Hb;
    [|unfold predict_batch, get_json; rewrite Ha, Hj, Hb; turned_away].
  destruct data as [| | | |body|items|d];
    try (unfold predict_batch, get_json; rewrite Ha, Hj, Hb; turned_away).
  - unfold predict_batch, get_json. rewrite Ha, Hj, Hb. cbn [negb py_in].
    destruct (is_substring (py "reviews") body); turned_away.
  - unfold predict_batch, get_json. rewrite Ha, Hj, Hb. cbn [negb py_in].
    destruct (existsb _ items); turned_away.
  - destruct (d !! py "reviews") as [v|] eqn:Hd.
    2:{ unfold predict_batch, get_json. rewrite Ha, Hj, Hb.
        cbn [negb py_in]. unfold has_key. rewrite Hd. turned_away. }
    destruct v as [| | | | |reviews|];
      try (unfold predict_batch, get_json; rewrite Ha, Hj, Hb;
           cbn [negb py_in py_getitem]; unfold has_key; rewrite Hd; turned_away).
    destruct (length reviews =? 0)%nat eqn:H0.
    { unfold predict_batch, get_json. rewrite Ha, Hj, Hb.
      cbn [negb py_in py_getitem]. unfold has_key. rewrite Hd, H0. turned_away. }
    destruct (100 <? length reviews)%nat eqn:H100.
    { unfold predict_batch, get_json. rewrite Ha, Hj, Hb.
      cbn [negb py_in py_getitem]. unfold has_key. rewrite Hd, H0, H100.
      turned_away. }
    right. exists a, reviews. apply Nat.eqb_neq in H0. apply Nat.ltb_ge in H100.
    repeat split; try assumption; [eauto | lia].
Qed.

Lemma batch_entry_index (a : SentimentAnalyzer F) (times : nat -> F * F) (i : nat)
    (review : value F) :
  batch_entry a times i review !! py "index" = Some (VInt (Z.of_nat i)).
Proof.
  unfold batch_entry, item_error. repeat case_match; now lookup_keys.
Qed.

Lemma batch_entry_not_predicted (a : SentimentAnalyzer F) (times : nat -> F * F)
    (i : nat) (review : value F) :
  reaches_predict review = false ->
  batch_entry a times i review = item_error i (py "Invalid or empty review").
Proof.
  unfold batch_entry, reaches_predict. destruct review; try reflexivity.
  now intros ->.
Qed.

Lemma batch_entry_predicted (a : SentimentAnalyzer F) (times : nat -> F * F)
    (i : nat) (review : value F) :
  reaches_predict review = true ->
  exists result,
    predict a (times i) review = Ok result
    /\ batch_entry a times i review = <[py "index" := VInt (Z.of_nat i)]> result.
Proof.
  unfold batch_entry, reaches_predict. destruct review as [| | | |text| |];
    try discriminate.
  intros ->. cbn [negb].
  destruct (predict_never_raises_str a (times i) text) as [result Hp].
  exists result. now rewrite Hp.
Qed.

Lemma count_imap_le {A B} (P : B -> bool) (Q : A -> bool) (l : list A) :
  forall f : nat -> A -> B,
    (forall i x, P (f i x) = true -> Q x = true) ->
    (length (List.filter P (imap f l)) <= length (List.filter Q l))%nat.
Proof.
  induction l as [|x l IH]; intros f Hf; [reflexivity|].
  cbn [imap List.filter]. specialize (IH (f ∘ S) (fun i y => Hf (S i) y)).
  pose proof (Hf 0%nat x) as H0.
  destruct (P (f 0%nat x)); destruct (Q x); cbn [length]; try lia;
    discriminate (H0 eq_refl).
Qed.

Lemma filter_shorter {A} (f : A -> bool) (l : list A) :
  (length (List.filter f l) <= length l)%nat.
Proof.
  induction l as [|x l IH]; [reflexivity|]. cbn [List.filter].
  destruct (f x); cbn [length]; lia.
Qed.

(** X9.  An accepted batch (model loaded, JSON object whose ["reviews"] is a
    list of 1 to 100 items) is always answered 200, whatever the items are and
    whatever [predict] does with them.  The counter rises by the number of
    items; [predict] is called on the non-blank strings, in order; the results
    are one entry per item in input order, entry [i] carrying index [i];
    [total_reviews] is the number of items and [successful_predictions], the
    number of entries without [error], is at most the number of calls of
    [predict]. *)
Theorem accepted_batch_answer (app : App F) (r : request F) (n : Z)
    (a : SentimentAnalyzer F) (reviews : list (value F)) :
  accepted_batch app r a reviews ->
  exists body entries successful,
    predict_batch app r n =
      {| new_request_count := n + Z.of_nat (length reviews);
         predicted := List.filter reaches_predict reviews;
         returned := Ok (Json body 200) |}
    /\ body !! py "results" = Some (VList (VDict <$> entries))
    /\ body !! py "total_reviews" = Some (VInt (Z.of_nat (length reviews)))
    /\ body !! py "successful_predictions" = Some (VInt (Z.of_nat successful))
    /\ body !! py "error" = None
    /\ length entries = length reviews
    /\ (forall i review,
          reviews !! i = Some review ->
          entries !! i = Some (batch_entry a (times r) i review)
          /\ batch_entry a (times r) i review !! py "index"
             = Some (VInt (Z.of_nat i)))
    /\ successful
       = length (List.filter (fun e => negb (has_key (py "error") e)) entries)
    /\ (successful <= length (List.filter reaches_predict reviews) <= length reviews)%nat.
Proof.
  intros Hacc. rewrite (predict_batch_accepted _ _ n _ _ Hacc).
  eexists _, (imap (batch_entry a (times r)) reviews), _.
  split; [reflexivity|]. repeat split; try (now lookup_keys).
  - apply length_imap.
  - rewrite list_lookup_imap. now rewrite H.
  - apply batch_entry_index.
  - apply count_imap_le. intros i x Hx.
    destruct (reaches_predict x) eqn:E; [reflexivity|].
    rewrite (batch_entry_not_predicted a (times r) i x E) in Hx.
    unfold has_key, item_error in Hx. revert Hx. now lookup_keys.
  - apply filter_shorter.
Qed.

(** X10.  What an entry of a batch response means.  The entry for an item
    that is not a string or is blank is the error ["Invalid or empty review"]
    and [predict] is not called.  For a non-blank string the entry is the
    result of [predict] on it with [index] added, so an [error] that [predict]
    reports stays in the entry.  Hence the entry has no [error] exactly when
    the item is a non-blank string that [predict] answers without [error]. *)
Theorem batch_entry_meaning (app : App F) (r : request F) (n : Z)
    (a : SentimentAnalyzer F) (reviews : list (value F)) (i : nat)
    (review : value F) :
  accepted_batch app r a reviews ->
  reviews !! i = Some review ->
  exists body entries entry,
    returned (predict_batch app r n) = Ok (Json body 200)
    /\ body !! py "results" = Some (VList (VDict <$> entries))
    /\ entries !! i = Some entry
    /\ (reaches_predict review = false ->
        entry = item_error i (py "Invalid or empty review"))
    /\ (reaches_predict review = true ->
        exists result,
          predict a (times r i) review = Ok result
          /\ entry = <[py "index" := VInt (Z.of_nat i)]> result
          /\ entry !! py "error" = result !! py "error")
    /\ (entry !! py "error" = None <->
        reaches_predict review = true
        /\ exists result,
             predict a (times r i) review = Ok result
             /\ result !! py "error" = None).
Proof.
  intros Hacc Hi. rewrite (predict_batch_accepted _ _ n _ _ Hacc). cbn [returned].
  eexists _, (imap (batch_entry a (times r)) reviews), (batch_entry a (times r) i review).
  split; [reflexivity|]. split; [now lookup_keys|].
  split; [rewrite list_lookup_imap; now rewrite Hi|].
  assert (Hyes : reaches_predict review = true ->
                 exists result,
                   predict a (times r i) review = Ok result
                   /\ batch_entry a (times r) i review
                      = <[py "index" := VInt (Z.of_nat i)]> result
                   /\ batch_entry a (times r) i review !! py "error"
                      = result !! py "error").
  { intros Hr. destruct (batch_entry_predicted a (times r) i review Hr)
      as (result & Hp & He).
    exists result. split; [exact Hp|]. split; [exact He|].
    rewrite He. now lookup_keys. }
  split; [apply batch_entry_not_predicted|]. split; [exact Hyes|]. split.
  - intros Hnone. destruct (reaches_predict review) eqn:Hr.
    + split; [reflexivity|]. destruct (Hyes eq_refl) as (result & Hp & _ & He).
      exists result. split; [exact Hp | congruence].
    + rewrite (batch_entry_not_predicted a (times r) i review Hr) in Hnone.
      unfold item_error in Hnone. revert Hnone. now lookup_keys.
  - intros (Hr & result & Hp & He).
    destruct (Hyes Hr) as (result' & Hp' & _ & He'). congruence.
Qed.

(** X11.  The length limit applies to [/api/predict] only.  A non-blank
    review longer than [MAX_REVIEW_LENGTH] is answered 400 there, unpredicted;
    sent as the single item of a batch it is predicted, and the batch is
    answered 200 with the result of [predict] as its entry. *)
Theorem batch_ignores_length_limit (app : App F) (a : SentimentAnalyzer F)
    (single batch : request F) (n : Z) (d1 d2 : dict F) (text : str) :
  analyzer app = Some a ->
  is_json single = true ->
  json single = Some (VDict d1) ->
  d1 !! py "review" = Some (VStr text) ->
  is_json batch = true ->
  json batch = Some (VDict d2) ->
  d2 !! py "reviews" = Some (VList [VStr text]) ->
  strip text <> [] ->
  (MAX_REVIEW_LENGTH app < Z.of_nat (length text))%Z ->
  (predicted (predict_sentiment app single n) = []
   /\ status_of (respond (returned (predict_sentiment app single n))) = 400%Z)
  /\ predicted (predict_batch app batch n) = [VStr text]
  /\ exists body result,
       returned (predict_batch app batch n) = Ok (Json body 200)
       /\ predict a (times batch 0) (VStr text) = Ok result
       /\ body !! py "results"
          = Some (VList [VDict (<[py "index" := VInt 0]> result)]).
Proof.
  intros Ha Hj1 Hb1 Hd1 Hj2 Hb2 Hd2 Hs Hlen. split.
  - pose proof (review_length_limit_run app single n a d1 text Ha Hj1 Hb1 Hd1 Hs) as Hr.
    replace (MAX_REVIEW_LENGTH app <? Z.of_nat (length text))%Z with true in Hr
      by (symmetry; apply Z.ltb_lt; lia).
    now rewrite Hr.
  - assert (Hacc : accepted_batch app batch a [VStr text]).
    { repeat split; try assumption; [eauto | cbn; lia | cbn; lia]. }
    rewrite (predict_batch_accepted _ _ n _ _ Hacc).
    assert (Hr : reaches_predict (F:=F) (VStr text) = true)
      by (cbn [reaches_predict]; now apply truthy_strip).
    cbn [predicted returned List.filter]. rewrite Hr. split; [reflexivity|].
    destruct (batch_entry_predicted a (times batch) 0 (VStr text) Hr)
      as (result & Hp & He).
    eexists _, result. split; [reflexivity|]. split; [exact Hp|].
    lookup_keys. cbn [imap fmap list_fmap]. now rewrite He.
Qed.

(** X12.  Across all endpoints, a JSON response has status 200 exactly when
    its body has no top-level [error] field, and a response that is not JSON
    (the page of an HTTP exception) never has status 200. *)
Theorem error_field_iff_failure (app : App F) (r : request F) (n : Z) :
  match (handle app r n).2 with
  | Json body st => st = 200%Z <-> body !! py "error" = None
  | ErrorPage st => st <> 200%Z
  end.
Proof.
  assert (Hrej : forall resp : response F, rejected resp ->
            match resp with
            | Json body st => st = 200%Z <-> body !! py "error" = None
            | ErrorPage st => st <> 200%Z
            end).
  { intros [body st|st]; cbn; [|tauto]. intros [Hst [v Hv]]. rewrite Hv.
    split; [tauto | discriminate]. }
  unfold handle, serve. cbn [snd].
  destruct (target r); cbn [returned respond].
  - unfold home. split; [intros _; now lookup_keys | reflexivity].
  - unfold health_check. split; [intros _; now lookup_keys | reflexivity].
  - unfold get_stats. destruct (analyzer app).
    + split; [intros _; now lookup_keys | reflexivity].
    + split; [discriminate | now lookup_keys].
  - destruct (predict_sentiment_inv app r n) as [[_ Hr]|(a & text & _ & Heq)];
      [now apply Hrej|].
    rewrite Heq. cbn [returned respond].
    pose proof (review_answer_status a (times r 0) (n + 1) text) as Hr.
    destruct (predict a (times r 0) (VStr text)) as [result|e] eqn:Hp.
    + destruct (has_key (py "error") result) eqn:He; rewrite Hr.
      * unfold has_key in He. destruct (result !! py "error"); [|discriminate].
        split; discriminate.
      * apply has_key_false in He. split; [intros _; now lookup_keys | reflexivity].
    + unfold review_answer in *. rewrite Hp. unfold error_message.
      split; [discriminate | now lookup_keys].
  - destruct (predict_batch_inv app r n) as [(_ & _ & Hr)|(a & reviews & Hacc)];
      [now apply Hrej|].
    rewrite (predict_batch_accepted _ _ n _ _ Hacc). cbn [returned respond].
    split; [intros _; now lookup_keys | reflexivity].
  - unfold not_found, error_message. split; [discriminate | now lookup_keys].
  - discriminate.
Qed.

Lemma predict_sentiment_counter (app : App F) (r : request F) (n m : Z) :
  predicted (predict_sentiment app r m) = predicted (predict_sentiment app r n)
  /\ without_counter (respond (returned (predict_sentiment app r m)))
     = without_counter (respond (returned (predict_sentiment app r n))).
Proof.
  unfold predict_sentiment.
  repeat (case_match; try (cbn; split; reflexivity)).
  cbn [predicted returned]. split; [reflexivity|].
  match goal with
  | |- context [predict ?a ?t ?v] => destruct (predict a t v) as [result|e]
  end; cbn [mbind result_bind try_except respond]; [|reflexivity].
  destruct (has_key (py "error") result);
    cbn [try_except respond without_counter]; [reflexivity|].
  rewrite !(delete_insert_ne _ (py "total_requests") (py "request_id")) by key_ne.
  now rewrite !delete_insert_eq.
Qed.

Lemma predict_batch_counter (app : App F) (r : request F) (n m : Z) :
  (new_request_count (predict_batch app r m) - m
   = new_request_count (predict_batch app r n) - n)%Z
  /\ predicted (predict_batch app r m) = predicted (predict_batch app r n)
  /\ returned (predict_batch app r m) = returned (predict_batch app r n).
Proof.
  destruct (predict_batch_inv app r n) as [(Hn & Hpn & _)|(a & reviews & Hacc)].
  - destruct (predict_batch_inv app r m) as [(Hm & Hpm & _)|(a & reviews & Hacc)].
    + rewrite Hn, Hm, Hpn, Hpm. split; [lia|]. split; [reflexivity|].
      unfold predict_batch.
      repeat (case_match; try reflexivity);
        rewrite batch_loop_imap in *; simplify_eq; reflexivity.
    + rewrite (predict_batch_accepted _ _ n _ _ Hacc) in Hpn, Hn.
      rewrite !(predict_batch_accepted _ _ _ _ _ Hacc). cbn. split; [lia|].
      split; reflexivity.
  - rewrite !(predict_batch_accepted _ _ _ _ _ Hacc). cbn. split; [lia|].
    split; reflexivity.
Qed.

(** X13.  The request counter is only reported, never consulted.  Started
    from two different counter values, the same request is answered alike:
    the same calls of [predict], the same rise of the counter, and the same
    response up to the fields [request_id] and [total_requests].  The same
    holds for any sequence of requests served one after the other. *)
Theorem counter_is_only_reported (app : App F) (n m : Z) :
  (forall r : request F,
     predicted (serve app r m) = predicted (serve app r n)
     /\ ((handle app r m).1 - m = (handle app r n).1 - n)%Z
     /\ without_counter (handle app r m).2 = without_counter (handle app r n).2)
  /\ forall rs : list (request F),
       ((run app rs m).1 - m = (run app rs n).1 - n)%Z
       /\ without_counter <$> (run app rs m).2
          = without_counter <$> (run app rs n).2.
Proof.
  assert (Hone : forall (r : request F) (n m : Z),
            predicted (serve app r m) = predicted (serve app r n)
            /\ ((handle app r m).1 - m = (handle app r n).1 - n)%Z
            /\ without_counter (handle app r m).2
               = without_counter (handle app r n).2).
  { clear n m. intros r n m. unfold handle, serve. cbn [fst snd].
    destruct (target r); cbn [predicted new_request_count returned respond];
      try (split; [reflexivity|]; split; [lia | reflexivity]).
    - split; [reflexivity|]. split; [lia|]. unfold get_stats.
      destruct (analyzer app); [|reflexivity]. cbn [without_counter].
      now rewrite !delete_insert_eq.
    - destruct (predict_sentiment_counter app r n m) as [Hp Hr].
      split; [exact Hp|]. split; [|exact Hr].
      rewrite (proj1 (predict_sentiment_count app r m)),
        (proj1 (predict_sentiment_count app r n)). lia.
    - destruct (predict_batch_counter app r n m) as (Hc & Hp & Hr).
      split; [exact Hp|]. split; [exact Hc | now rewrite Hr]. }
  split; [intros r; apply Hone|].
  intros rs. revert n m. induction rs as [|r rs IH]; intros n m.
  - cbn. split; [lia | reflexivity].
  - cbn [run].
    destruct (Hone r n m) as (_ & Hc & Hr).
    destruct (handle app r m) as [m' respm].
    destruct (handle app r n) as [n' respn]. cbn [fst snd] in Hc, Hr.
    destruct (IH n' m') as [Hcs Hrs].
    destruct (run app rs m') as [m'' respsm].
    destruct (run app rs n') as [n'' respsn]. cbn [fst snd] in *.
    split; [lia|]. cbn [fmap list_fmap]. now rewrite Hr, Hrs.
Qed.

(** X16.  A service whose model failed to load makes no prediction at all
    and never looks at a request body: [/api/predict], [/api/predict/batch]
    and [/api/stats] answer 503 with an [error]; [/] and [/api/health] stay
    at 200 and report [model_loaded] false.  [/api/predict] still counts the
    request; no other endpoint does. *)
Theorem model_unavailable (app : App F) (r : request F) (n : Z) :
  analyzer app = None ->
  predicted (serve app r n) = []
  /\ (handle app r n).1
     = match target r with PredictSentiment => (n + 1)%Z | _ => n end
  /\ match target r with
     | Home | HealthCheck =>
         exists body, (handle app r n).2 = Json body 200
                      /\ body !! py "model_loaded" = Some (VBool false)
     | GetStats | PredictSentiment | PredictBatch =>
         exists body, (handle app r n).2 = Json body 503
                      /\ is_Some (body !! py "error")
     | NoSuchRoute => status_of (handle app r n).2 = 404%Z
     | WrongMethod => status_of (handle app r n).2 = 405%Z
     end.
Proof.
  intros Ha. unfold handle, serve, home, health_check, get_stats,
    predict_sentiment, predict_batch.
  destruct (target r); rewrite ?Ha;
    cbn [predicted new_request_count returned respond fst snd status_of];
    (split; [reflexivity|]); (split; [reflexivity|]);
    try reflexivity; eexists; (split; [reflexivity|]);
    unfold error_message, error_only; lookup_keys; eauto.
Qed.

(** X17.  [predict] sees a review only through its normal form: two
    non-empty reviews that [preprocess_text] maps to the same text get the
    same result from the same classifier at the same clock readings, be it an
    outcome or an error. *)
Theorem predict_depends_on_normal_form (a : SentimentAnalyzer F) (times : F * F)
    (s t : str) :
  s <> [] -> t <> [] ->
  preprocess_text s = preprocess_text t ->
  predict a times (VStr s) = predict a times (VStr t).
Proof.
  intros Hs Ht Heq. rewrite !predict_str by assumption. now rewrite Heq.
Qed.
End ServiceFurther.

(** ** Further properties of start-up *)

Section StartupProofs.
Context {F Feat : Type}.

Lemma starts_with_prefix (lit s : str) : starts_with lit (lit ++ s) = true.
Proof.
  induction lit as [|c lit IH]; [reflexivity|].
  cbn [Datatypes.app starts_with]. now rewrite N.eqb_refl, IH.
Qed.

Lemma path_join_trailing_slash (a b : str) (c : char) :
  last a = Some c -> c <> 47%N -> starts_with (py "/") b = false ->
  path_join (a ++ py "/") b = path_join a b.
Proof.
  intros Hl Hc Hb. unfold path_join. rewrite Hb.
  rewrite rev_app_distr. change (rev (py "/")) with [47%N].
  cbn [Datatypes.app]. rewrite N.eqb_refl.
  destruct a as [|x a] using rev_ind; [discriminate|].
  rewrite last_snoc in Hl. injection Hl as ->.
  rewrite rev_app_distr. cbn [rev Datatypes.app].
  apply N.eqb_neq in Hc. rewrite Hc. now rewrite <- !app_assoc.
Qed.

(** X14.  [load_models] succeeds exactly when both artifacts can be read:
    the classifier from [lr_model.pkl] and the vectorizer from
    [tfidf_vectorizer.pkl] under the model path.  When the classifier cannot
    be read the vectorizer file does not matter.  Whatever the reads raise
    comes out as a plain [Exception] whose message is ["Failed to load
    models: "] followed by the message of the first read that failed.  A
    trailing slash on the model path changes nothing. *)
Theorem load_models_outcome (read : list N -> result (pyobj F Feat))
    (model_path : str) :
  let model_file := path_join model_path (py "lr_model.pkl") in
  let vectorizer_file := path_join model_path (py "tfidf_vectorizer.pkl") in
  (forall loaded,
     load_models read model_path = Ok loaded <->
     read model_file = Ok loaded.1 /\ read vectorizer_file = Ok loaded.2)
  /\ (forall e,
        load_models read model_path = Raise e <->
        exists cause,
          e = Exception (py "Failed to load models: " ++ exn_str cause)
          /\ (read model_file = Raise cause
              \/ (exists model, read model_file = Ok model)
                 /\ read vectorizer_file = Raise cause))
  /\ (forall e,
        load_models read model_path = Raise e ->
        http_code e = None
        /\ starts_with (py "Failed to load models: ") (exn_str e) = true)
  /\ (forall c,
        last model_path = Some c -> c <> 47%N ->
        load_models read (model_path ++ py "/") = load_models read model_path).
Proof.
  intros model_file vectorizer_file.
  assert (Hraise : forall e,
            load_models read model_path = Raise e <->
            exists cause,
              e = Exception (py "Failed to load models: " ++ exn_str cause)
              /\ (read model_file = Raise cause
                  \/ (exists model, read model_file = Ok model)
                     /\ read vectorizer_file = Raise cause)).
  { intros e. unfold load_models. fold model_file vectorizer_file.
    destruct (read model_file) as [model|e1];
      cbn [mbind result_bind try_except].
    - destruct (read vectorizer_file) as [vectorizer|e2];
        cbn [mbind result_bind try_except].
      + split; [discriminate|]. intros (cause & _ & [?|[_ ?]]); discriminate.
      + split.
        * intros He. injection He as <-. exists e2. split; [reflexivity|].
          right. eauto.
        * intros (cause & -> & [?|[_ Hc]]); [discriminate|].
          now injection Hc as ->.
    - split.
      + intros He. injection He as <-. exists e1. eauto.
      + intros (cause & -> & [Hc|[[model ?] _]]); [|discriminate].
        now injection Hc as ->. }
  split; [|split; [exact Hraise|split]].
  - intros [model vectorizer]. unfold load_models.
    fold model_file vectorizer_file. cbn [fst snd].
    destruct (read model_file) as [m|e1]; cbn [mbind result_bind try_except].
    + destruct (read vectorizer_file) as [v|e2];
        cbn [mbind result_bind try_except].
      * split; [intros H; now injection H as -> -> | intros [H1 H2]; congruence].
      * split; [discriminate | intros [_ ?]; discriminate].
    + split; [discriminate | intros [? _]; discriminate].
  - intros e He. apply Hraise in He as (cause & -> & _).
    split; [reflexivity|]. cbn [exn_str Exception]. apply starts_with_prefix.
  - intros c Hl Hc. unfold load_models.
    now rewrite !(path_join_trailing_slash model_path _ c Hl Hc) by reflexivity.
Qed.

(** X15.  At start-up the model directory is [MODEL_PATH] from the
    environment, [models] when unset.  [analyzer] is [None] exactly when one
    of the two artifacts cannot be read; otherwise it transforms with the
    vectorizer object and predicts with the classifier object, and nothing
    else of either is used. *)
Theorem startup_analyzer (env : gmap (list N) (list N))
    (read : list N -> result (pyobj F Feat)) (max_review_length : Z)
    (metadata : option (value F)) :
  let dir := getenv env (py "MODEL_PATH") (py "models") in
  let model_file := path_join dir (py "lr_model.pkl") in
  let vectorizer_file := path_join dir (py "tfidf_vectorizer.pkl") in
  let app := startup env read max_review_length metadata in
  (env !! py "MODEL_PATH" = None ->
   model_file = py "models/lr_model.pkl"
   /\ vectorizer_file = py "models/tfidf_vectorizer.pkl")
  /\ (analyzer app = None <->
      (exists e, read model_file = Raise e)
      \/ (exists e, read vectorizer_file = Raise e))
  /\ (forall model vectorizer,
        read model_file = Ok model ->
        read vectorizer_file = Ok vectorizer ->
        analyzer app
        = Some {| features := Feat;
                  vectorizer_transform := obj_transform vectorizer;
                  model_predict := obj_predict model;
                  model_predict_proba := obj_predict_proba model |}).
Proof.
  intros dir model_file vectorizer_file app. split; [|split].
  - intros Henv. unfold model_file, vectorizer_file, dir, getenv.
    rewrite Henv. split; reflexivity.
  - unfold app, startup, new_analyzer, load_models.
    fold dir. fold model_file vectorizer_file.
    destruct (read model_file) as [m|e1]; cbn [mbind result_bind try_except].
    + destruct (read vectorizer_file) as [v|e2];
        cbn [mbind result_bind try_except analyzer].
      * split; [discriminate|]. intros [[e ?]|[e ?]]; discriminate.
      * split; [eauto | reflexivity].
    + cbn [analyzer]. split; [eauto | reflexivity].
  - intros model vectorizer Hm Hv.
    unfold app, startup, new_analyzer, load_models.
    fold dir. fold model_file vectorizer_file.
    rewrite Hm, Hv. reflexivity.
Qed.
End StartupProofs.

(** * Runs on concrete data *)

Lemma predict_rejects_empty_and_non_strings_witness :
  predict (L:=ascii_lib) toy_analyzer (0%Q, 0%Q) (VInt 5) = Ok invalid_input
  /\ is_error (invalid_input (F:=Q))
  /\ ~ is_outcome (invalid_input (F:=Q)).
Proof.
  apply (predict_rejects_empty_and_non_strings (L:=ascii_lib) toy_analyzer
           (0%Q, 0%Q) (VInt 5)).
  right. reflexivity.
Defined.

(** A space followed by a no-break space (U+00A0). *)
Lemma predict_accepts_whitespace_only_witness :
  preprocess_text (L:=ascii_lib) [32; 160] = []
  /\ consults_model toy_analyzer (0%Q, 0%Q) []
       (predict (L:=ascii_lib) toy_analyzer (0%Q, 0%Q) (VStr [32; 160]))
  /\ predict (L:=ascii_lib) toy_analyzer (0%Q, 0%Q) (VStr [32; 160]) =
       match classify toy_analyzer (0%Q, 0%Q) [] with
       | Ok o => Ok o
       | Raise e => Ok (prediction_failed e)
       end
  /\ predict (L:=ascii_lib) toy_analyzer (0%Q, 0%Q) (VStr [32; 160]) <> Ok invalid_input
  /\ (forall (app : App Q) (r : request Q) (n : Z) (d : dict Q),
       analyzer app = Some toy_analyzer ->
       is_json r = true ->
       json r = Some (VDict d) ->
       d !! py "review" = Some (VStr [32; 160]) ->
       predict_sentiment (L:=ascii_lib) app r n =
         {| new_request_count := n + 1;
            predicted := [];
            returned := Ok (Json (error_message (py "Empty review")
                                    (py "Review text cannot be empty")) 400) |})
  /\ forall (tm : nat -> Q * Q) (i : nat) (n : Z) (results : list (dict Q))
        (predicted : list (value Q)),
       batch_loop (L:=ascii_lib) toy_analyzer tm i [VStr [32; 160]] n results predicted =
         ((n + 1)%Z, results ++ [item_error i (py "Invalid or empty review")],
          predicted).
Proof.
  apply (predict_accepts_whitespace_only (L:=ascii_lib) toy_analyzer (0%Q, 0%Q)
           [32; 160]).
  - discriminate.
  - reflexivity.
Defined.

Lemma predict_outcome_invariant_witness :
  is_outcome toy_outcome
  /\ exists text f preds rows lab sent row top,
      VStr (F:=Q) (py "I loved this movie!") = VStr text
      /\ vectorizer_transform toy_analyzer [preprocess_text (L:=ascii_lib) text] = Ok f
      /\ model_predict toy_analyzer f = Ok (LInt lab :: preds)
      /\ model_predict_proba toy_analyzer f = Ok (row :: rows)
      /\ toy_outcome !! py "label" = Some (VInt lab)
      /\ (lab = 0 \/ lab = 1)%Z
      /\ toy_outcome !! py "sentiment" = Some (VStr sent)
      /\ (sent = py "Positive" <-> lab = 1%Z)
      /\ In top row
      /\ Forall (fun p => fle p top = true) row
      /\ toy_outcome !! py "confidence"
         = Some (VFloat (fround (fmul top (f_of_Z 100)) 2))
      /\ fle (f_of_Z 0) (fround (fmul top (f_of_Z 100)) 2) = true
      /\ fle (fround (fmul top (f_of_Z 100)) 2) (f_of_Z 100) = true.
Proof.
  apply (predict_outcome_invariant (L:=ascii_lib) toy_analyzer (0%Q, 0%Q)
           (VStr (py "I loved this movie!")) toy_outcome).
  - exact toy_analyzer_well_behaved.
  - vm_compute. reflexivity.
  - vm_compute. reflexivity.
Defined.

Lemma predict_sentiment_round_trip_witness :
  (exists body,
      handle (L:=ascii_lib) toy_app
        (post PredictSentiment
           (VDict {[ py "review" := VStr (py "I loved this movie!") ]})) 7
      = (8%Z, Json body 200)
      /\ body !! py "sentiment" = Some (VStr (py "Positive"))
      /\ body !! py "label" = Some (VInt 1)
      /\ body !! py "review_length" = Some (VInt 19)
      /\ body !! py "request_id" = Some (VInt 8))
  /\ forall (rs : list (request Q)) (m : Z),
       StronglySorted Z.lt (request_ids (run (L:=ascii_lib) toy_app rs m).2)
       /\ Forall (fun k => (m < k <= (run (L:=ascii_lib) toy_app rs m).1)%Z)
            (request_ids (run (L:=ascii_lib) toy_app rs m).2).
Proof.
  apply (predict_sentiment_round_trip (L:=ascii_lib) toy_app toy_analyzer
           (post PredictSentiment
              (VDict {[ py "review" := VStr (py "I loved this movie!") ]}))
           7 {[ py "review" := VStr (py "I loved this movie!") ]}
           [py "i loved this movie!"] 1 [] (2 # 10)%Q [(8 # 10)%Q] []).
  - reflexivity.
  - vm_compute. discriminate.
  - reflexivity.
  - reflexivity.
  - reflexivity.
  - vm_compute. reflexivity.
  - reflexivity.
  - reflexivity.
  - right. reflexivity.
  - reflexivity.
Defined.

Lemma predict_batch_isolates_bad_item_witness :
  exists body e0 e1 e2,
    handle (L:=ascii_lib) toy_app
      (post PredictBatch
         (VDict {[ py "reviews" :=
                     VList [VStr (py "I loved this movie!"); VStr [];
                            VStr (py "Terrible waste of time")] ]})) 7
    = (10%Z, Json body 200)
    /\ body !! py "results" = Some (VList [VDict e0; VDict e1; VDict e2])
    /\ body !! py "total_reviews" = Some (VInt 3)
    /\ body !! py "successful_predictions" = Some (VInt 2)
    /\ e0 = <[py "index" := VInt 0]> toy_outcome
    /\ e2 = <[py "index" := VInt 2]> toy_outcome
    /\ e0 !! py "index" = Some (VInt 0)
    /\ e1 !! py "index" = Some (VInt 1)
    /\ e2 !! py "index" = Some (VInt 2)
    /\ e0 !! py "error" = None
    /\ e1 !! py "error" = Some (VStr (py "Invalid or empty review"))
    /\ e2 !! py "error" = None.
Proof.
  apply (predict_batch_isolates_bad_item (L:=ascii_lib) toy_app toy_analyzer
           (post PredictBatch
              (VDict {[ py "reviews" :=
                          VList [VStr (py "I loved this movie!"); VStr [];
                                 VStr (py "Terrible waste of time")] ]}))
           7
           {[ py "reviews" :=
                VList [VStr (py "I loved this movie!"); VStr [];
                       VStr (py "Terrible waste of time")] ]}
           (py "I loved this movie!") (py "Terrible waste of time")
           toy_outcome toy_outcome).
  - reflexivity.
  - reflexivity.
  - reflexivity.
  - reflexivity.
  - vm_compute. reflexivity.
  - vm_compute. discriminate.
  - vm_compute. discriminate.
  - vm_compute. reflexivity.
  - vm_compute. reflexivity.
  - vm_compute. reflexivity.
  - vm_compute. reflexivity.
Defined.

(** C7 fails as worded: the review has 19 characters, and that is the
    [review_length] the response carries. *)
Lemma predict_sentiment_review_length_not_20 :
  exists body,
    handle (L:=ascii_lib) toy_app
      (post PredictSentiment
         (VDict {[ py "review" := VStr (py "I loved this movie!") ]})) 0
    = (1%Z, Json body 200)
    /\ length (py "I loved this movie!") = 19%nat
    /\ body !! py "review_length" = Some (VInt 19)
    /\ body !! py "review_length" <> Some (VInt 20).
Proof.
  eexists. split; [vm_compute; reflexivity|].
  split; [reflexivity|]. split; [vm_compute; reflexivity|].
  vm_compute. discriminate.
Qed.

(** C8 fails as worded: the counter also counts requests that never reach a
    prediction, here an empty review answered 400 and a request answered 503
    because no model is loaded. *)
Lemma request_counted_without_prediction :
  (let s := serve (L:=ascii_lib) toy_app
              (post PredictSentiment (VDict {[ py "review" := VStr [] ]})) 0 in
   new_request_count s = 1%Z
   /\ predicted s = []
   /\ status_of (respond (returned s)) = 400%Z
   /\ (new_request_count s - 0)%Z <> Z.of_nat (length (predicted s)))
  /\ (let s := serve (L:=ascii_lib) no_model_app
                 (post PredictSentiment
                    (VDict {[ py "review" := VStr (py "I loved this movie!") ]})) 0 in
      new_request_count s = 1%Z
      /\ predicted s = []
      /\ status_of (respond (returned s)) = 503%Z
      /\ (new_request_count s - 0)%Z <> Z.of_nat (length (predicted s))).
Proof. repeat split; try reflexivity; vm_compute; discriminate. Qed.

Lemma preprocess_text_output_shape_witness :
  let s1 := py "Great film http://x.y" in
  let s2 := py "good" ++ [Chr.newline] ++ py "movie <b>x</b>" in
  let s3 := py "my www http site" in
  (preprocess_text (L:=ascii_lib) s1 = py "great film"
   /\ has_match url_pattern (preprocess_text (L:=ascii_lib) s1) = false
   /\ has_url_token (preprocess_text (L:=ascii_lib) s1) = false)
  /\ (preprocess_text (L:=ascii_lib) s2 = py "good movie x"
      /\ has_whitespace_run (preprocess_text (L:=ascii_lib) s2) = false
      /\ has_match tag_pattern (preprocess_text (L:=ascii_lib) s2) = false)
  /\ (In (py "www") (split (preprocess_text (L:=ascii_lib) s3))
      /\ In (py "http") (split (preprocess_text (L:=ascii_lib) s3))).
Proof.
  intros s1 s2 s3.
  destruct (preprocess_text_output_shape (L:=ascii_lib) s1)
    as (_ & _ & _ & _ & _ & _ & _ & _ & _ & _ & _ & _ & Hurl & Htoken & _).
  destruct (preprocess_text_output_shape (L:=ascii_lib) s2)
    as (_ & Hrun & _ & _ & _ & _ & _ & _ & _ & Htag & _).
  destruct (preprocess_text_output_shape (L:=ascii_lib) s3)
    as (_ & _ & _ & _ & _ & _ & _ & _ & Hkept & _).
  split; [|split].
  - split; [reflexivity|].
    split; [etransitivity; [exact Hurl | reflexivity]
           | etransitivity; [exact Htoken | reflexivity]].
  - split; [reflexivity|]. split; [exact Hrun|].
    etransitivity; [exact Htag | reflexivity].
  - split; apply Hkept; try (now left); try (now right); vm_compute; tauto.
Defined.

Lemma tag_only_review_scored_as_empty_witness :
  strip (py "<br>") <> []
  /\ preprocess_text (L:=ascii_lib) (py "<br>") = []
  /\ consults_model toy_analyzer (0%Q, 0%Q) []
       (predict (L:=ascii_lib) toy_analyzer (0%Q, 0%Q) (VStr (py "<br>")))
  /\ predict (L:=ascii_lib) toy_analyzer (0%Q, 0%Q) (VStr (py "<br>")) =
       match classify toy_analyzer (0%Q, 0%Q) [] with
       | Ok o => Ok o
       | Raise e => Ok (prediction_failed e)
       end.
Proof.
  destruct (tag_only_review_scored_as_empty (L:=ascii_lib) toy_analyzer
              (0%Q, 0%Q) (py "br"))
    as (Hstrip & Hclean & Hmodel & Hpredict & _); [reflexivity | reflexivity |].
  split; [exact Hstrip|]. split; [exact Hclean|].
  split; [exact Hmodel | exact Hpredict].
Defined.

Lemma predict_result_keys_witness :
  (is_error toy_outcome /\ dom toy_outcome = {[ py "error" ]})
  \/ (is_outcome toy_outcome
      /\ dom toy_outcome = {[ py "sentiment"; py "confidence";
                              py "prediction_time_ms"; py "label" ]}).
Proof.
  apply (predict_result_keys (L:=ascii_lib) toy_analyzer (0%Q, 0%Q)
           (VStr (py "I loved this movie!")) toy_outcome).
  vm_compute. reflexivity.
Defined.

(** A service whose limit is the length of the review at hand. *)
Lemma review_length_limit_witness :
  let app := {| analyzer := Some toy_analyzer; MAX_REVIEW_LENGTH := 19;
                model_metadata := None |} in
  let r := post PredictSentiment
             (VDict {[ py "review" := VStr (py "I loved this movie!") ]}) in
  predicted (predict_sentiment (L:=ascii_lib) app r 7)
  = [VStr (py "I loved this movie!")]
  /\ (status_of (respond (returned (predict_sentiment (L:=ascii_lib) app r 7)))
      = 200%Z
      \/ status_of (respond (returned (predict_sentiment (L:=ascii_lib) app r 7)))
         = 500%Z).
Proof.
  intros app r.
  apply (review_length_limit (L:=ascii_lib) app r 7 toy_analyzer
           {[ py "review" := VStr (py "I loved this movie!") ]}
           (py "I loved this movie!")).
  - reflexivity.
  - reflexivity.
  - reflexivity.
  - reflexivity.
  - vm_compute. discriminate.
Defined.

Lemma predict_sentiment_non_object_body_witness :
  let s := predict_sentiment (L:=ascii_lib) toy_app
             (post PredictSentiment (VStr (py "my review"))) 7 in
  new_request_count s = 8%Z /\ predicted s = []
  /\ respond (returned s) = internal_error.
Proof.
  exact (predict_sentiment_non_object_body (L:=ascii_lib) toy_app toy_analyzer
           (post PredictSentiment (VStr (py "my review"))) 7 eq_refl eq_refl).
Defined.

Lemma toy_batch_accepted :
  accepted_batch toy_app
    (post PredictBatch
       (VDict {[ py "reviews" :=
                   VList [VStr (py "I loved this movie!"); VStr []; VInt 5] ]}))
    toy_analyzer [VStr (py "I loved this movie!"); VStr []; VInt 5].
Proof.
  split; [reflexivity|]. split; [reflexivity|].
  split; [eexists; split; reflexivity|]. cbn. lia.
Defined.

Lemma accepted_batch_answer_witness :
  let r := post PredictBatch
             (VDict {[ py "reviews" :=
                         VList [VStr (py "I loved this movie!"); VStr []; VInt 5] ]}) in
  exists body entries successful,
    predict_batch (L:=ascii_lib) toy_app r 7 =
      {| new_request_count := 10;
         predicted := [VStr (py "I loved this movie!")];
         returned := Ok (Json body 200) |}
    /\ body !! py "results" = Some (VList (VDict <$> entries))
    /\ body !! py "successful_predictions" = Some (VInt (Z.of_nat successful))
    /\ length entries = 3%nat
    /\ (successful <= 1)%nat.
Proof.
  intros r.
  destruct (accepted_batch_answer (L:=ascii_lib) toy_app r 7 toy_analyzer
              [VStr (py "I loved this movie!"); VStr []; VInt 5]
              toy_batch_accepted)
    as (body & entries & successful & Hrun & Hres & _ & Hsucc & _ & Hlen & _ & _ & Hle).
  exists body, entries, successful.
  split; [exact Hrun|]. split; [exact Hres|]. split; [exact Hsucc|].
  split; [exact Hlen | exact (proj1 Hle)].
Defined.

Lemma batch_entry_meaning_witness :
  let r := post PredictBatch
             (VDict {[ py "reviews" :=
                         VList [VStr (py "I loved this movie!"); VStr []; VInt 5] ]}) in
  exists body entries,
    returned (predict_batch (L:=ascii_lib) toy_app r 7) = Ok (Json body 200)
    /\ body !! py "results" = Some (VList (VDict <$> entries))
    /\ entries !! 2%nat = Some (item_error 2 (py "Invalid or empty review")).
Proof.
  intros r.
  destruct (batch_entry_meaning (L:=ascii_lib) toy_app r 7 toy_analyzer
              [VStr (py "I loved this movie!"); VStr []; VInt 5] 2 (VInt 5)
              toy_batch_accepted eq_refl)
    as (body & entries & entry & Hrun & Hres & Hentry & Hbad & _).
  exists body, entries. split; [exact Hrun|]. split; [exact Hres|].
  rewrite Hentry. f_equal. apply Hbad. reflexivity.
Defined.

(** A service whose limit is five characters. *)
Lemma batch_ignores_length_limit_witness :
  let app := {| analyzer := Some toy_analyzer; MAX_REVIEW_LENGTH := 5;
                model_metadata := None |} in
  let text := py "I loved this movie!" in
  let single := post PredictSentiment (VDict {[ py "review" := VStr text ]}) in
  let batch := post PredictBatch (VDict {[ py "reviews" := VList [VStr text] ]}) in
  status_of (respond (returned (predict_sentiment (L:=ascii_lib) app single 7)))
  = 400%Z
  /\ predicted (predict_batch (L:=ascii_lib) app batch 7) = [VStr text]
  /\ status_of (respond (returned (predict_batch (L:=ascii_lib) app batch 7)))
     = 200%Z.
Proof.
  intros app text single batch.
  destruct (batch_ignores_length_limit (L:=ascii_lib) app toy_analyzer single
              batch 7 {[ py "review" := VStr text ]}
              {[ py "reviews" := VList [VStr text] ]} text)
    as ((_ & Hsingle) & Hpredicted & body & result & Hbatch & _);
    try reflexivity; [vm_compute; discriminate|].
  split; [exact Hsingle|]. split; [exact Hpredicted|]. now rewrite Hbatch.
Defined.

(** Start-up from a model directory that lacks the vectorizer. *)
Lemma model_unavailable_witness :
  let app := startup (F:=Q) ∅ toy_files_no_vectorizer 5000 None in
  let r := post PredictSentiment
             (VDict {[ py "review" := VStr (py "I loved this movie!") ]}) in
  analyzer app = None
  /\ predicted (serve (L:=ascii_lib) app r 7) = []
  /\ (handle (L:=ascii_lib) app r 7).1 = 8%Z
  /\ exists body, (handle (L:=ascii_lib) app r 7).2 = Json body 503
                  /\ is_Some (body !! py "error").
Proof.
  intros app r. split; [reflexivity|].
  exact (model_unavailable (L:=ascii_lib) app r 7 eq_refl).
Defined.

Lemma predict_depends_on_normal_form_witness :
  preprocess_text (L:=ascii_lib) (py "GOOD  movie") = py "good movie"
  /\ predict (L:=ascii_lib) toy_analyzer (0%Q, 0%Q) (VStr (py "GOOD  movie"))
     = predict (L:=ascii_lib) toy_analyzer (0%Q, 0%Q) (VStr (py "good movie")).
Proof.
  split; [reflexivity|].
  apply (predict_depends_on_normal_form (L:=ascii_lib) toy_analyzer (0%Q, 0%Q)
           (py "GOOD  movie") (py "good movie")).
  - discriminate.
  - discriminate.
  - reflexivity.
Defined.
